(** * Vizier: acquisition builders, trust region and vectorized optimizer

    A shallow embedding of
      - [vizier/_src/algorithms/designers/gp/acquisitions.py]
      - [vizier/_src/algorithms/optimizers/vectorized_base.py]

    Numbers.  Python floats and JAX arrays hold IEEE values.  They are
    idealised here as exact rationals ([Qc], canonical fractions with
    Leibniz equality) extended with the two infinities: rounding is not
    modelled and there is no NaN.  The operations the code applies to
    possibly infinite values (negation, minimum, maximum, comparison and
    [-1e12 - distance]) never produce a NaN from NaN-free arguments.

    Arrays.  A 1-D array is a list, a 2-D array a list of rows.  Shapes are
    taken to agree as the docstrings of the source state them; element-wise
    operations are written with [zip_with]. *)

From Stdlib Require Import QArith Qcanon Lia.
From stdpp Require Import base numbers list sorting gmap strings.

Close Scope Qc_scope.
Close Scope Q_scope.

(** ** Extended rationals *)

Inductive xnum : Type :=
  | NInf
  | Fin (q : Qc)
  | PInf.

Global Instance xnum_eq_dec : EqDecision xnum.
Proof. solve_decision. Defined.

Global Instance xnum_inhabited : Inhabited xnum := populate (Fin 0%Qc).

Global Instance Qc_inhabited : Inhabited Qc := populate 0%Qc.

(** [n / d] as a float literal. *)
Definition qc (n : Z) (d : positive) : Qc := Q2Qc (n # d).

Definition xle (x y : xnum) : Prop :=
  match x, y with
  | NInf, _ => True
  | _, PInf => True
  | Fin a, Fin b => (a <= b)%Qc
  | _, _ => False
  end.

Definition xlt (x y : xnum) : Prop := xle x y ∧ x ≠ y.

Global Instance xle_dec : RelDecision xle.
Proof. intros [] []; simpl; apply _. Defined.

Global Instance xlt_dec : RelDecision xlt.
Proof. intros x y; unfold xlt; apply _. Defined.

(** [-x] *)
Definition xneg (x : xnum) : xnum :=
  match x with
  | NInf => PInf
  | Fin a => Fin (- a)%Qc
  | PInf => NInf
  end.

(** [jnp.minimum], [jnp.maximum] on scalars *)
Definition xmin (x y : xnum) : xnum := if decide (xle x y) then x else y.
Definition xmax (x y : xnum) : xnum := if decide (xle x y) then y else x.

(** [c - x] for a finite constant [c]. *)
Definition xsub_from (c : Qc) (x : xnum) : xnum :=
  match x with
  | NInf => PInf
  | Fin a => Fin (c - a)%Qc
  | PInf => NInf
  end.

(** [jnp.abs(a - b)] on finite entries *)
Definition Qcabs (a : Qc) : Qc := if decide (0 <= a)%Qc then a else (- a)%Qc.
Definition abs_diff (a b : Qc) : Qc := Qcabs (a - b)%Qc.


(** ** Python values and exceptions *)

Inductive exn : Type :=
  | ValueError (msg : string)
  | ZeroDivisionError
  | AttributeError (attr : string)
  | TypeError (msg : string).

Inductive result (A : Type) : Type :=
  | Ok (a : A)
  | Raise (e : exn).
Arguments Ok {A} a.
Arguments Raise {A} e.

Global Instance exn_eq_dec : EqDecision exn.
Proof. solve_decision. Defined.

Global Instance result_eq_dec {A} `{EqDecision A} : EqDecision (result A).
Proof. solve_decision. Defined.

Global Instance result_ret : MRet result := λ A a, Ok a.
Global Instance result_bind : MBind result := λ A B f r,
  match r with Ok a => f a | Raise e => Raise e end.

(** A computation that reads and writes a world [W] and may raise; what
    it wrote before raising stays written. *)
Definition M (W A : Type) : Type := W → result A * W.

Definition ret_M {W A} (a : A) : M W A := λ w, (Ok a, w).
Definition bind_M {W A B} (m : M W A) (f : A → M W B) : M W B :=
  λ w, match m w with
       | (Ok a, w') => f a w'
       | (Raise e, w') => (Raise e, w')
       end.
Definition raise_M {W A} (e : exn) : M W A := λ w, (Raise e, w).
Definition lift_M {W A} (r : result A) : M W A := λ w, (r, w).
Definition get_M {W} : M W W := λ w, (Ok w, w).
Definition modify_M {W} (f : W → W) : M W () := λ w, (Ok (), f w).

Notation "x <- m ;; k" := (bind_M m (λ x, k))
  (at level 62, m at next level, right associativity, only parsing).

(** ** Arrays *)

Abbreviation row := (list Qc).
Abbreviation matrix := (list row).

(** [jnp.zeros([n])], [jnp.zeros([n, d])] *)
Definition zeros (d : nat) : row := replicate d 0%Qc.
Definition zeros2 (n d : nat) : matrix := replicate n (zeros d).

(** [jnp.where(mask, 0.0, r)] for a mask over the last axis *)
Definition mask_row (mask : list bool) (r : row) : row :=
  zip_with (λ (m : bool) v, if m then 0%Qc else v) mask r.

(** [a[i]] for a JAX array: an index past the end is clamped to the last
    element. *)
Definition index {A} `{Inhabited A} (a : list A) (i : nat) : A :=
  a !!! (i `min` (length a - 1)).

(** [a[idx]] for an index array [idx] *)
Definition gather {A} `{Inhabited A} (a : list A) (idx : list nat) : list A :=
  index a <$> idx.

(** [jnp.max(a, axis=-1)], [jnp.min(a, axis=-1)] on one non-empty lane; the
    zero-size case, where JAX raises, is guarded by the callers. *)
Definition reduce_max (a : list xnum) : xnum := foldr xmax NInf a.
Definition reduce_min (a : list xnum) : xnum := foldr xmin PInf a.

(** [m.T] for a rectangular 2-D array *)
Definition transpose {A} `{Inhabited A} (m : list (list A))
  : list (list A) :=
  match m with
  | [] => []
  | r :: _ => (λ j, (λ r : list A, r !!! j) <$> m) <$> seq 0 (length r)
  end.

(** [jnp.argsort(a)]: the indices of [a] in ascending order of value, equal
    values keeping their order (JAX sorts stably). *)
Fixpoint argsort_insert (a : list xnum) (i : nat) (sorted : list nat)
  : list nat :=
  match sorted with
  | [] => [i]
  | j :: rest =>
      if decide (xle (a !!! j) (a !!! i))
      then j :: argsort_insert a i rest
      else i :: j :: rest
  end.

Definition argsort (a : list xnum) : list nat :=
  foldl (λ acc i, argsort_insert a i acc) [] (seq 0 (length a)).

(** ** External libraries

    JAX and TensorFlow Probability are not part of the repository.  Their
    functions are pure; the ones the code calls are taken as the fields of
    the classes below. *)

Class Jax := {
  KeyArray : Type;
  (** [jax.random.PRNGKey(seed)] *)
  PRNGKey : Z → KeyArray;
  (** [jax.random.split(key)] and [jax.random.split(key, num=3)] *)
  random_split : KeyArray → KeyArray * KeyArray;
  random_split3 : KeyArray → KeyArray * KeyArray * KeyArray;
  (** Python's truth value of a key object, as [x or y] takes it; the
      conversion raises for an array of more than one element. *)
  KeyArray_bool : KeyArray → result bool;
  (** [jnp.argpartition(a, kth)]: which permutation is returned is left to
      the implementation; its contract is [argpartition_spec] below. *)
  argpartition : list xnum → Z → list nat;
}.

(** The contract of [jnp.argpartition] for [0 <= kth < len(a)]: the result
    permutes the indices of [a], no entry before position [kth] is larger
    than the entry at [kth] and no entry after it is smaller. *)
Definition argpartition_spec `{Jax} : Prop :=
  ∀ (a : list xnum) (kth : nat), kth < length a →
    argpartition a (Z.of_nat kth) ≡ₚ seq 0 (length a) ∧
    ∀ i j pi pk pj,
      i ≤ kth → kth ≤ j →
      argpartition a (Z.of_nat kth) !! i = Some pi →
      argpartition a (Z.of_nat kth) !! kth = Some pk →
      argpartition a (Z.of_nat kth) !! j = Some pj →
      xle (a !!! pi) (a !!! pk) ∧ xle (a !!! pk) (a !!! pj).

(** ** acquisitions.py: trust regions *)

(** [converters.NumpyArraySpecType] and [converters.NumpyArraySpec] are
    declared outside the files modelled; the constructor the code tests
    for and the field it reads are kept. *)
Inductive NumpyArraySpecType : Type :=
  | CONTINUOUS
  | DISCRETE
  | ONEHOT_EMBEDDING.

Global Instance NumpyArraySpecType_eq_dec : EqDecision NumpyArraySpecType.
Proof. solve_decision. Defined.

Record NumpyArraySpec : Type := {
  spec_type : NumpyArraySpecType;
  num_dimensions : nat;
}.

(** [types.ContinuousAndCategoricalArray]: two aligned arrays; the number of
    columns of each is kept, as [shape[-1]] reads it. *)
Record ContinuousAndCategoricalArray : Type := {
  continuous : matrix;
  continuous_ncols : nat;
  categorical : list (list Z);
  categorical_ncols : nat;
}.

(** The type variable [_F] of the builders. *)
Inductive Features : Type :=
  | Array (a : matrix)
  | ContinuousAndCategorical (c : ContinuousAndCategoricalArray).

Module TrustRegion.

Record t : Type := mk {
  _trusted : matrix;
  _dof : nat;
  _trust_radius : Qc;
  _feature_is_missing : option (list bool);
  _observations_is_missing : option (list bool);
  _max_distances : list xnum;
}.

Definition _compute_trust_radius (dof : nat) (trusted : matrix) : Qc :=
  let min_radius := qc 2 10 in
  let dimension_factor := qc 5 1 in
  let shape0 := Qc_of_Z (Z.of_nat (length trusted)) in
  let trust_level :=
    ((qc 1 10 * shape0 + qc 9 10 * shape0)
       / (dimension_factor * Qc_of_Z (Z.of_nat dof + 1)))%Qc in
  (min_radius + (qc 5 10 - min_radius) * trust_level)%Qc.

Definition init (trusted : matrix) (specs : list NumpyArraySpec)
    (feature_is_missing observations_is_missing : option (list bool)) : t :=
  let dof := length specs in
  let trust_radius := _compute_trust_radius dof trusted in
  let max_distance :=
    flat_map
      (λ spec,
         if decide (spec_type spec = ONEHOT_EMBEDDING)
         then replicate (num_dimensions spec) (Fin trust_radius)
         else [PInf])
      specs in
  let max_distance :=
    match feature_is_missing with
    | Some fim =>
        max_distance
          ++ replicate (length fim - length max_distance) (Fin 0%Qc)
    | None => max_distance
    end in
  {| _trusted := trusted;
     _dof := dof;
     _trust_radius := trust_radius;
     _feature_is_missing := feature_is_missing;
     _observations_is_missing := observations_is_missing;
     _max_distances := max_distance |}.

Definition trust_radius (self : t) : Qc := _trust_radius self.

(** The [(N, D)] block of per-dimension distances of one query row. *)
Definition distances_of_row (self : t) (trusted : matrix) (x : row)
  : list (list xnum) :=
  let distances :=
    (λ tr : row, zip_with (λ a b, Fin (abs_diff a b)) tr x) <$> trusted in
  match _observations_is_missing self with
  | Some oim =>
      zip_with
        (λ (missing : bool) (d : list xnum),
           if missing then (λ _, PInf) <$> d else d)
        oim distances
  | None => distances
  end.

Definition linf_of_row (self : t) (trusted : matrix) (x : row) : xnum :=
  let distances_bounded :=
    (λ d, zip_with xmin d (_max_distances self))
      <$> distances_of_row self trusted x in
  let linf_distance := reduce_max <$> distances_bounded in
  reduce_min linf_distance.

(** The two reductions raise on a zero-size axis ([D = 0], [N = 0]). *)
Definition min_linf_distance (self : t) (xs : matrix)
  : result (list xnum) :=
  let trusted := _trusted self in
  let '(trusted, xs) :=
    match _feature_is_missing self with
    | Some fim => (mask_row fim <$> trusted, mask_row fim <$> xs)
    | None => (trusted, xs)
    end in
  if decide (_max_distances self = [])
  then Raise (ValueError
    "zero-size array to reduction operation max which has no identity")
  else if decide (trusted = [])
  then Raise (ValueError
    "zero-size array to reduction operation min which has no identity")
  else Ok (linf_of_row self trusted <$> xs).

End TrustRegion.

Module TrustRegionWithCategorical.

Record t : Type := mk {
  _trusted : ContinuousAndCategoricalArray;
  _min_radius : Qc;
  _dimension_factor : Qc;
  _dof : nat;
  _trust_radius : Qc;
  _max_distance_cont : list xnum;
}.

Definition _compute_trust_radius
    (trusted : ContinuousAndCategoricalArray)
    (min_radius dimension_factor : Qc) (dof : nat) : Qc :=
  let num_trusted_obs := Qc_of_Z (Z.of_nat (length (continuous trusted))) in
  let trust_level :=
    (num_trusted_obs / (dimension_factor * Qc_of_Z (Z.of_nat dof + 1)))%Qc in
  (min_radius + (qc 5 10 - min_radius) * trust_level)%Qc.

Definition init (trusted : ContinuousAndCategoricalArray)
    (min_radius dimension_factor : Qc) : t :=
  let dof := continuous_ncols trusted + categorical_ncols trusted in
  {| _trusted := trusted;
     _min_radius := min_radius;
     _dimension_factor := dimension_factor;
     _dof := dof;
     _trust_radius :=
       _compute_trust_radius trusted min_radius dimension_factor dof;
     _max_distance_cont := replicate (continuous_ncols trusted) PInf |}.

Definition trust_radius (self : t) : Qc := _trust_radius self.

Definition min_linf_distance (self : t) (xs : ContinuousAndCategoricalArray)
  : result (list xnum) :=
  if decide (continuous_ncols (_trusted self) = 0)
  then Raise (ValueError
    "zero-size array to reduction operation max which has no identity")
  else if decide (continuous (_trusted self) = [])
  then Raise (ValueError
    "zero-size array to reduction operation min which has no identity")
  else
    Ok ((λ x : row,
           let distances_cont :=
             (λ tr : row, zip_with (λ a b, Fin (abs_diff a b)) tr x)
               <$> continuous (_trusted self) in
           let linf_distance_cont := reduce_max <$> distances_cont in
           reduce_min linf_distance_cont)
          <$> continuous xs).

End TrustRegionWithCategorical.

(** ** acquisitions.py: acquisition functions *)

(** TensorFlow Probability: distributions and the closed-form and
    Monte-Carlo acquisition values of [tfp.experimental.bayesopt]. *)
Class Tfp `{Jax} := {
  Distribution : Type;
  dist_mean : Distribution → list Qc;
  dist_stddev : Distribution → list Qc;
  (** [dist.sample(n, seed=key)] *)
  dist_sample : Distribution → nat → KeyArray → list (list Qc);
  (** [dist.sample(n, key=key)]: [key] is no parameter of [sample] and is
      handed on to the sampler of the distribution. *)
  dist_sample_key : Distribution → nat → KeyArray → result (list (list Qc));
  dist_batch_shape : Distribution → list nat;
  tfd_Normal : matrix → matrix → Distribution;
  (** [tfd.MixtureSameFamily(tfd.Categorical(logits=l), components)] *)
  tfd_MixtureSameFamily : list Qc → Distribution → Distribution;
  GaussianProcessExpectedImprovement :
    Distribution → option matrix → list xnum;
  GaussianProcessProbabilityOfImprovement :
    Distribution → option matrix → list xnum;
  (** The estimators that the two sampling-based acquisitions apply to the
      samples they draw. *)
  parallel_expected_improvement :
    option matrix → list (list Qc) → list xnum;
  parallel_upper_confidence_bound :
    option matrix → Qc → list (list Qc) → list xnum;
}.

Section AcquisitionFunctions.
Context `{Tfp}.

(** [ParallelExpectedImprovement(dist, labels, seed, num_samples)()] and
    [ParallelUpperConfidenceBound(...)()] draw
    [dist.sample(num_samples, seed=seed)] and reduce the samples. *)
Definition ParallelExpectedImprovement (dist : Distribution)
    (labels : option matrix) (seed : KeyArray) (num_samples : nat)
  : list xnum :=
  parallel_expected_improvement labels (dist_sample dist num_samples seed).

Definition ParallelUpperConfidenceBound (dist : Distribution)
    (labels : option matrix) (seed : KeyArray) (exploration : Qc)
    (num_samples : nat) : list xnum :=
  parallel_upper_confidence_bound labels exploration
    (dist_sample dist num_samples seed).

(** The classes implementing the [AcquisitionFunction] protocol, and
    [Callable] for any other object with that call signature. *)
Inductive AcquisitionFunction : Type :=
  | UCB (coefficient : Qc)
  | HyperVolumeScalarization (coefficient : Qc)
  | EI
  | PI
  | QEI (num_samples : nat) (seed : option KeyArray)
  | QUCB (coefficient : Qc) (num_samples : nat) (seed : option KeyArray)
  | Callable
      (f : Distribution → option Features → option matrix
           → result (list xnum)).

(** [seed or jax.random.PRNGKey(0)] *)
Definition seed_or_default (seed : option KeyArray) : result KeyArray :=
  match seed with
  | None => Ok (PRNGKey 0)
  | Some key =>
      truth ← KeyArray_bool key;
      Ok (if truth : bool then key else PRNGKey 0)
  end.

(** [__call__] *)
Definition call (self : AcquisitionFunction) (dist : Distribution)
    (features : option Features) (labels : option matrix)
  : result (list xnum) :=
  match self with
  | UCB coefficient =>
      Ok (zip_with (λ m s, Fin (m + coefficient * s)%Qc)
            (dist_mean dist) (dist_stddev dist))
  | HyperVolumeScalarization coefficient =>
      Ok (zip_with (λ m s, xmin (Fin m) (Fin (coefficient * s)%Qc))
            (dist_mean dist) (dist_stddev dist))
  | EI => Ok (GaussianProcessExpectedImprovement dist labels)
  | PI => Ok (GaussianProcessProbabilityOfImprovement dist labels)
  | QEI num_samples seed =>
      seed ← seed_or_default seed;
      Ok (ParallelExpectedImprovement dist labels seed num_samples)
  | QUCB coefficient num_samples seed =>
      seed ← seed_or_default seed;
      Ok (ParallelUpperConfidenceBound dist labels seed coefficient
            num_samples)
  | Callable f => f dist features labels
  end.

End AcquisitionFunctions.

(** ** acquisitions.py: acquisition builders *)

(** The parts of [pyvizier] the builders and the optimizer touch.  A
    [ProblemStatement] is a mutable Python object: problems live in a store
    and are passed by reference. *)
Class Pyvizier := {
  SearchSpace : Type;
  Metadata : Type;
  ParameterDict : Type;
}.

Inductive ObjectiveMetricGoal : Type :=
  | MAXIMIZE
  | MINIMIZE.

Record MetricInformation : Type := {
  name : string;
  goal : ObjectiveMetricGoal;
}.

(** [vz.MetricsConfig]: an ordered collection of metrics. *)
Definition MetricsConfig : Type := list MetricInformation.

Record ProblemStatement `{Pyvizier} : Type := {
  search_space : SearchSpace;
  metric_information : MetricsConfig;
  metadata : Metadata;
}.

Definition ref : Type := nat.
Abbreviation store := (gmap ref ProblemStatement).

Section Store.
Context `{Pyvizier}.

(** Reading through a reference; a Python reference is never dangling. *)
Definition deref (p : ref) (h : store) : result ProblemStatement :=
  match h !! p with
  | Some v => Ok v
  | None => Raise (ValueError "dangling reference")
  end.

(** [copy.deepcopy(problem)]: a new object with the same contents. *)
Definition deepcopy (p : ref) : M store ref :=
  h <- get_M;;
  v <- lift_M (deref p h);;
  let q := fresh (dom h) in
  _ <- modify_M (λ h : store, <[q := v]> h);;
  ret_M q.

(** [problem.metric_information = config] *)
Definition set_metric_information (p : ref) (config : MetricsConfig)
  : M store () :=
  h <- get_M;;
  v <- lift_M (deref p h);;
  modify_M
    (λ h : store,
       <[p := {| search_space := search_space v;
                 metric_information := config;
                 metadata := metadata v |}]> h).
End Store.

(** [converters.TrialToArrayConverter] and its padded variant. *)
Record ArrayConverter `{Pyvizier} (Trial : Type) : Type := {
  (** [isinstance(converter, converters.PaddedTrialToArrayConverter)] *)
  is_padded : bool;
  output_specs : list NumpyArraySpec;
  (** [to_features(trials)], as the padded array for a padded converter *)
  to_features : list Trial → matrix;
  (** [to_features([]).shape[-1]] *)
  to_features_ncols : nat;
  (** [to_parameters(jnp.expand_dims(row, axis=0))[0]] *)
  to_parameters : row → ParameterDict;
}.
Arguments is_padded {_ _} _.
Arguments output_specs {_ _} _.
Arguments to_features {_ _} _ _.
Arguments to_features_ncols {_ _} _.
Arguments to_parameters {_ _} _ _.

(** [sp.StochasticProcessModel] with its trained state. *)
Class StochasticProcess `{Tfp} := {
  Model : Type;
  ModelState : Type;
  (** [model.apply(state, xs, features, labels,
        method=model.posterior_predictive, observations_is_missing=...)] *)
  posterior_predictive :
    Model → ModelState → Features → Features → matrix
    → option (list bool) → Distribution;
  (** The members of the ensemble stacked in the leading axis of a state,
      over which [jax.vmap] maps. *)
  ensemble : ModelState → list ModelState;
}.

(** The trust region a builder holds: either class. *)
Inductive AnyTrustRegion : Type :=
  | Plain (tr : TrustRegion.t)
  | WithCategorical (tr : TrustRegionWithCategorical.t).

Definition any_trust_radius (tr : AnyTrustRegion) : Qc :=
  match tr with
  | Plain tr => TrustRegion.trust_radius tr
  | WithCategorical tr => TrustRegionWithCategorical.trust_radius tr
  end.

Definition any_min_linf_distance (tr : AnyTrustRegion) (xs : Features)
  : result (list xnum) :=
  match tr, xs with
  | Plain tr, Array xs => TrustRegion.min_linf_distance tr xs
  | WithCategorical tr, ContinuousAndCategorical xs =>
      TrustRegionWithCategorical.min_linf_distance tr xs
  | Plain _, ContinuousAndCategorical _ =>
      Raise (TypeError "ContinuousAndCategoricalArray is not subscriptable")
  | WithCategorical _, Array _ => Raise (AttributeError "continuous")
  end.

(** Reading an attribute that [build] may not have set. *)
Definition getattr {A} (attr : string) (v : option A) : result A :=
  match v with
  | Some a => Ok a
  | None => Raise (AttributeError attr)
  end.

Definition not_built : exn :=
  ValueError "Acquisition must be built first via build().".

(** [jnp.where(distance <= trust_radius, acquisition, -1e12 - distance)] on
    one lane of acquisition values. *)
Definition trust_region_gate (trust_radius : Qc) (distance : list xnum)
    (acquisition : list xnum) : list xnum :=
  zip_with
    (λ d a,
       if decide (xle d (Fin trust_radius))
       then a
       else xsub_from (qc (-1000000000000) 1) d)
    distance acquisition.

Section PredictiveDistribution.
Context `{StochasticProcess}.

Definition _build_predictive_distribution
    (model : Model) (state : ModelState) (features : Features)
    (labels : matrix) (observations_is_missing : option (list bool))
    (use_vmap : bool) : Features → Distribution :=
  let _predict_on_array_one_model (state : ModelState) (xs : Features) :=
    posterior_predictive model state xs features labels
      observations_is_missing in
  λ xs,
    if negb use_vmap then _predict_on_array_one_model state xs
    else
      let _predict_mean_and_stddev (state_ : ModelState) :=
        let dist := _predict_on_array_one_model state_ xs in
        (dist_mean dist, dist_stddev dist) in
      let pp := _predict_mean_and_stddev <$> ensemble state in
      let batched_normal :=
        tfd_Normal (transpose (fst <$> pp)) (transpose (snd <$> pp)) in
      tfd_MixtureSameFamily
        (replicate (dist_batch_shape batched_normal !!! 1) 1%Qc)
        batched_normal.
End PredictiveDistribution.

Module GPBanditAcquisitionBuilder.
Section Builder.
Context `{StochasticProcess} `{Pyvizier}.

(** The attributes of a builder.  [build] also stores three closures,
    [_predict_on_array], [_sample_on_array] and [_acquisition_on_array];
    they refer to [self], to [features] and to [labels], and are the
    functions [predict_on_array_fn], [sample_on_array_fn] and
    [acquisition_on_array_fn] below applied to the builder, which keeps
    the two arrays that the last closure captures. *)
Record t : Type := mk {
  acquisition_fn : AcquisitionFunction;
  use_trust_region : bool;
  _built : bool;
  _get_predictive_dist : option (Features → Distribution);
  _tr : option AnyTrustRegion;
  _acquisition_problem : option ref;
  captured_features : option Features;
  captured_labels : option matrix;
}.

(** A builder object and the store of problem statements. *)
Record world : Type := mk_world { self : t; heap : store }.

Definition on_self (f : t → t) : M world () :=
  modify_M (λ w, {| self := f (self w); heap := heap w |}).

Definition on_heap {A} (m : M store A) : M world A :=
  λ w, let '(r, h) := m (heap w) in (r, {| self := self w; heap := h |}).

Definition set_get_predictive_dist (v : Features → Distribution) (s : t) :=
  mk (acquisition_fn s) (use_trust_region s) (_built s) (Some v) (_tr s)
     (_acquisition_problem s) (captured_features s) (captured_labels s).
Definition set_tr (v : AnyTrustRegion) (s : t) :=
  mk (acquisition_fn s) (use_trust_region s) (_built s)
     (_get_predictive_dist s) (Some v) (_acquisition_problem s)
     (captured_features s) (captured_labels s).
Definition set_captured (features : Features) (labels : matrix) (s : t) :=
  mk (acquisition_fn s) (use_trust_region s) (_built s)
     (_get_predictive_dist s) (_tr s) (_acquisition_problem s)
     (Some features) (Some labels).
Definition set_acquisition_problem (v : ref) (s : t) :=
  mk (acquisition_fn s) (use_trust_region s) (_built s)
     (_get_predictive_dist s) (_tr s) (Some v)
     (captured_features s) (captured_labels s).
Definition set_built (v : bool) (s : t) :=
  mk (acquisition_fn s) (use_trust_region s) v
     (_get_predictive_dist s) (_tr s) (_acquisition_problem s)
     (captured_features s) (captured_labels s).

(** The attrs constructor followed by [__attrs_post_init__]. *)
Definition init (acquisition_fn : AcquisitionFunction)
    (use_trust_region : bool) : t :=
  {| acquisition_fn := acquisition_fn;
     use_trust_region := use_trust_region;
     _built := false;
     _get_predictive_dist := None;
     _tr := None;
     _acquisition_problem := None;
     captured_features := None;
     captured_labels := None |}.

Definition predict_on_array_fn (self : t) (xs : Features)
  : result (list Qc * list Qc) :=
  get_dist ← getattr "_get_predictive_dist" (_get_predictive_dist self);
  let dist := get_dist xs in
  Ok (dist_mean dist, dist_stddev dist).

Definition sample_on_array_fn (self : t) (xs : Features)
    (num_samples : nat) (key : KeyArray) : result (list (list Qc)) :=
  get_dist ← getattr "_get_predictive_dist" (_get_predictive_dist self);
  let dist := get_dist xs in
  Ok (dist_sample dist num_samples key).

Definition acquisition_on_array_fn (self : t) (xs : Features)
  : result (list xnum) :=
  get_dist ← getattr "_get_predictive_dist" (_get_predictive_dist self);
  let dist := get_dist xs in
  acquisition ←
    call (acquisition_fn self) dist (captured_features self)
      (captured_labels self);
  if use_trust_region self then
    tr ← getattr "_tr" (_tr self);
    if decide (any_trust_radius tr < qc 5 10)%Qc then
      distance ← any_min_linf_distance tr xs;
      Ok (trust_region_gate (any_trust_radius tr) distance acquisition)
    else Ok acquisition
  else Ok acquisition.

Definition build {Trial} (problem : ref) (model : Model)
    (state : ModelState) (features : Features) (labels : matrix)
    (converter : ArrayConverter Trial)
    (observations_is_missing feature_is_missing : option (list bool))
    (use_vmap : bool) : M world () :=
  _ <- on_self
         (set_get_predictive_dist
            (_build_predictive_distribution model state features labels
               observations_is_missing use_vmap));;
  w <- get_M;;
  _ <- (if use_trust_region (self w) then
          match features with
          | Array trusted =>
              on_self
                (set_tr
                   (Plain
                      (TrustRegion.init trusted (output_specs converter)
                         feature_is_missing observations_is_missing)))
          | ContinuousAndCategorical trusted =>
              on_self
                (set_tr
                   (WithCategorical
                      (TrustRegionWithCategorical.init trusted
                         (qc 2 10) (qc 5 1))))
          end
        else ret_M ());;
  _ <- on_self (set_captured features labels);;
  acquisition_problem <- on_heap (deepcopy problem);;
  let config := [ {| name := "acquisition"; goal := MAXIMIZE |} ] in
  _ <- on_heap (set_metric_information acquisition_problem config);;
  _ <- on_self (set_acquisition_problem acquisition_problem);;
  on_self (set_built true).

(** *** Properties *)

Definition acquisition_problem (self : t) : result ref :=
  if negb (_built self) then Raise not_built
  else getattr "_acquisition_problem" (_acquisition_problem self).

Definition acquisition_on_array (self : t)
  : result (Features → result (list xnum)) :=
  if negb (_built self) then Raise not_built
  else Ok (acquisition_on_array_fn self).

Definition predict_on_array (self : t)
  : result (Features → result (list Qc * list Qc)) :=
  if negb (_built self) then Raise not_built
  else Ok (predict_on_array_fn self).

Definition metadata_dict (self : t) : result (list (string * Qc)) :=
  if negb (_built self) then Raise not_built
  else if negb (use_trust_region self) then Ok []
  else
    tr ← getattr "_tr" (_tr self);
    Ok [("trust_radius", any_trust_radius tr)].

Definition sample_on_array (self : t)
  : result (Features → nat → KeyArray → result (list (list Qc))) :=
  if negb (_built self) then Raise not_built
  else Ok (sample_on_array_fn self).

End Builder.
End GPBanditAcquisitionBuilder.

Module GPBanditMultiAcquisitionBuilder.
Section Builder.
Context `{StochasticProcess} `{Pyvizier}.

(** [acquisition_fns] is a dict: an association list in insertion order
    whose keys are distinct. *)
Record t : Type := mk {
  acquisition_fns : list (string * AcquisitionFunction);
  use_trust_region : bool;
  _built : bool;
  _get_predictive_dist : option (Features → Distribution);
  _tr : option AnyTrustRegion;
  _acquisition_problem : option ref;
  captured_features : option Features;
  captured_labels : option matrix;
}.

Record world : Type := mk_world { self : t; heap : store }.

Definition on_self (f : t → t) : M world () :=
  modify_M (λ w, {| self := f (self w); heap := heap w |}).

Definition on_heap {A} (m : M store A) : M world A :=
  λ w, let '(r, h) := m (heap w) in (r, {| self := self w; heap := h |}).

Definition set_get_predictive_dist (v : Features → Distribution) (s : t) :=
  mk (acquisition_fns s) (use_trust_region s) (_built s) (Some v) (_tr s)
     (_acquisition_problem s) (captured_features s) (captured_labels s).
Definition set_tr (v : AnyTrustRegion) (s : t) :=
  mk (acquisition_fns s) (use_trust_region s) (_built s)
     (_get_predictive_dist s) (Some v) (_acquisition_problem s)
     (captured_features s) (captured_labels s).
Definition set_captured (features : Features) (labels : matrix) (s : t) :=
  mk (acquisition_fns s) (use_trust_region s) (_built s)
     (_get_predictive_dist s) (_tr s) (_acquisition_problem s)
     (Some features) (Some labels).
Definition set_acquisition_problem (v : ref) (s : t) :=
  mk (acquisition_fns s) (use_trust_region s) (_built s)
     (_get_predictive_dist s) (_tr s) (Some v)
     (captured_features s) (captured_labels s).
Definition set_built (v : bool) (s : t) :=
  mk (acquisition_fns s) (use_trust_region s) v
     (_get_predictive_dist s) (_tr s) (_acquisition_problem s)
     (captured_features s) (captured_labels s).

Definition init (acquisition_fns : list (string * AcquisitionFunction))
    (use_trust_region : bool) : t :=
  {| acquisition_fns := acquisition_fns;
     use_trust_region := use_trust_region;
     _built := false;
     _get_predictive_dist := None;
     _tr := None;
     _acquisition_problem := None;
     captured_features := None;
     captured_labels := None |}.

Definition predict_mean_and_stddev (self : t) (xs : Features)
  : result (list Qc * list Qc) :=
  get_dist ← getattr "_get_predictive_dist" (_get_predictive_dist self);
  let dist := get_dist xs in
  Ok (dist_mean dist, dist_stddev dist).

Definition sample_on_array_fn (self : t) (xs : Features)
    (num_samples : nat) (key : KeyArray) : result (list (list Qc)) :=
  get_dist ← getattr "_get_predictive_dist" (_get_predictive_dist self);
  let dist := get_dist xs in
  dist_sample_key dist num_samples key.

(** [jnp.stack(arrays, axis=0)] *)
Definition stack (arrays : list (list xnum)) : result (list (list xnum)) :=
  match arrays with
  | [] => Raise (ValueError "Need at least one array to stack.")
  | _ => Ok arrays
  end.

Fixpoint call_all (fns : list (string * AcquisitionFunction))
    (dist : Distribution) (features : option Features)
    (labels : option matrix) : result (list (list xnum)) :=
  match fns with
  | [] => Ok []
  | (_, acquisition_fn) :: fns =>
      a ← call acquisition_fn dist features labels;
      acquisitions ← call_all fns dist features labels;
      Ok (a :: acquisitions)
  end.

Definition acquisition_on_array_fn (self : t) (xs : Features)
  : result (list (list xnum)) :=
  get_dist ← getattr "_get_predictive_dist" (_get_predictive_dist self);
  let dist := get_dist xs in
  acquisitions ←
    call_all (acquisition_fns self) dist (captured_features self)
      (captured_labels self);
  acquisition ← stack acquisitions;
  if use_trust_region self then
    tr ← getattr "_tr" (_tr self);
    if decide (any_trust_radius tr < qc 5 10)%Qc then
      distance ← any_min_linf_distance tr xs;
      Ok (map (trust_region_gate (any_trust_radius tr) distance)
            acquisition)
    else Ok acquisition
  else Ok acquisition.

Definition unsupported : exn :=
  ValueError
    ("<class 'vizier._src.algorithms.designers.gp.acquisitions."
     +:+ "GPBanditMultiAcquisitionBuilder'> does not support trust region"
     +:+ " with continuous and categorical.").

Definition build {Trial} (problem : ref) (model : Model)
    (state : ModelState) (features : Features) (labels : matrix)
    (converter : ArrayConverter Trial)
    (observations_is_missing feature_is_missing : option (list bool))
    (use_vmap : bool) : M world () :=
  _ <- on_self
         (set_get_predictive_dist
            (_build_predictive_distribution model state features labels
               None use_vmap));;
  w <- get_M;;
  _ <- (if use_trust_region (self w) then
          match features with
          | Array trusted =>
              on_self
                (set_tr
                   (Plain
                      (TrustRegion.init trusted (output_specs converter)
                         None None)))
          | ContinuousAndCategorical _ => raise_M unsupported
          end
        else ret_M ());;
  _ <- on_self (set_captured features labels);;
  acquisition_problem <- on_heap (deepcopy problem);;
  let config :=
    foldl
      (λ config name,
         config ++ [ {| name := name; goal := MAXIMIZE |} ])
      [] (fst <$> acquisition_fns (self w)) in
  _ <- on_heap (set_metric_information acquisition_problem config);;
  _ <- on_self (set_acquisition_problem acquisition_problem);;
  on_self (set_built true).

(** *** Properties *)

Definition acquisition_problem (self : t) : result ref :=
  if negb (_built self) then Raise not_built
  else getattr "_acquisition_problem" (_acquisition_problem self).

Definition acquisition_on_array (self : t)
  : result (Features → result (list (list xnum))) :=
  if negb (_built self) then Raise not_built
  else Ok (acquisition_on_array_fn self).

Definition predict_on_array (self : t)
  : result (Features → result (list Qc * list Qc)) :=
  if negb (_built self) then Raise not_built
  else Ok (predict_mean_and_stddev self).

Definition metadata_dict (self : t) : result (list (string * Qc)) :=
  if negb (_built self) then Raise not_built
  else if negb (use_trust_region self) then Ok []
  else
    tr ← getattr "_tr" (_tr self);
    Ok [("trust_radius", any_trust_radius tr)].

Definition sample_on_array (self : t)
  : result (Features → nat → KeyArray → result (list (list Qc))) :=
  if negb (_built self) then Raise not_built
  else Ok (sample_on_array_fn self).

End Builder.
End GPBanditMultiAcquisitionBuilder.

(** ** vectorized_base.py *)

Record VectorizedStrategyResults : Type := {
  features : matrix;
  rewards : list xnum;
}.

(** [VectorizedStrategy]: the abstract class, with the type [_S] of its
    state. *)
Record VectorizedStrategy `{Jax} : Type := {
  strategy_state : Type;
  init_state :
    KeyArray → option matrix → option (list xnum) → strategy_state;
  suggest : strategy_state → KeyArray → matrix;
  update : strategy_state → matrix → list xnum → KeyArray → strategy_state;
}.

(** [vz.Measurement] and the fields of [vz.Trial] that the optimizer reads
    or sets.  A new trial is stamped with the time of its creation. *)
Record Measurement : Type := { metrics : list (string * xnum) }.

Record Trial `{Pyvizier} : Type := {
  parameters : ParameterDict;
  creation_time : Z;
  final_measurement : option Measurement;
}.

(** What a run of the optimizer does to its surroundings: the calls it
    makes to the strategy and to the score function, and its log line. *)
Inductive event : Type :=
  | InitState
  | Suggest
  | Score (rows : nat)
  | Update
  | LogInfo (duration : Z) (evaluations : Z)
      (best_results : VectorizedStrategyResults).

(** The surroundings of a run: the events so far and the wall clock, whose
    [n]-th reading is [clock n]. *)
Record world : Type := {
  trace : list event;
  clock : nat → Z;
  ticks : nat;
}.

Definition emit (e : event) : M world () :=
  modify_M (λ w, {| trace := trace w ++ [e];
                    clock := clock w; ticks := ticks w |}).

(** [datetime.datetime.now()] *)
Definition now : M world Z :=
  w <- get_M;;
  _ <- modify_M (λ w, {| trace := trace w;
                         clock := clock w; ticks := S (ticks w) |});;
  ret_M (clock w (ticks w)).

(** [jax.lax.fori_loop(lower, upper, body_fun, init_val)] *)
Fixpoint fori_loop_from {W S} (trips : nat) (i : Z) (body_fun : Z → S → M W S)
    (val : S) : M W S :=
  match trips with
  | O => ret_M val
  | Datatypes.S trips =>
      val <- body_fun i val;;
      fori_loop_from trips (i + 1)%Z body_fun val
  end.

Definition fori_loop {W S} (lower upper : Z) (body_fun : Z → S → M W S)
    (init_val : S) : M W S :=
  fori_loop_from (Z.to_nat (upper - lower)) lower body_fun init_val.

(** [jax.jit(f)]: the compiled function computes what [f] computes. *)
Definition jit {A} (f : A) : A := f.

(** A [for] loop that appends one element per item. *)
Fixpoint for_each {W A B} (items : list A) (body : A → M W B)
  : M W (list B) :=
  match items with
  | [] => ret_M []
  | a :: items =>
      b <- body a;;
      bs <- for_each items body;;
      ret_M (b :: bs)
  end.

(** [sorted(l, key=key)]: a stable sort. *)
Fixpoint insert_by {A} (key : A → Z) (a : A) (l : list A) : list A :=
  match l with
  | [] => [a]
  | b :: l' =>
      if decide (key b ≤ key a)%Z then b :: insert_by key a l'
      else a :: b :: l'
  end.

Definition sorted {A} (l : list A) (key : A → Z) : list A :=
  foldl (λ acc a, insert_by key a acc) [] l.

Module VectorizedOptimizer.
Section Optimizer.
Context `{Jax} `{Pyvizier}.

Record t : Type := mk {
  strategy_factory : ArrayConverter Trial → Z → VectorizedStrategy;
  suggestion_batch_size : Z;
  max_evaluations : Z;
  jit_loop : bool;
}.

Definition _update_best_results (best_results : VectorizedStrategyResults)
    (count : nat) (batch_features : matrix) (batch_rewards : list xnum)
  : VectorizedStrategyResults :=
  let all_rewards := batch_rewards ++ rewards best_results in
  let all_features := batch_features ++ features best_results in
  let top_indices :=
    take count (argpartition (xneg <$> all_rewards) (Z.of_nat count - 1)) in
  {| rewards := gather all_rewards top_indices;
     features := gather all_features top_indices |}.

Definition _best_candidates (best_results : VectorizedStrategyResults)
    (converter : ArrayConverter Trial) : M world (list Trial) :=
  let sorted_ind := argsort (xneg <$> rewards best_results) in
  for_each (seq 0 (length (rewards best_results)))
    (λ i,
       let ind := index sorted_ind i in
       created <- now;;
       let trial :=
         {| parameters :=
              to_parameters converter (index (features best_results) ind);
            creation_time := created;
            final_measurement := None |} in
       (* trial.complete(vz.Measurement({'acquisition': ...})) *)
       ret_M
         {| parameters := parameters trial;
            creation_time := creation_time trial;
            final_measurement :=
              Some {| metrics :=
                        [("acquisition",
                          index (rewards best_results) ind)] |} |}).

(** The loop body of [optimize]; the variables it closes over are its
    first four arguments. *)
Definition _optimization_one_step (strategy : VectorizedStrategy)
    (score_fn : matrix → list xnum) (count : nat)
    (dimension_is_missing : option (list bool)) (_ : Z)
    (args : strategy_state strategy * VectorizedStrategyResults * KeyArray)
  : M world
      (strategy_state strategy * VectorizedStrategyResults * KeyArray) :=
  let '(state, best_results, seed) := args in
  let '(suggest_seed, update_seed, new_seed) := random_split3 seed in
  _ <- emit Suggest;;
  let new_features := suggest strategy state suggest_seed in
  let new_features :=
    match dimension_is_missing with
    | Some mask => mask_row mask <$> new_features
    | None => new_features
    end in
  _ <- emit (Score (length new_features));;
  let new_rewards := score_fn new_features in
  _ <- emit Update;;
  let new_state :=
    update strategy state new_features new_rewards update_seed in
  let new_best_results :=
    _update_best_results best_results count new_features new_rewards in
  ret_M (new_state, new_best_results, new_seed).

(** The pool that [_optimize] starts from. *)
Definition init_best_results (converter : ArrayConverter Trial) (count : nat)
  : VectorizedStrategyResults :=
  {| rewards := replicate count NInf;
     features := zeros2 count (to_features_ncols converter) |}.

(** The inner function [_optimize] of [optimize]. *)
Definition _optimize (self : t) (converter : ArrayConverter Trial)
    (strategy : VectorizedStrategy) (score_fn : matrix → list xnum)
    (count : nat) (dimension_is_missing : option (list bool))
    (seed : KeyArray) (prior_features : option matrix)
    (prior_rewards : option (list xnum))
  : M world
      (strategy_state strategy * VectorizedStrategyResults * KeyArray) :=
  let '(init_seed, loop_seed) := random_split seed in
  let init_best_results := init_best_results converter count in
  _ <- emit InitState;;
  let init_args :=
    (init_state strategy init_seed prior_features prior_rewards,
     init_best_results, loop_seed) in
  if decide (suggestion_batch_size self = 0%Z)
  then raise_M ZeroDivisionError
  else
    fori_loop 0 (max_evaluations self `div` suggestion_batch_size self)
      (_optimization_one_step strategy score_fn count dimension_is_missing)
      init_args.

(** [seed or 0] *)
Definition seed_or_zero (seed : option Z) : Z :=
  match seed with
  | Some s => if decide (s = 0%Z) then 0%Z else s
  | None => 0%Z
  end.

(** The prior trials, sorted by creation time, as features and rewards;
    the score function is called once on them. *)
Definition prior_arrays (converter : ArrayConverter Trial)
    (score_fn : matrix → list xnum) (prior_trials : option (list Trial))
  : M world (option matrix * option (list xnum)) :=
  match prior_trials with
  | Some ((_ :: _) as prior_trials) =>
      let prior_trials := sorted prior_trials creation_time in
      let prior_features := to_features converter prior_trials in
      let prior_features :=
        if is_padded converter then
          imap (λ i r, if decide (i < length prior_trials) then r
                       else zeros (length r))
            prior_features
        else prior_features in
      _ <- emit (Score (length prior_features));;
      ret_M (Some prior_features, Some (score_fn prior_features))
  | _ => ret_M (None, None)
  end.

Definition dimension_is_missing (converter : ArrayConverter Trial)
  : option (list bool) :=
  if is_padded converter then
    let n_features := sum_list (num_dimensions <$> output_specs converter) in
    let n_padded_features := to_features_ncols converter in
    Some (replicate n_features false
            ++ replicate (n_padded_features - n_features) true)
  else None.

Definition optimize (self : t) (converter : ArrayConverter Trial)
    (score_fn : matrix → list xnum) (count : nat)
    (prior_trials : option (list Trial)) (seed : option Z)
  : M world (list Trial) :=
  let seed := PRNGKey (seed_or_zero seed) in
  prior <- prior_arrays converter score_fn prior_trials;;
  let '(prior_features, prior_rewards) := prior in
  let strategy :=
    strategy_factory self converter (suggestion_batch_size self) in
  let dimension_is_missing := dimension_is_missing converter in
  let _optimize :=
    _optimize self converter strategy score_fn count dimension_is_missing
      seed prior_features prior_rewards in
  let _optimize := if jit_loop self then jit _optimize else _optimize in
  start_time <- now;;
  final <- _optimize;;
  let '(_, best_results, _) := final in
  end_time <- now;;
  _ <- emit (LogInfo (end_time - start_time)
               ((max_evaluations self `div` suggestion_batch_size self)
                * suggestion_batch_size self)
               best_results);;
  _best_candidates best_results converter.

End Optimizer.
End VectorizedOptimizer.

(** ** A concrete instance

    Small executable stand-ins for the external libraries, a model, a
    strategy and a converter, on which the definitions above are run. *)

Module Demo.

(** Keys are integers; a full stable sort is one admissible
    [argpartition]. *)
Definition jax : Jax :=
  {| KeyArray := Z;
     PRNGKey := λ seed, seed;
     random_split := λ k, (2 * k + 1, 2 * k + 2)%Z;
     random_split3 := λ k, (3 * k + 1, 3 * k + 2, 3 * k + 3)%Z;
     KeyArray_bool := λ k, Ok (bool_decide (k ≠ 0%Z));
     argpartition := λ a _, argsort a |}.
#[local] Existing Instance jax.

(** A distribution is its vector of means and its vector of standard
    deviations; sampling repeats the mean. *)
Definition tfp : @Tfp jax :=
  {| Distribution := list Qc * list Qc;
     dist_mean := fst;
     dist_stddev := snd;
     dist_sample := λ d n _, replicate n (fst d);
     dist_sample_key := λ d n _, Ok (replicate n (fst d));
     dist_batch_shape := λ d, [length (fst d); 1];
     tfd_Normal := λ m s, (concat m, concat s);
     tfd_MixtureSameFamily := λ _ d, d;
     GaussianProcessExpectedImprovement := λ d _, Fin <$> fst d;
     GaussianProcessProbabilityOfImprovement := λ d _, Fin <$> fst d;
     parallel_expected_improvement :=
       λ _ samples, Fin <$> default [] (head samples);
     parallel_upper_confidence_bound :=
       λ _ _ samples, Fin <$> default [] (head samples) |}.
#[local] Existing Instance tfp.

(** The mean at a row is its first coordinate, with no spread. *)
Definition first_coordinate (xs : Features) : list Qc :=
  match xs with
  | Array a => (λ r : row, default 0%Qc (head r)) <$> a
  | ContinuousAndCategorical c =>
      (λ r : row, default 0%Qc (head r)) <$> continuous c
  end.

Definition point_masses (xs : Features) : @Distribution jax tfp :=
  (first_coordinate xs, (λ _, 0%Qc) <$> first_coordinate xs).

Definition process : @StochasticProcess jax tfp :=
  {| Model := ();
     ModelState := ();
     posterior_predictive := λ _ _ xs _ _ _, point_masses xs;
     ensemble := λ _, [()] |}.

#[local] Existing Instance process.

Definition model : @Model jax tfp process := ().
Definition state : @ModelState jax tfp process := ().

Definition pyvizier : Pyvizier :=
  {| SearchSpace := nat; Metadata := (); ParameterDict := row |}.
#[local] Existing Instance pyvizier.

Definition continuous_spec : NumpyArraySpec :=
  {| spec_type := CONTINUOUS; num_dimensions := 1 |}.

(** Parameters are the feature rows themselves. *)
Definition row_parameters (r : row) : @ParameterDict pyvizier := r.
Definition parameter_rows (trials : list (@Trial pyvizier)) : matrix :=
  @parameters pyvizier <$> trials.

Definition converter : @ArrayConverter pyvizier (@Trial pyvizier) :=
  {| is_padded := false;
     output_specs := [continuous_spec];
     to_features := parameter_rows;
     to_features_ncols := 1;
     to_parameters := row_parameters |}.

(** A problem with one caller-owned metric, stored at reference [0]. *)
Definition problem : @ProblemStatement pyvizier :=
  {| search_space := 7;
     metric_information := [ {| name := "loss"; goal := MINIMIZE |} ];
     metadata := () |}.

Definition heap0 : gmap ref (@ProblemStatement pyvizier) :=
  {[ 0 := problem ]}.

(** Two trusted points in one dimension. *)
Definition trusted : matrix := [[qc 1 10]; [qc 9 10]].
Definition labels : matrix := [[qc 1 1]; [qc 2 1]].

(** A strategy whose state counts the suggestions made so far and whose
    [k]-th batch holds the rows [[k + 1/(j+2)]], [j < batch]. *)
Definition strategy (batch : Z) : @VectorizedStrategy jax :=
  {| strategy_state := nat;
     init_state := λ _ _ _, 0;
     suggest := λ (k : nat) _,
       (λ j, [(Qc_of_Z (Z.of_nat k) + qc 1 (Pos.of_nat (j + 2)))%Qc])
         <$> seq 0 (Z.to_nat batch);
     update := λ k _ _ _, S k |}.

(** The score of a row is its first coordinate. *)
Definition score_fn (xs : matrix) : list xnum :=
  (λ r : row, Fin (default 0%Qc (head r))) <$> xs.

Definition optimizer (batch max_evals : Z)
  : @VectorizedOptimizer.t jax pyvizier :=
  {| VectorizedOptimizer.strategy_factory := λ _ batch, strategy batch;
     VectorizedOptimizer.suggestion_batch_size := batch;
     VectorizedOptimizer.max_evaluations := max_evals;
     VectorizedOptimizer.jit_loop := true |}.

Definition world0 : world :=
  {| trace := []; clock := λ n, Z.of_nat n; ticks := 0 |}.

(** An integer as a key. *)
Definition key (z : Z) : @KeyArray jax := z.

End Demo.

(** * Properties *)

(** *** Order facts *)

Global Instance xle_refl : Reflexive xle.
Proof. intros []; simpl; auto using Qcle_refl. Qed.

Global Instance xle_trans : Transitive xle.
Proof.
  intros [] [] []; simpl; auto; try tauto.
  all: try apply Qcle_trans.
Qed.

Global Instance xle_antisym : AntiSymm (=) xle.
Proof.
  intros [] []; simpl; try tauto; intros H1 H2.
  f_equal. by apply Qcle_antisym.
Qed.

Global Instance xle_total : Total xle.
Proof.
  intros [] []; simpl; auto.
  destruct (Qclt_le_dec q q0); auto using Qclt_le_weak.
Qed.

Lemma xle_nlt x y : xle x y ↔ ¬ xlt y x.
Proof.
  unfold xlt. split.
  - intros H [H' Hne]. apply Hne. by apply (anti_symm xle).
  - intros H. destruct (total xle x y) as [|H']; [done|].
    destruct (decide (y = x)) as [->|Hne]; [reflexivity|].
    exfalso; apply H; auto.
Qed.

Lemma xlt_nle x y : xlt x y ↔ ¬ xle y x.
Proof.
  unfold xlt. split.
  - intros [H Hne] H'. apply Hne. by apply (anti_symm xle).
  - intros H. destruct (total xle x y) as [H'|H']; [|done].
    split; [done|]. intros ->. apply H. reflexivity.
Qed.

Lemma xneg_involutive x : xneg (xneg x) = x.
Proof. destruct x; simpl; auto. by rewrite Qcopp_involutive. Qed.

Lemma xneg_le x y : xle (xneg x) (xneg y) ↔ xle y x.
Proof.
  destruct x, y; simpl; try tauto.
  split; intros H.
  - apply Qcopp_le_compat in H. by rewrite !Qcopp_involutive in H.
  - by apply Qcopp_le_compat.
Qed.

Lemma xmin_le_l x y : xle (xmin x y) x.
Proof.
  unfold xmin. destruct (decide (xle x y)); [reflexivity|].
  destruct (total xle x y); [done|done].
Qed.

Lemma xmin_le_r x y : xle (xmin x y) y.
Proof. unfold xmin. destruct (decide (xle x y)); [done|reflexivity]. Qed.

Lemma xmin_glb x y z : xle z x → xle z y → xle z (xmin x y).
Proof. unfold xmin. by destruct (decide (xle x y)). Qed.

Lemma xmax_ge_l x y : xle x (xmax x y).
Proof. unfold xmax. destruct (decide (xle x y)); [done|reflexivity]. Qed.

Lemma xmax_ge_r x y : xle y (xmax x y).
Proof.
  unfold xmax. destruct (decide (xle x y)); [reflexivity|].
  destruct (total xle x y); done.
Qed.

Lemma xmax_lub x y z : xle x z → xle y z → xle (xmax x y) z.
Proof. unfold xmax. by destruct (decide (xle x y)). Qed.

(** ** Trust-region radius *)

Section Radius.
Local Open Scope Qc_scope.

Lemma qc_split_weights : qc 1 10 + qc 9 10 = 1.
Proof. apply Qc_is_canon. reflexivity. Qed.

Lemma qc_half_minus_min : qc 5 10 - qc 2 10 = qc 3 10.
Proof. apply Qc_is_canon. reflexivity. Qed.

Lemma Qc_of_Z_le (a b : Z) : (a ≤ b)%Z → Qc_of_Z a ≤ Qc_of_Z b.
Proof.
  intros Hab. unfold Qcle, Qc_of_Z; simpl.
  unfold Qle; simpl. lia.
Qed.

Lemma Qc_of_Z_lt (a b : Z) : (a < b)%Z → Qc_of_Z a < Qc_of_Z b.
Proof.
  intros Hab. unfold Qclt, Qc_of_Z; simpl.
  unfold Qlt; simpl. lia.
Qed.

Lemma Qc_of_Z_mult (a b : Z) : Qc_of_Z (a * b) = Qc_of_Z a * Qc_of_Z b.
Proof.
  apply Qc_is_canon. unfold Qc_of_Z, Qcmult, Q2Qc; simpl.
  rewrite Qred_correct. unfold Qeq; simpl. lia.
Qed.

Lemma qc_5_1 : qc 5 1 = Qc_of_Z 5.
Proof. apply Qc_is_canon. reflexivity. Qed.

(** The denominator [dimension_factor * (dof + 1)] is positive. *)
Lemma radius_denominator_pos (dof : nat) :
  0 < qc 5 1 * Qc_of_Z (Z.of_nat dof + 1).
Proof.
  rewrite qc_5_1, <- Qc_of_Z_mult, <- Z2Qc_inj_0.
  apply Qc_of_Z_lt. lia.
Qed.

(** The radius with the dead 0.1/0.9 split folded away. *)
Lemma _compute_trust_radius_eq (dof : nat) (trusted : matrix) :
  TrustRegion._compute_trust_radius dof trusted
  = qc 2 10 + (qc 5 10 - qc 2 10) * Qc_of_Z (Z.of_nat (length trusted))
              / (qc 5 1 * Qc_of_Z (Z.of_nat dof + 1)).
Proof.
  unfold TrustRegion._compute_trust_radius.
  rewrite <- Qcmult_plus_distr_l, qc_split_weights, Qcmult_1_l.
  unfold Qcdiv. by rewrite Qcmult_assoc.
Qed.

Lemma radius_mono (dof : nat) (t1 t2 : matrix) :
  (length t1 ≤ length t2)%nat →
  TrustRegion._compute_trust_radius dof t1
  ≤ TrustRegion._compute_trust_radius dof t2.
Proof.
  intros Hlen. rewrite !_compute_trust_radius_eq.
  apply Qcplus_le_mono_l. unfold Qcdiv.
  apply Qcmult_le_mono_nonneg_r.
  { apply Qclt_le_weak, Qcinv_pos, radius_denominator_pos. }
  apply Qcmult_le_mono_nonneg_l.
  { rewrite qc_half_minus_min. by vm_compute. }
  apply Qc_of_Z_le. lia.
Qed.

Lemma radius_exceeds_half (dof : nat) (trusted : matrix) :
  (5 * (dof + 1) < length trusted)%nat →
  qc 5 10 < TrustRegion._compute_trust_radius dof trusted.
Proof.
  intros Hlen. rewrite _compute_trust_radius_eq.
  set (d := qc 5 1 * Qc_of_Z (Z.of_nat dof + 1)).
  assert (Hd : 0 < d) by apply radius_denominator_pos.
  assert (Hn : d < Qc_of_Z (Z.of_nat (length trusted))).
  { unfold d. rewrite qc_5_1, <- Qc_of_Z_mult. apply Qc_of_Z_lt. lia. }
  assert (H1 : 1 < Qc_of_Z (Z.of_nat (length trusted)) / d).
  { apply (Qcmult_lt_mono_pos_r _ _ d); [done|].
    rewrite Qcmult_1_l. unfold Qcdiv.
    rewrite <- Qcmult_assoc, Qcmult_inv_l, Qcmult_1_r; [done|].
    intros E. rewrite E in Hd. by apply (Qclt_not_eq 0 0). }
  replace (qc 5 10) with (qc 2 10 + (qc 5 10 - qc 2 10) * 1)
    by (apply Qc_is_canon; reflexivity).
  apply Qcplus_lt_mono_l. unfold Qcdiv. rewrite <- Qcmult_assoc.
  apply Qcmult_lt_mono_pos_l; [|done].
  rewrite qc_half_minus_min. by vm_compute.
Qed.

End Radius.

(** C4.  The trust radius of a [TrustRegion] over [N] trusted rows and
    [dof] output specs is [0.2 + (0.5 - 0.2) * N / (5.0 * (dof + 1))]; it is
    [0.2] when there is no trusted row, it does not decrease when rows are
    added at a fixed [dof], and it is above [0.5] as soon as
    [N > 5 * (dof + 1)]: no clamp is applied. *)
Theorem trust_radius_formula :
  ∀ (trusted : matrix) (specs : list NumpyArraySpec)
    (feature_is_missing observations_is_missing : option (list bool)),
    let tr := TrustRegion.init trusted specs feature_is_missing
                observations_is_missing in
    let N := Qc_of_Z (Z.of_nat (length trusted)) in
    let dof1 := Qc_of_Z (Z.of_nat (length specs) + 1) in
    (TrustRegion.trust_radius tr
     = qc 2 10 + (qc 5 10 - qc 2 10) * N / (qc 5 1 * dof1))%Qc
    ∧ (trusted = [] → TrustRegion.trust_radius tr = qc 2 10)
    ∧ (∀ trusted' fim' oim',
         length trusted ≤ length trusted' →
         (TrustRegion.trust_radius tr
          ≤ TrustRegion.trust_radius
              (TrustRegion.init trusted' specs fim' oim'))%Qc)
    ∧ (5 * (length specs + 1) < length trusted →
       (qc 5 10 < TrustRegion.trust_radius tr)%Qc).
Proof.
  intros trusted specs fim oim tr N dof1.
  unfold tr, TrustRegion.trust_radius, TrustRegion.init; simpl.
  split; [apply _compute_trust_radius_eq|].
  split.
  { intros ->. rewrite _compute_trust_radius_eq.
    change (Z.of_nat (length (@nil row))) with 0%Z.
    rewrite Z2Qc_inj_0. unfold Qcdiv.
    by rewrite Qcmult_0_r, Qcmult_0_l, Qcplus_0_r. }
  split.
  { intros trusted' _ _ Hlen. by apply radius_mono. }
  apply radius_exceeds_half.
Qed.

(** The radius is not clamped: eleven trusted rows in one dimension give
    [0.53]. *)
Example trust_radius_unclamped :
  TrustRegion.trust_radius
    (TrustRegion.init (replicate 11 [qc 1 2])
       [ {| spec_type := CONTINUOUS; num_dimensions := 1 |} ] None None)
  = qc 53 100.
Proof. apply Qc_is_canon. reflexivity. Qed.

(** ** Sampling-based acquisition functions *)

Section SamplingAcquisitions.
Context `{Tfp}.




End SamplingAcquisitions.

Section SamplingAcquisitionsDemo.
#[local] Existing Instance Demo.jax.
#[local] Existing Instance Demo.tfp.


End SamplingAcquisitionsDemo.

(** ** Acquisition builders *)

Section Builders.
Context `{StochasticProcess} `{Pyvizier}.

(** The metric that [build] installs. *)
Definition acquisition_metric : MetricInformation :=
  {| name := "acquisition"; goal := MAXIMIZE |}.

Definition with_metrics (v : ProblemStatement) (config : MetricsConfig)
  : ProblemStatement :=
  {| search_space := search_space v;
     metric_information := config;
     metadata := metadata v |}.

(** The trust region that [build] constructs for the given features. *)
Definition built_trust_region {Trial} (features : Features)
    (converter : ArrayConverter Trial)
    (observations_is_missing feature_is_missing : option (list bool))
  : AnyTrustRegion :=
  match features with
  | Array trusted =>
      Plain (TrustRegion.init trusted (output_specs converter)
               feature_is_missing observations_is_missing)
  | ContinuousAndCategorical trusted =>
      WithCategorical
        (TrustRegionWithCategorical.init trusted (qc 2 10) (qc 5 1))
  end.

Lemma deref_lookup (h : store) (p : ref) (v : ProblemStatement) :
  h !! p = Some v → deref p h = Ok v.
Proof. intros Hp. unfold deref. by rewrite Hp. Qed.


(** What a run of [GPBanditAcquisitionBuilder.build] leaves behind. *)
Lemma single_build_run {Trial} (w : GPBanditAcquisitionBuilder.world)
    (problem : ref) (v : ProblemStatement) (model : Model)
    (state : ModelState) (features : Features) (labels : matrix)
    (converter : ArrayConverter Trial)
    (oim fim : option (list bool)) (use_vmap : bool) :
  GPBanditAcquisitionBuilder.heap w !! problem = Some v →
  let s := GPBanditAcquisitionBuilder.self w in
  let q := fresh (dom (GPBanditAcquisitionBuilder.heap w)) in
  GPBanditAcquisitionBuilder.build problem model state features labels
    converter oim fim use_vmap w
  = (Ok (),
     {| GPBanditAcquisitionBuilder.self :=
          GPBanditAcquisitionBuilder.mk
            (GPBanditAcquisitionBuilder.acquisition_fn s)
            (GPBanditAcquisitionBuilder.use_trust_region s)
            true
            (Some (_build_predictive_distribution model state features
                     labels oim use_vmap))
            (if GPBanditAcquisitionBuilder.use_trust_region s
             then Some (built_trust_region features converter oim fim)
             else GPBanditAcquisitionBuilder._tr s)
            (Some q) (Some features) (Some labels);
        GPBanditAcquisitionBuilder.heap :=
          <[q := with_metrics v [acquisition_metric]]>
            (GPBanditAcquisitionBuilder.heap w) |}).
Proof.
  intros Hp s q. destruct w as [s0 h]; simpl in *. subst s q.
  unfold GPBanditAcquisitionBuilder.build, bind_M,
    GPBanditAcquisitionBuilder.on_self, GPBanditAcquisitionBuilder.on_heap,
    deepcopy, set_metric_information, modify_M, get_M, lift_M, ret_M,
    bind_M; simpl.
  destruct (GPBanditAcquisitionBuilder.use_trust_region s0) eqn:Htr;
    destruct features; simpl;
    rewrite (deref_lookup h problem v Hp); simpl;
    rewrite (deref_lookup _ (fresh (dom h)) v (lookup_insert_eq _ _ _));
    simpl; rewrite insert_insert_eq;
    cbv [GPBanditAcquisitionBuilder.set_built
           GPBanditAcquisitionBuilder.set_acquisition_problem
           GPBanditAcquisitionBuilder.set_captured
           GPBanditAcquisitionBuilder.set_tr
           GPBanditAcquisitionBuilder.set_get_predictive_dist];
    simpl; rewrite ?Htr; reflexivity.
Qed.

(** A run of [build] on a reference that is not in the store raises. *)
Lemma single_build_dangling {Trial} (w : GPBanditAcquisitionBuilder.world)
    (problem : ref) (model : Model)
    (state : ModelState) (features : Features) (labels : matrix)
    (converter : ArrayConverter Trial)
    (oim fim : option (list bool)) (use_vmap : bool) :
  GPBanditAcquisitionBuilder.heap w !! problem = None →
  ∃ e w',
    GPBanditAcquisitionBuilder.build problem model state features labels
      converter oim fim use_vmap w = (Raise e, w')
    ∧ GPBanditAcquisitionBuilder._built (GPBanditAcquisitionBuilder.self w')
      = GPBanditAcquisitionBuilder._built (GPBanditAcquisitionBuilder.self w)
    ∧ GPBanditAcquisitionBuilder.heap w' = GPBanditAcquisitionBuilder.heap w.
Proof.
  intros Hp. destruct w as [s0 h]; simpl in *.
  unfold GPBanditAcquisitionBuilder.build, bind_M,
    GPBanditAcquisitionBuilder.on_self, GPBanditAcquisitionBuilder.on_heap,
    deepcopy, set_metric_information, modify_M, get_M, lift_M, ret_M,
    bind_M, deref; simpl.
  destruct (GPBanditAcquisitionBuilder.use_trust_region s0) eqn:Htr;
    destruct features; simpl; rewrite Hp; simpl; eauto.
Qed.

Lemma foldl_append_metrics (names : list string) (acc : MetricsConfig) :
  foldl (λ config name, config ++ [ {| name := name; goal := MAXIMIZE |} ])
    acc names
  = acc ++ ((λ name, {| name := name; goal := MAXIMIZE |}) <$> names).
Proof.
  revert acc. induction names as [|n names IH]; intros acc; simpl.
  - by rewrite app_nil_r.
  - rewrite IH. by rewrite <- app_assoc.
Qed.

(** The trust region of the multi-acquisition builder, which takes no
    masks. *)
Definition multi_trust_region {Trial} (s : GPBanditMultiAcquisitionBuilder.t)
    (features : Features) (converter : ArrayConverter Trial)
  : option AnyTrustRegion :=
  if GPBanditMultiAcquisitionBuilder.use_trust_region s then
    match features with
    | Array trusted =>
        Some (Plain (TrustRegion.init trusted (output_specs converter)
                       None None))
    | ContinuousAndCategorical _ => None
    end
  else GPBanditMultiAcquisitionBuilder._tr s.

(** [build] of the multi-acquisition builder refuses trust-region gating
    on the continuous-and-categorical form. *)
Definition multi_refuses (s : GPBanditMultiAcquisitionBuilder.t)
    (features : Features) : bool :=
  GPBanditMultiAcquisitionBuilder.use_trust_region s
  && match features with Array _ => false | _ => true end.

Lemma multi_build_run {Trial} (w : GPBanditMultiAcquisitionBuilder.world)
    (problem : ref) (v : ProblemStatement) (model : Model)
    (state : ModelState) (features : Features) (labels : matrix)
    (converter : ArrayConverter Trial)
    (oim fim : option (list bool)) (use_vmap : bool) :
  GPBanditMultiAcquisitionBuilder.heap w !! problem = Some v →
  multi_refuses (GPBanditMultiAcquisitionBuilder.self w) features = false →
  let s := GPBanditMultiAcquisitionBuilder.self w in
  let q := fresh (dom (GPBanditMultiAcquisitionBuilder.heap w)) in
  GPBanditMultiAcquisitionBuilder.build problem model state features labels
    converter oim fim use_vmap w
  = (Ok (),
     {| GPBanditMultiAcquisitionBuilder.self :=
          GPBanditMultiAcquisitionBuilder.mk
            (GPBanditMultiAcquisitionBuilder.acquisition_fns s)
            (GPBanditMultiAcquisitionBuilder.use_trust_region s)
            true
            (Some (_build_predictive_distribution model state features
                     labels None use_vmap))
            (multi_trust_region s features converter)
            (Some q) (Some features) (Some labels);
        GPBanditMultiAcquisitionBuilder.heap :=
          <[q := with_metrics v
                   ((λ name, {| name := name; goal := MAXIMIZE |})
                      <$> (GPBanditMultiAcquisitionBuilder.acquisition_fns s).*1)]>
            (GPBanditMultiAcquisitionBuilder.heap w) |}).
Proof.
  intros Hp Href s q. destruct w as [s0 h]; simpl in *. subst s q.
  unfold multi_refuses, multi_trust_region in *.
  unfold GPBanditMultiAcquisitionBuilder.build, bind_M,
    GPBanditMultiAcquisitionBuilder.on_self,
    GPBanditMultiAcquisitionBuilder.on_heap,
    deepcopy, set_metric_information, modify_M, get_M, lift_M, ret_M,
    raise_M, bind_M; simpl.
  rewrite foldl_append_metrics; simpl.
  destruct (GPBanditMultiAcquisitionBuilder.use_trust_region s0) eqn:Htr;
    destruct features; simpl in *; try discriminate;
    rewrite (deref_lookup h problem v Hp); simpl;
    rewrite (deref_lookup _ (fresh (dom h)) v (lookup_insert_eq _ _ _));
    simpl; rewrite insert_insert_eq;
    cbv [GPBanditMultiAcquisitionBuilder.set_built
           GPBanditMultiAcquisitionBuilder.set_acquisition_problem
           GPBanditMultiAcquisitionBuilder.set_captured
           GPBanditMultiAcquisitionBuilder.set_tr
           GPBanditMultiAcquisitionBuilder.set_get_predictive_dist];
    simpl; rewrite ?Htr; reflexivity.
Qed.

(** Whenever [build] of the multi-acquisition builder does not complete,
    the builder is as built as before and the store is untouched. *)
Lemma multi_build_fail {Trial} (w : GPBanditMultiAcquisitionBuilder.world)
    (problem : ref) (model : Model)
    (state : ModelState) (features : Features) (labels : matrix)
    (converter : ArrayConverter Trial)
    (oim fim : option (list bool)) (use_vmap : bool) :
  GPBanditMultiAcquisitionBuilder.heap w !! problem = None
  ∨ multi_refuses (GPBanditMultiAcquisitionBuilder.self w) features = true →
  ∃ e w',
    GPBanditMultiAcquisitionBuilder.build problem model state features
      labels converter oim fim use_vmap w = (Raise e, w')
    ∧ GPBanditMultiAcquisitionBuilder._built
        (GPBanditMultiAcquisitionBuilder.self w')
      = GPBanditMultiAcquisitionBuilder._built
          (GPBanditMultiAcquisitionBuilder.self w)
    ∧ GPBanditMultiAcquisitionBuilder.heap w'
      = GPBanditMultiAcquisitionBuilder.heap w.
Proof.
  intros Hcase. destruct w as [s0 h]; simpl in *.
  unfold multi_refuses in *.
  unfold GPBanditMultiAcquisitionBuilder.build, bind_M,
    GPBanditMultiAcquisitionBuilder.on_self,
    GPBanditMultiAcquisitionBuilder.on_heap,
    deepcopy, set_metric_information, modify_M, get_M, lift_M, ret_M,
    raise_M, bind_M, deref; simpl.
  destruct (GPBanditMultiAcquisitionBuilder.use_trust_region s0) eqn:Htr;
    destruct features; simpl in *;
    destruct Hcase as [Hp|Hr]; try discriminate;
    rewrite ?Hp; simpl; eauto.
Qed.

End Builders.

Section BuilderAccessors.
Context `{StochasticProcess} `{Pyvizier}.

(** The five accessors of a builder all raise the not-built error. *)
Definition single_all_not_built (s : GPBanditAcquisitionBuilder.t) : Prop :=
  GPBanditAcquisitionBuilder.acquisition_problem s = Raise not_built
  ∧ GPBanditAcquisitionBuilder.acquisition_on_array s = Raise not_built
  ∧ GPBanditAcquisitionBuilder.predict_on_array s = Raise not_built
  ∧ GPBanditAcquisitionBuilder.sample_on_array s = Raise not_built
  ∧ GPBanditAcquisitionBuilder.metadata_dict s = Raise not_built.

Definition multi_all_not_built (s : GPBanditMultiAcquisitionBuilder.t)
  : Prop :=
  GPBanditMultiAcquisitionBuilder.acquisition_problem s = Raise not_built
  ∧ GPBanditMultiAcquisitionBuilder.acquisition_on_array s = Raise not_built
  ∧ GPBanditMultiAcquisitionBuilder.predict_on_array s = Raise not_built
  ∧ GPBanditMultiAcquisitionBuilder.sample_on_array s = Raise not_built
  ∧ GPBanditMultiAcquisitionBuilder.metadata_dict s = Raise not_built.

(** The five accessors of a builder all return a value. *)
Definition single_all_return (s : GPBanditAcquisitionBuilder.t) : Prop :=
  (∃ p, GPBanditAcquisitionBuilder.acquisition_problem s = Ok p)
  ∧ (∃ f, GPBanditAcquisitionBuilder.acquisition_on_array s = Ok f)
  ∧ (∃ f, GPBanditAcquisitionBuilder.predict_on_array s = Ok f)
  ∧ (∃ f, GPBanditAcquisitionBuilder.sample_on_array s = Ok f)
  ∧ (∃ d, GPBanditAcquisitionBuilder.metadata_dict s = Ok d).

Definition multi_all_return (s : GPBanditMultiAcquisitionBuilder.t) : Prop :=
  (∃ p, GPBanditMultiAcquisitionBuilder.acquisition_problem s = Ok p)
  ∧ (∃ f, GPBanditMultiAcquisitionBuilder.acquisition_on_array s = Ok f)
  ∧ (∃ f, GPBanditMultiAcquisitionBuilder.predict_on_array s = Ok f)
  ∧ (∃ f, GPBanditMultiAcquisitionBuilder.sample_on_array s = Ok f)
  ∧ (∃ d, GPBanditMultiAcquisitionBuilder.metadata_dict s = Ok d).

Lemma single_unbuilt_raises (s : GPBanditAcquisitionBuilder.t) :
  GPBanditAcquisitionBuilder._built s = false → single_all_not_built s.
Proof.
  intros Hb. unfold single_all_not_built,
    GPBanditAcquisitionBuilder.acquisition_problem,
    GPBanditAcquisitionBuilder.acquisition_on_array,
    GPBanditAcquisitionBuilder.predict_on_array,
    GPBanditAcquisitionBuilder.sample_on_array,
    GPBanditAcquisitionBuilder.metadata_dict.
  rewrite Hb. simpl. auto.
Qed.

Lemma multi_unbuilt_raises (s : GPBanditMultiAcquisitionBuilder.t) :
  GPBanditMultiAcquisitionBuilder._built s = false → multi_all_not_built s.
Proof.
  intros Hb. unfold multi_all_not_built,
    GPBanditMultiAcquisitionBuilder.acquisition_problem,
    GPBanditMultiAcquisitionBuilder.acquisition_on_array,
    GPBanditMultiAcquisitionBuilder.predict_on_array,
    GPBanditMultiAcquisitionBuilder.sample_on_array,
    GPBanditMultiAcquisitionBuilder.metadata_dict.
  rewrite Hb. simpl. auto.
Qed.

Lemma single_completed_returns {Trial}
    (w w' : GPBanditAcquisitionBuilder.world)
    (problem : ref) (model : Model)
    (state : ModelState) (features : Features) (labels : matrix)
    (converter : ArrayConverter Trial)
    (oim fim : option (list bool)) (use_vmap : bool) :
  GPBanditAcquisitionBuilder.build problem model state features labels
    converter oim fim use_vmap w = (Ok (), w') →
  single_all_return (GPBanditAcquisitionBuilder.self w').
Proof.
  intros Hrun.
  destruct (GPBanditAcquisitionBuilder.heap w !! problem) as [v|] eqn:Hp.
  - rewrite (single_build_run w problem v model state features labels
               converter oim fim use_vmap Hp) in Hrun.
    injection Hrun as <-.
    unfold single_all_return,
      GPBanditAcquisitionBuilder.acquisition_problem,
      GPBanditAcquisitionBuilder.acquisition_on_array,
      GPBanditAcquisitionBuilder.predict_on_array,
      GPBanditAcquisitionBuilder.sample_on_array,
      GPBanditAcquisitionBuilder.metadata_dict; simpl.
    repeat split; eauto.
    destruct (GPBanditAcquisitionBuilder.use_trust_region
                (GPBanditAcquisitionBuilder.self w)); simpl; eauto.
  - destruct (single_build_dangling w problem model state features labels
                converter oim fim use_vmap Hp) as (e & w'' & Hfail & _).
    rewrite Hfail in Hrun. discriminate.
Qed.

Lemma multi_completed_returns {Trial}
    (w w' : GPBanditMultiAcquisitionBuilder.world)
    (problem : ref) (model : Model)
    (state : ModelState) (features : Features) (labels : matrix)
    (converter : ArrayConverter Trial)
    (oim fim : option (list bool)) (use_vmap : bool) :
  GPBanditMultiAcquisitionBuilder.build problem model state features labels
    converter oim fim use_vmap w = (Ok (), w') →
  multi_all_return (GPBanditMultiAcquisitionBuilder.self w').
Proof.
  intros Hrun.
  destruct (GPBanditMultiAcquisitionBuilder.heap w !! problem) as [v|] eqn:Hp;
    [destruct (multi_refuses (GPBanditMultiAcquisitionBuilder.self w)
                 features) eqn:Href|].
  2: { rewrite (multi_build_run w problem v model state features labels
                  converter oim fim use_vmap Hp Href) in Hrun.
       injection Hrun as <-.
       unfold multi_all_return,
         GPBanditMultiAcquisitionBuilder.acquisition_problem,
         GPBanditMultiAcquisitionBuilder.acquisition_on_array,
         GPBanditMultiAcquisitionBuilder.predict_on_array,
         GPBanditMultiAcquisitionBuilder.sample_on_array,
         GPBanditMultiAcquisitionBuilder.metadata_dict; simpl.
       repeat split; eauto.
       unfold multi_refuses, multi_trust_region in *.
       destruct (GPBanditMultiAcquisitionBuilder.use_trust_region
                   (GPBanditMultiAcquisitionBuilder.self w));
         destruct features; simpl in *; try discriminate; eauto. }
  all: edestruct (multi_build_fail w problem model state features labels
                    converter oim fim use_vmap) as (e & w'' & Hfail & _);
    [eauto| rewrite Hfail in Hrun; discriminate].
Qed.

(** C7.  For both builders: a freshly constructed builder is not built;
    on a builder that is not built each of [acquisition_problem],
    [acquisition_on_array], [predict_on_array], [sample_on_array] and
    [metadata_dict] raises
    [ValueError('Acquisition must be built first via build().')]; and
    after a [build] that has completed each of them returns a value. *)
Theorem accessors_need_build :
  ∀ {Trial} (problem : ref) (model : Model) (state : ModelState)
    (features : Features) (labels : matrix)
    (converter : ArrayConverter Trial)
    (oim fim : option (list bool)) (use_vmap : bool),
    (∀ acquisition_fn use_trust_region,
       GPBanditAcquisitionBuilder._built
         (GPBanditAcquisitionBuilder.init acquisition_fn use_trust_region)
       = false)
    ∧ (∀ s, GPBanditAcquisitionBuilder._built s = false →
            single_all_not_built s)
    ∧ (∀ w w',
         GPBanditAcquisitionBuilder.build problem model state features
           labels converter oim fim use_vmap w = (Ok (), w') →
         single_all_return (GPBanditAcquisitionBuilder.self w'))
    ∧ (∀ acquisition_fns use_trust_region,
         GPBanditMultiAcquisitionBuilder._built
           (GPBanditMultiAcquisitionBuilder.init acquisition_fns
              use_trust_region)
         = false)
    ∧ (∀ s, GPBanditMultiAcquisitionBuilder._built s = false →
            multi_all_not_built s)
    ∧ (∀ w w',
         GPBanditMultiAcquisitionBuilder.build problem model state features
           labels converter oim fim use_vmap w = (Ok (), w') →
         multi_all_return (GPBanditMultiAcquisitionBuilder.self w')).
Proof.
  intros. split_and!; try reflexivity; intros.
  - by apply single_unbuilt_raises.
  - by eapply single_completed_returns.
  - by apply multi_unbuilt_raises.
  - by eapply multi_completed_returns.
Qed.

End BuilderAccessors.

Section BuilderFrame.
Context `{StochasticProcess} `{Pyvizier}.


End BuilderFrame.

Section BuildersDemo.
#[local] Existing Instance Demo.jax.
#[local] Existing Instance Demo.tfp.
#[local] Existing Instance Demo.process.
#[local] Existing Instance Demo.pyvizier.

(** A fresh UCB builder with trust-region gating, and the caller's problem
    at reference [0]. *)
Definition demo_single_world : GPBanditAcquisitionBuilder.world :=
  {| GPBanditAcquisitionBuilder.self :=
       GPBanditAcquisitionBuilder.init (UCB (qc 18 10)) true;
     GPBanditAcquisitionBuilder.heap := Demo.heap0 |}.

Definition demo_single_built : GPBanditAcquisitionBuilder.world :=
  snd (GPBanditAcquisitionBuilder.build 0 Demo.model Demo.state
         (Array Demo.trusted) Demo.labels Demo.converter None None false
         demo_single_world).

Lemma demo_single_build_completes :
  GPBanditAcquisitionBuilder.build 0 Demo.model Demo.state
    (Array Demo.trusted) Demo.labels Demo.converter None None false
    demo_single_world
  = (Ok (), demo_single_built).
Proof.
  unfold demo_single_built.
  rewrite (single_build_run demo_single_world 0 Demo.problem);
    reflexivity.
Qed.

Lemma accessors_need_build_witness :
  single_all_not_built (GPBanditAcquisitionBuilder.self demo_single_world)
  ∧ single_all_return (GPBanditAcquisitionBuilder.self demo_single_built).
Proof.
  pose proof (accessors_need_build 0 Demo.model Demo.state
                (Array Demo.trusted) Demo.labels Demo.converter None None
                false) as (_ & Hraise & Hreturn & _).
  split.
  - apply Hraise. reflexivity.
  - apply (Hreturn demo_single_world). apply demo_single_build_completes.
Defined.


End BuildersDemo.

(** ** Trust-region gating of the acquisition *)







Section Gating.
Context `{StochasticProcess} `{Pyvizier}.


End Gating.

Section GatingDemo.
#[local] Existing Instance Demo.jax.
#[local] Existing Instance Demo.tfp.
#[local] Existing Instance Demo.process.
#[local] Existing Instance Demo.pyvizier.

(** Two query rows: [0.2], within [0.26] of the trusted [0.1], and [0.5],
    at distance [0.4] of both trusted rows. *)
Definition demo_queries : Features := Array [[qc 2 10]; [qc 5 10]].

Definition demo_trust_region : AnyTrustRegion :=
  built_trust_region (Array Demo.trusted) Demo.converter None None.

Definition or_empty {A} (r : result (list A)) : list A :=
  match r with Ok l => l | Raise _ => [] end.

Definition demo_acquisition : list xnum :=
  or_empty
    (call (UCB (qc 18 10))
       (_build_predictive_distribution Demo.model Demo.state
          (Array Demo.trusted) Demo.labels None false demo_queries)
       (Some (Array Demo.trusted)) (Some Demo.labels)).

Definition demo_distance : list xnum :=
  or_empty (any_min_linf_distance demo_trust_region demo_queries).

Lemma demo_values :
  demo_acquisition = [Fin (qc 2 10); Fin (qc 5 10)]
  ∧ demo_distance = [Fin (qc 1 10); Fin (qc 4 10)]
  ∧ any_trust_radius demo_trust_region = qc 26 100.
Proof.
  split_and!; apply (bool_decide_unpack _); vm_compute; exact I.
Qed.


End GatingDemo.

(** ** Indexing and sorting of arrays *)

Section Indexing.
Context {A : Type} `{Inhabited A}.

Lemma index_lt (a : list A) (i : nat) :
  i < length a → index a i = a !!! i.
Proof. intros Hi. unfold index. f_equal. lia. Qed.

Lemma index_lookup (a : list A) (i : nat) (x : A) :
  a !! i = Some x → index a i = x.
Proof.
  intros Hx. rewrite index_lt by (by eapply lookup_lt_Some).
  by apply list_lookup_total_correct.
Qed.

Lemma gather_length (a : list A) (idx : list nat) :
  length (gather a idx) = length idx.
Proof. unfold gather. by rewrite length_fmap. Qed.

Lemma gather_app (a : list A) (idx1 idx2 : list nat) :
  gather a (idx1 ++ idx2) = gather a idx1 ++ gather a idx2.
Proof. unfold gather. by rewrite fmap_app. Qed.

Lemma gather_seq (a : list A) : gather a (seq 0 (length a)) = a.
Proof.
  unfold gather. apply list_eq. intros i.
  rewrite list_lookup_fmap.
  destruct (decide (i < length a)) as [Hi|Hi].
  - rewrite lookup_seq_lt by done. simpl.
    rewrite index_lt by done.
    destruct (lookup_lt_is_Some_2 a i Hi) as [x Hx].
    rewrite Hx. f_equal. by apply list_lookup_total_correct.
  - rewrite lookup_seq_ge by lia. simpl.
    symmetry. apply lookup_ge_None. lia.
Qed.

Lemma gather_Permutation (a : list A) (idx : list nat) :
  idx ≡ₚ seq 0 (length a) → gather a idx ≡ₚ a.
Proof.
  intros Hp. rewrite <- (gather_seq a) at 2.
  unfold gather. by apply fmap_Permutation.
Qed.

(** Reading an array through all the positions of an index array. *)
Lemma fmap_index_seq {B} (f : A → B) (a : list A) :
  (λ i, f (index a i)) <$> seq 0 (length a) = f <$> a.
Proof.
  transitivity (f <$> gather a (seq 0 (length a))).
  - unfold gather. by rewrite <- list_fmap_compose.
  - by rewrite gather_seq.
Qed.

End Indexing.

Lemma gather_zip {A B} `{Inhabited A} `{Inhabited B}
    (a : list A) (b : list B) (idx : list nat) :
  length a = length b →
  Forall (λ i, i < length a) idx →
  gather (zip a b) idx = zip (gather a idx) (gather b idx).
Proof.
  intros Hlen Hidx. unfold gather.
  induction Hidx as [|i idx Hi _ IH]; csimpl; [done|].
  rewrite IH. f_equal.
  assert (Hi' : i < length b) by lia.
  assert (Hz : i < length (zip a b)) by (rewrite length_zip; lia).
  rewrite !index_lt by done.
  destruct (lookup_lt_is_Some_2 a i Hi) as [x Hx].
  destruct (lookup_lt_is_Some_2 b i Hi') as [y Hy].
  rewrite (list_lookup_total_correct a i x Hx).
  rewrite (list_lookup_total_correct b i y Hy).
  apply list_lookup_total_correct.
  rewrite lookup_zip_with, Hx; simpl. by rewrite Hy.
Qed.

(** The order in which [argsort a] puts two indices. *)
Definition key_le (a : list xnum) (i j : nat) : Prop :=
  xle (a !!! i) (a !!! j).

Global Instance key_le_trans (a : list xnum) : Transitive (key_le a).
Proof. intros i j k. unfold key_le. apply transitivity. Qed.

Lemma argsort_insert_Permutation (a : list xnum) (i : nat) (l : list nat) :
  argsort_insert a i l ≡ₚ i :: l.
Proof.
  induction l as [|j l IH]; simpl; [done|].
  destruct (decide (xle (a !!! j) (a !!! i))); [|done].
  rewrite IH. apply Permutation_swap.
Qed.

Lemma argsort_insert_Sorted (a : list xnum) (i : nat) (l : list nat) :
  Sorted (key_le a) l → Sorted (key_le a) (argsort_insert a i l).
Proof.
  induction 1 as [|j l Hl IH Hj]; simpl.
  - repeat constructor.
  - destruct (decide (xle (a !!! j) (a !!! i))) as [Hji|Hji].
    + constructor; [done|].
      destruct l as [|k l]; simpl in *.
      * by repeat constructor.
      * destruct (decide (xle (a !!! k) (a !!! i))); constructor;
          [by inv Hj|done].
    + constructor; [by constructor|]. constructor. unfold key_le.
      destruct (total xle (a !!! i) (a !!! j)); done.
Qed.

Lemma argsort_foldl (a : list xnum) (acc l : list nat) :
  foldl (λ acc i, argsort_insert a i acc) acc l ≡ₚ acc ++ l
  ∧ (Sorted (key_le a) acc →
     Sorted (key_le a) (foldl (λ acc i, argsort_insert a i acc) acc l)).
Proof.
  revert acc. induction l as [|i l IH]; intros acc; simpl.
  - by rewrite app_nil_r.
  - destruct (IH (argsort_insert a i acc)) as [IHp IHs]. split.
    + rewrite IHp, argsort_insert_Permutation.
      by rewrite <- Permutation_middle.
    + intros Hacc. by apply IHs, argsort_insert_Sorted.
Qed.

Lemma argsort_Permutation (a : list xnum) :
  argsort a ≡ₚ seq 0 (length a).
Proof. apply (argsort_foldl a [] (seq 0 (length a))). Qed.

Lemma argsort_Sorted (a : list xnum) :
  StronglySorted (key_le a) (argsort a).
Proof.
  apply Sorted_StronglySorted; [apply _|].
  apply (argsort_foldl a [] (seq 0 (length a))). constructor.
Qed.

Lemma argsort_length (a : list xnum) : length (argsort a) = length a.
Proof. by rewrite argsort_Permutation, length_seq. Qed.

Lemma argsort_in_range (a : list xnum) :
  Forall (λ i, i < length a) (argsort a).
Proof.
  rewrite argsort_Permutation. apply Forall_forall. intros i Hi.
  apply elem_of_seq in Hi. lia.
Qed.

(** Descending order of values. *)
Definition xge : relation xnum := flip xle.

Global Instance xge_dec : RelDecision xge.
Proof. intros x y. unfold xge, flip. apply _. Defined.
Global Instance xge_trans : Transitive xge.
Proof. intros x y z Hxy Hyz. unfold xge, flip in *. by etrans. Qed.
Global Instance xge_total : Total xge.
Proof. intros x y. unfold xge, flip. destruct (total xle x y); auto. Qed.
Global Instance xge_antisym : AntiSymm (=) xge.
Proof. intros x y Hxy Hyx. by apply (anti_symm xle). Qed.

(** Reading [a] through [argsort (-a)] lists its values in descending
    order. *)
Lemma gather_argsort_neg_sorted (a : list xnum) :
  StronglySorted xge (gather a (argsort (xneg <$> a))).
Proof.
  pose proof (argsort_Sorted (xneg <$> a)) as Hs.
  pose proof (argsort_in_range (xneg <$> a)) as Hr.
  rewrite length_fmap in Hr.
  induction Hs as [|i l Hl IH Hi]; simpl; [constructor|].
  apply Forall_cons in Hr as [Hri Hrl].
  constructor; [by apply IH|].
  unfold gather. apply Forall_fmap, Forall_forall. intros j Hj. simpl.
  rewrite Forall_forall in Hi, Hrl.
  specialize (Hi j Hj). specialize (Hrl j Hj).
  unfold key_le in Hi. unfold xge, flip.
  rewrite !index_lt by done.
  rewrite (list_lookup_total_fmap xneg a i Hri) in Hi.
  rewrite (list_lookup_total_fmap xneg a j Hrl) in Hi.
  by apply xneg_le.
Qed.

(** ** The pool of best results *)

(** The [count] largest values of [l], largest first. *)
Definition top_count (count : nat) (l : list xnum) : list xnum :=
  take count (merge_sort xge l).

(** [top] holds [count] values of [all] and none of the others is larger
    than any of them. *)
Definition dominates (top rest : list xnum) : Prop :=
  ∀ x y, x ∈ top → y ∈ rest → xle y x.

Lemma top_count_characterisation (count : nat) (all top rest : list xnum) :
  top ++ rest ≡ₚ all → length top = count → dominates top rest →
  top ≡ₚ top_count count all.
Proof.
  intros Hperm Hlen Hdom. unfold top_count.
  assert (Hsorted :
    merge_sort xge top ++ merge_sort xge rest = merge_sort xge all).
  { apply (StronglySorted_unique xge).
    - apply StronglySorted_app_2.
      + intros x y Hx Hy. unfold xge, flip.
        rewrite merge_sort_Permutation in Hx, Hy. by apply Hdom.
      + apply StronglySorted_merge_sort; apply _.
      + apply StronglySorted_merge_sort; apply _.
    - apply StronglySorted_merge_sort; apply _.
    - by rewrite !merge_sort_Permutation. }
  rewrite <- Hsorted, take_app_length'.
  - by rewrite merge_sort_Permutation.
  - by rewrite merge_sort_Permutation.
Qed.

Lemma filter_length_lt {A} (P : A → Prop) `{∀ x, Decision (P x)}
    (l : list A) (x : A) :
  x ∈ l → ¬ P x → length (filter P l) < length l.
Proof.
  induction l as [|y l IH]; intros Hx HP; [by inv Hx|].
  rewrite filter_cons. simpl.
  pose proof (length_filter P l).
  destruct (decide (P y)); simpl; [|lia].
  apply elem_of_cons in Hx as [->|Hx]; [done|].
  specialize (IH Hx HP). lia.
Qed.

Lemma filter_length_all {A} (P : A → Prop) `{∀ x, Decision (P x)}
    (l : list A) :
  Forall P l → length (filter P l) = length l.
Proof.
  induction 1 as [|y l Hy _ IH]; [done|].
  rewrite filter_cons, decide_True by done. simpl. by rewrite IH.
Qed.

Lemma filter_length_pos {A} (P : A → Prop) `{∀ x, Decision (P x)}
    (l : list A) :
  0 < length (filter P l) → ∃ x, x ∈ l ∧ P x.
Proof.
  intros Hpos. destruct (filter P l) as [|x l'] eqn:E; [simpl in Hpos; lia|].
  exists x. apply and_comm, (list_elem_of_filter P). rewrite E. left.
Qed.

(** Folding a batch into a dominated pool keeps what was dropped before
    dominated. *)
Lemma dominates_step (count : nat) (pool rest top rest' batch : list xnum) :
  length pool = count → length top = count →
  top ++ rest' ≡ₚ batch ++ pool →
  dominates top rest' → dominates pool rest →
  dominates top rest.
Proof.
  intros Hpool Htop Hperm Hnew Hold x y Hx Hy.
  destruct (decide (xle y x)) as [|Hyx]; [done|]. exfalso.
  apply xlt_nle in Hyx.
  set (P := λ z, xlt x z).
  assert (Hall : Forall P pool).
  { apply Forall_forall. intros z Hz. unfold P.
    apply xlt_nle. intros Hzx. apply xlt_nle in Hyx. apply Hyx.
    trans z; [by apply Hold|done]. }
  assert (Hcount :
    length (filter P top) + length (filter P rest')
    = length (filter P batch) + length (filter P pool)).
  { rewrite <- !length_app, <- !filter_app. by rewrite Hperm. }
  rewrite (filter_length_all P pool Hall) in Hcount.
  assert (Hx' : ¬ P x).
  { unfold P. intros [_ Hne]. done. }
  pose proof (filter_length_lt P top x Hx Hx') as Hlt.
  destruct (filter_length_pos P rest') as (z & Hz & HPz); [lia|].
  unfold P in HPz. apply xlt_nle in HPz. apply HPz. by apply Hnew.
Qed.

Section Pool.
Context `{Jax} `{Pyvizier}.
Hypothesis argpartition_ok : argpartition_spec.

(** The indices that [_update_best_results] keeps and those it drops. *)
Lemma top_indices (all : list xnum) (count : nat) :
  0 < count → count ≤ length all →
  let p := argpartition (xneg <$> all) (Z.of_nat count - 1) in
  p ≡ₚ seq 0 (length all)
  ∧ ∀ i j, i ∈ take count p → j ∈ drop count p →
           xle (all !!! j) (all !!! i).
Proof.
  intros Hpos Hlen p. subst p.
  replace (Z.of_nat count - 1)%Z with (Z.of_nat (count - 1)) by lia.
  destruct (argpartition_ok (xneg <$> all) (count - 1)) as [Hperm Hord].
  { rewrite length_fmap. lia. }
  rewrite length_fmap in Hperm.
  set (p := argpartition (xneg <$> all) (Z.of_nat (count - 1))) in *.
  split; [done|].
  assert (Hplen : length p = length all).
  { by rewrite Hperm, length_seq. }
  assert (Hrange : ∀ i, i ∈ p → i < length all).
  { intros i Hi. rewrite Hperm in Hi. apply elem_of_seq in Hi. lia. }
  destruct (lookup_lt_is_Some_2 p (count - 1)) as [pk Hpk]; [lia|].
  intros i j Hi Hj.
  apply list_elem_of_lookup in Hi as [a Ha].
  apply list_elem_of_lookup in Hj as [b Hb].
  apply lookup_take_Some in Ha as [Ha Halt].
  rewrite lookup_drop in Hb.
  destruct (Hord a (count + b) i pk j) as [H1 _]; [lia|lia|done..|].
  destruct (Hord (count - 1) (count + b) pk pk j) as [_ H2];
    [lia|lia|done..|].
  assert (Hi : i < length all)
    by (apply Hrange; by eapply list_elem_of_lookup_2).
  assert (Hk : pk < length all)
    by (apply Hrange; by eapply list_elem_of_lookup_2).
  assert (Hj : j < length all)
    by (apply Hrange; by eapply list_elem_of_lookup_2).
  rewrite (list_lookup_total_fmap xneg all i Hi) in H1.
  rewrite (list_lookup_total_fmap xneg all pk Hk) in H1, H2.
  rewrite (list_lookup_total_fmap xneg all j Hj) in H2.
  apply xneg_le. by trans (xneg (all !!! pk)).
Qed.

(** One update: the new pool has [count] rewards, they and the dropped
    ones are the batch and the old pool, and no dropped reward is larger
    than a kept one. *)
Lemma update_rewards (best : VectorizedStrategyResults) (count : nat)
    (batch_features : matrix) (batch_rewards : list xnum) :
  0 < count → length (rewards best) = count →
  let new :=
    VectorizedOptimizer._update_best_results best count batch_features
      batch_rewards in
  length (rewards new) = count
  ∧ ∃ rest,
      rewards new ++ rest ≡ₚ batch_rewards ++ rewards best
      ∧ dominates (rewards new) rest.
Proof.
  intros Hpos Hbest new. subst new.
  unfold VectorizedOptimizer._update_best_results; simpl.
  set (all := batch_rewards ++ rewards best).
  assert (Hlen : count ≤ length all).
  { unfold all. rewrite length_app. lia. }
  destruct (top_indices all count Hpos Hlen) as [Hperm Hord].
  set (p := argpartition (xneg <$> all) (Z.of_nat count - 1)) in *.
  assert (Hplen : length p = length all).
  { by rewrite Hperm, length_seq. }
  split.
  { rewrite gather_length, length_take. lia. }
  exists (gather all (drop count p)). split.
  - rewrite <- gather_app, take_drop. by apply gather_Permutation.
  - intros x y Hx Hy. unfold gather in Hx, Hy.
    apply list_elem_of_fmap in Hx as (i & -> & Hi).
    apply list_elem_of_fmap in Hy as (j & -> & Hj).
    assert (Hrange : ∀ k, k ∈ p → k < length all).
    { intros k Hk. rewrite Hperm in Hk. apply elem_of_seq in Hk. lia. }
    rewrite !index_lt.
    + by apply Hord.
    + apply Hrange. by apply (subseteq_take count p).
    + apply Hrange. by apply (subseteq_drop count p).
Qed.

(** The pool after folding a sequence of batches into it, as the loop of
    [optimize] does one batch per step. *)
Definition fold_batches (count : nat) (pool : VectorizedStrategyResults)
    (batches : list (matrix * list xnum)) : VectorizedStrategyResults :=
  foldl
    (λ best batch,
       VectorizedOptimizer._update_best_results best count batch.1 batch.2)
    pool batches.

(** All the rewards of a sequence of batches. *)
Definition rewards_seen (batches : list (matrix * list xnum)) : list xnum :=
  concat (snd <$> batches).

Lemma update_lengths (best : VectorizedStrategyResults) (count : nat)
    (batch_features : matrix) (batch_rewards : list xnum) :
  length (rewards best) = count →
  let new :=
    VectorizedOptimizer._update_best_results best count batch_features
      batch_rewards in
  length (rewards new) = count ∧ length (features new) = count.
Proof.
  intros Hbest new. subst new.
  unfold VectorizedOptimizer._update_best_results; simpl.
  rewrite !gather_length.
  destruct count as [|count]; [done|].
  set (all := batch_rewards ++ rewards best).
  assert (Hlen : S count ≤ length all).
  { unfold all. rewrite length_app. lia. }
  destruct (top_indices all (S count)) as [Hperm _]; [lia|done|].
  fold all. rewrite length_take, Hperm, length_seq. lia.
Qed.

Lemma fold_batches_invariant (count : nat)
    (batches : list (matrix * list xnum))
    (pool : VectorizedStrategyResults) (seen rest : list xnum) :
  0 < count →
  length (rewards pool) = count →
  rewards pool ++ rest ≡ₚ seen →
  dominates (rewards pool) rest →
  ∃ rest',
    rewards (fold_batches count pool batches) ++ rest'
      ≡ₚ rewards_seen batches ++ seen
    ∧ dominates (rewards (fold_batches count pool batches)) rest'
    ∧ length (rewards (fold_batches count pool batches)) = count.
Proof.
  intros Hpos. revert pool seen rest.
  induction batches as [|[bf br] batches IH];
    intros pool seen rest Hlen Hperm Hdom; simpl.
  - exists rest. by split_and!.
  - destruct (update_rewards pool count bf br Hpos Hlen)
      as (Hlen' & rest' & Hperm' & Hdom').
    set (new := VectorizedOptimizer._update_best_results pool count bf br)
      in *.
    destruct (IH new (br ++ seen) (rest' ++ rest)) as (r & Hr & Hd & Hl).
    + done.
    + rewrite app_assoc, Hperm', <- app_assoc. by rewrite Hperm.
    + intros x y Hx Hy. apply elem_of_app in Hy as [Hy|Hy].
      * by apply Hdom'.
      * by apply (dominates_step count (rewards pool) rest (rewards new)
                    rest' br).
    + exists r. split_and!; [|done..].
      rewrite Hr. unfold rewards_seen. simpl.
      rewrite <- !app_assoc. apply Permutation_app_swap_app.
Qed.

Lemma top_count_Permutation (count : nat) (l1 l2 : list xnum) :
  l1 ≡ₚ l2 → top_count count l1 = top_count count l2.
Proof.
  intros Hperm. unfold top_count. f_equal.
  apply (StronglySorted_unique xge).
  - apply StronglySorted_merge_sort; apply _.
  - apply StronglySorted_merge_sort; apply _.
  - by rewrite !merge_sort_Permutation.
Qed.

(** Whatever is folded into the initial pool, it keeps [count] rows. *)
Lemma fold_batches_lengths (converter : ArrayConverter Trial) (count : nat)
    (batches : list (matrix * list xnum)) :
  let pool :=
    fold_batches count
      (VectorizedOptimizer.init_best_results converter count) batches in
  length (rewards pool) = count ∧ length (features pool) = count.
Proof.
  unfold fold_batches.
  induction batches as [|[bf br] batches IH] using rev_ind; simpl.
  - unfold VectorizedOptimizer.init_best_results, zeros2; simpl.
    by rewrite !length_replicate.
  - rewrite foldl_app; simpl. apply update_lengths. apply IH.
Qed.

(** C3.  Starting from the initial pool of [count] rows with reward
    [-inf] and zero features, after folding in any sequence of batches the
    pool has [count] rows, its rewards are the [count] largest of all the
    rewards seen together with the [count] initial [-inf], as a multiset,
    and processing the batches in another order gives the same multiset of
    rewards. *)
Theorem best_results_pool_invariant :
  ∀ (converter : ArrayConverter Trial) (count : nat)
    (batches : list (matrix * list xnum)),
    let init := VectorizedOptimizer.init_best_results converter count in
    let pool := fold_batches count init batches in
    length (rewards init) = count
    ∧ length (features init) = count
    ∧ rewards init = replicate count NInf
    ∧ features init = replicate count (zeros (to_features_ncols converter))
    ∧ length (rewards pool) = count
    ∧ length (features pool) = count
    ∧ rewards pool
      ≡ₚ top_count count (rewards_seen batches ++ replicate count NInf)
    ∧ ∀ batches',
        batches' ≡ₚ batches →
        rewards (fold_batches count init batches') ≡ₚ rewards pool.
Proof.
  intros converter count batches init pool.
  assert (Hinit : length (rewards init) = count).
  { unfold init, VectorizedOptimizer.init_best_results; simpl.
    by rewrite length_replicate. }
  pose proof (fold_batches_lengths converter count) as Hlens. fold init in Hlens.
  assert (Htop : ∀ bs,
    rewards (fold_batches count init bs)
    ≡ₚ top_count count (rewards_seen bs ++ replicate count NInf)).
  { intros bs. destruct count as [|count].
    - destruct (Hlens bs) as [Hl _].
      apply nil_length_inv in Hl. rewrite Hl. by unfold top_count.
    - destruct (fold_batches_invariant (S count) bs init
                  (replicate (S count) NInf) [])
        as (rest & Hperm & Hdom & Hlen); [lia|done|..].
      + by rewrite app_nil_r.
      + intros x y _ Hy. by inv Hy.
      + by apply (top_count_characterisation _ _ _ rest). }
  split_and!;
    [done | apply (Hlens []) | reflexivity | reflexivity
    | apply Hlens | apply Hlens | apply Htop | ].
  intros batches' Hperm. unfold pool. rewrite !Htop.
  erewrite top_count_Permutation; [done|].
  unfold rewards_seen. by rewrite Hperm.
Qed.

End Pool.

(** A full stable sort meets the contract of [argpartition]. *)
Lemma StronglySorted_lookup_le {A} (R : relation A) `{!Reflexive R}
    (l : list A) (i j : nat) (x y : A) :
  StronglySorted R l → i ≤ j → l !! i = Some x → l !! j = Some y → R x y.
Proof.
  intros Hs. revert i j. induction Hs as [|z l Hl IH Hz]; intros i j Hij Hi Hj.
  - by rewrite lookup_nil in Hi.
  - destruct i as [|i], j as [|j]; simpl in *; simplify_eq.
    + reflexivity.
    + rewrite Forall_forall in Hz. apply Hz.
      by eapply list_elem_of_lookup_2.
    + lia.
    + apply (IH i j); [lia|done..].
Qed.

Lemma demo_argpartition_ok : @argpartition_spec Demo.jax.
Proof.
  intros a kth Hk. simpl. split; [apply argsort_Permutation|].
  intros i j pi pk pj Hi Hj Hpi Hpk Hpj.
  assert (Hrefl : Reflexive (key_le a)).
  { intros x. unfold key_le. reflexivity. }
  split.
  - apply (StronglySorted_lookup_le (key_le a) (argsort a) i kth);
      [apply argsort_Sorted|done..].
  - apply (StronglySorted_lookup_le (key_le a) (argsort a) kth j);
      [apply argsort_Sorted|done..].
Qed.

Section PoolDemo.
#[local] Existing Instance Demo.jax.
#[local] Existing Instance Demo.pyvizier.

(** Two batches, of two rows and of one. *)
Definition demo_batches : list (matrix * list xnum) :=
  [ ([[qc 1 1]; [qc 2 1]], [Fin (qc 1 1); Fin (qc 2 1)]);
    ([[qc 3 1]], [Fin (qc 3 1)]) ].

Lemma best_results_pool_invariant_witness :
  length
    (rewards
       (fold_batches 2
          (VectorizedOptimizer.init_best_results Demo.converter 2)
          demo_batches)) = 2
  ∧ rewards
      (fold_batches 2
         (VectorizedOptimizer.init_best_results Demo.converter 2)
         demo_batches)
    ≡ₚ [Fin (qc 3 1); Fin (qc 2 1)].
Proof.
  destruct (best_results_pool_invariant demo_argpartition_ok
              Demo.converter 2 demo_batches)
    as (_ & _ & _ & _ & Hlen & _ & Htop & _).
  split; [exact Hlen|]. exact Htop.
Defined.

End PoolDemo.

(** ** Runs of the optimizer *)

(** A world after more events and more readings of the clock. *)
Definition advance (events : list event) (readings : nat) (w : world)
  : world :=
  {| trace := trace w ++ events;
     clock := clock w;
     ticks := ticks w + readings |}.

Lemma advance_advance (es1 es2 : list event) (n1 n2 : nat) (w : world) :
  advance es2 n2 (advance es1 n1 w) = advance (es1 ++ es2) (n1 + n2) w.
Proof.
  unfold advance; simpl. f_equal; [by rewrite app_assoc|lia].
Qed.

Lemma advance_nothing (w : world) : advance [] 0 w = w.
Proof.
  destruct w. unfold advance; simpl. f_equal; [by rewrite app_nil_r|lia].
Qed.

Lemma emit_run (e : event) (w : world) : emit e w = (Ok (), advance [e] 0 w).
Proof.
  unfold emit, modify_M, advance; simpl. do 2 f_equal. lia.
Qed.

Lemma now_run (w : world) :
  now w = (Ok (clock w (ticks w)), advance [] 1 w).
Proof.
  unfold now, bind_M, get_M, modify_M, ret_M, advance; simpl.
  do 2 f_equal; [by rewrite app_nil_r|lia].
Qed.

Section Run.
Context `{Jax} `{Pyvizier}.
Variable strategy : VectorizedStrategy.
Variable score_fn : matrix → list xnum.
Variable count : nat.
Variable mask : option (list bool).

Abbreviation loop_state :=
  (strategy_state strategy * VectorizedStrategyResults * KeyArray)%type.

(** The batch that one step asks for, after masking. *)
Definition step_features (args : loop_state) : matrix :=
  let '(state, _, seed) := args in
  let '(suggest_seed, _, _) := random_split3 seed in
  match mask with
  | Some m => mask_row m <$> suggest strategy state suggest_seed
  | None => suggest strategy state suggest_seed
  end.

(** The loop state after one step. *)
Definition step_result (args : loop_state) : loop_state :=
  let '(state, best_results, seed) := args in
  let '(_, update_seed, new_seed) := random_split3 seed in
  let new_features := step_features args in
  let new_rewards := score_fn new_features in
  (update strategy state new_features new_rewards update_seed,
   VectorizedOptimizer._update_best_results best_results count new_features
     new_rewards,
   new_seed).

Definition step_events (args : loop_state) : list event :=
  [Suggest; Score (length (step_features args)); Update].

Lemma one_step_run (i : Z) (args : loop_state) (w : world) :
  VectorizedOptimizer._optimization_one_step strategy score_fn count mask i
    args w
  = (Ok (step_result args), advance (step_events args) 0 w).
Proof.
  unfold VectorizedOptimizer._optimization_one_step, step_result,
    step_events, step_features.
  destruct args as [[state best] seed].
  destruct (random_split3 seed) as [[suggest_seed update_seed] new_seed].
  unfold bind_M. rewrite !emit_run. unfold ret_M.
  rewrite !advance_advance. reflexivity.
Qed.

(** The loop state after [n] steps, the batches scored on the way and the
    events of the steps. *)
Fixpoint steps_result (n : nat) (args : loop_state) : loop_state :=
  match n with
  | O => args
  | S n => steps_result n (step_result args)
  end.

Fixpoint steps_batches (n : nat) (args : loop_state)
  : list (matrix * list xnum) :=
  match n with
  | O => []
  | S n =>
      (step_features args, score_fn (step_features args))
        :: steps_batches n (step_result args)
  end.

Definition batch_events (batch : matrix * list xnum) : list event :=
  [Suggest; Score (length batch.1); Update].

Lemma fori_loop_from_run (n : nat) (i : Z) (args : loop_state) (w : world) :
  fori_loop_from n i
    (VectorizedOptimizer._optimization_one_step strategy score_fn count mask)
    args w
  = (Ok (steps_result n args),
     advance (steps_batches n args ≫= batch_events) 0 w).
Proof.
  revert i args w. induction n as [|n IH]; intros i args w; simpl.
  - unfold ret_M. by rewrite advance_nothing.
  - unfold bind_M. rewrite one_step_run, IH, advance_advance.
    reflexivity.
Qed.

Lemma steps_batches_length (n : nat) (args : loop_state) :
  length (steps_batches n args) = n.
Proof.
  revert args. induction n as [|n IH]; intros args; simpl; [done|].
  by rewrite IH.
Qed.

Lemma steps_result_best (n : nat) (args : loop_state) :
  (steps_result n args).1.2
  = fold_batches count args.1.2 (steps_batches n args).
Proof.
  revert args. induction n as [|n IH]; intros args; simpl; [done|].
  rewrite IH. unfold step_result.
  destruct args as [[state best] seed].
  by destruct (random_split3 seed) as [[suggest_seed update_seed] new_seed].
Qed.

(** When every batch has [b] rows, the events of [n] steps are [n] times
    ask, evaluate [b] rows, tell. *)
Lemma steps_events_uniform (n b : nat) (args : loop_state) :
  Forall (λ batch, length batch.1 = b) (steps_batches n args) →
  steps_batches n args ≫= batch_events
  = concat (replicate n [Suggest; Score b; Update]).
Proof.
  revert args. induction n as [|n IH]; intros args Hall; [done|].
  simpl in Hall. apply Forall_cons in Hall as [Hb Hall].
  cbn [steps_batches replicate concat]. rewrite bind_cons.
  rewrite (IH _ Hall). unfold batch_events. simpl in *.
  by rewrite Hb.
Qed.

End Run.

Section OptimizeRun.
Context `{Jax} `{Pyvizier}.

(** The [i]-th trial that [_best_candidates] returns when it is created
    at time [created]. *)
Definition candidate (best_results : VectorizedStrategyResults)
    (converter : ArrayConverter Trial) (created : Z) (i : nat) : Trial :=
  let ind := index (argsort (xneg <$> rewards best_results)) i in
  {| parameters :=
       to_parameters converter (index (features best_results) ind);
     creation_time := created;
     final_measurement :=
       Some {| metrics :=
                 [("acquisition", index (rewards best_results) ind)] |} |}.

Lemma for_each_now {B} (f : Z → nat → B) (k m : nat) (w : world) :
  for_each (seq k m) (λ i, created <- now;; ret_M (f created i)) w
  = (Ok ((λ j, f (clock w (ticks w + j)) (k + j)) <$> seq 0 m),
     advance [] m w).
Proof.
  revert k w. induction m as [|m IH]; intros k w; simpl.
  - unfold ret_M. by rewrite advance_nothing.
  - unfold bind_M at 1. unfold bind_M at 1. rewrite now_run.
    unfold ret_M at 1. unfold bind_M at 1.
    rewrite IH. unfold ret_M. rewrite advance_advance. simpl.
    f_equal. f_equal. f_equal.
    + do 2 f_equal; lia.
    + rewrite <- fmap_S_seq, <- list_fmap_compose.
      apply list_fmap_ext. intros _ j _. simpl. do 2 f_equal; lia.
Qed.

Lemma best_candidates_run (best_results : VectorizedStrategyResults)
    (converter : ArrayConverter Trial) (w : world) :
  VectorizedOptimizer._best_candidates best_results converter w
  = (Ok ((λ j, candidate best_results converter (clock w (ticks w + j)) j)
           <$> seq 0 (length (rewards best_results))),
     advance [] (length (rewards best_results)) w).
Proof.
  unfold VectorizedOptimizer._best_candidates.
  apply (for_each_now (candidate best_results converter) 0).
Qed.

(** The features of the prior trials as [optimize] prepares them. *)
Definition prior_features_of (converter : ArrayConverter Trial)
    (prior_trials : option (list Trial)) : option matrix :=
  match prior_trials with
  | Some ((_ :: _) as prior_trials) =>
      let prior_trials := sorted prior_trials creation_time in
      let prior_features := to_features converter prior_trials in
      Some (if is_padded converter then
              imap (λ i r, if decide (i < length prior_trials) then r
                           else zeros (length r))
                prior_features
            else prior_features)
  | _ => None
  end.

Definition prior_events (prior_features : option matrix) : list event :=
  match prior_features with
  | Some prior_features => [Score (length prior_features)]
  | None => []
  end.

Lemma prior_arrays_run (converter : ArrayConverter Trial)
    (score_fn : matrix → list xnum) (prior_trials : option (list Trial))
    (w : world) :
  let prior_features := prior_features_of converter prior_trials in
  VectorizedOptimizer.prior_arrays converter score_fn prior_trials w
  = (Ok (prior_features, score_fn <$> prior_features),
     advance (prior_events prior_features) 0 w).
Proof.
  unfold VectorizedOptimizer.prior_arrays, prior_features_of.
  destruct prior_trials as [[|t prior_trials]|]; simpl.
  - unfold ret_M. by rewrite advance_nothing.
  - unfold bind_M. rewrite emit_run. reflexivity.
  - unfold ret_M. by rewrite advance_nothing.
Qed.

Variable self : VectorizedOptimizer.t.
Variable converter : ArrayConverter Trial.
Variable score_fn : matrix → list xnum.
Variable count : nat.
Variable prior_trials : option (list Trial).
Variable seed : option Z.

(** The strategy of a run, the number of steps of its loop and the state
    that the loop starts from. *)
Definition run_strategy : VectorizedStrategy :=
  VectorizedOptimizer.strategy_factory self converter
    (VectorizedOptimizer.suggestion_batch_size self).

Definition run_trips : nat :=
  Z.to_nat (VectorizedOptimizer.max_evaluations self
            `div` VectorizedOptimizer.suggestion_batch_size self).

Definition run_mask : option (list bool) :=
  VectorizedOptimizer.dimension_is_missing converter.

Definition run_init_args
  : strategy_state run_strategy * VectorizedStrategyResults * KeyArray :=
  let key := PRNGKey (VectorizedOptimizer.seed_or_zero seed) in
  let prior_features := prior_features_of converter prior_trials in
  (init_state run_strategy (random_split key).1 prior_features
     (score_fn <$> prior_features),
   VectorizedOptimizer.init_best_results converter count,
   (random_split key).2).

(** The batches that the loop of a run scores, and the pool it ends
    with. *)
Definition run_batches : list (matrix * list xnum) :=
  steps_batches run_strategy score_fn count run_mask run_trips
    run_init_args.

Definition run_best_results : VectorizedStrategyResults :=
  (steps_result run_strategy score_fn count run_mask run_trips
     run_init_args).1.2.

Definition run_events (duration : Z) : list event :=
  prior_events (prior_features_of converter prior_trials)
    ++ [InitState]
    ++ (run_batches ≫= batch_events)
    ++ [LogInfo duration
          ((VectorizedOptimizer.max_evaluations self
            `div` VectorizedOptimizer.suggestion_batch_size self)
           * VectorizedOptimizer.suggestion_batch_size self)
          run_best_results].

Lemma optimize_run (w : world) :
  VectorizedOptimizer.suggestion_batch_size self ≠ 0%Z →
  VectorizedOptimizer.optimize self converter score_fn count prior_trials
    seed w
  = (Ok ((λ j, candidate run_best_results converter
                 (clock w (ticks w + 2 + j)) j)
           <$> seq 0 (length (rewards run_best_results))),
     advance
       (run_events (clock w (ticks w + 1) - clock w (ticks w)))
       (2 + length (rewards run_best_results)) w).
Proof.
  intros Hbatch.
  unfold VectorizedOptimizer.optimize.
  unfold bind_M at 1. rewrite prior_arrays_run.
  unfold bind_M at 1. rewrite now_run.
  unfold bind_M at 1.
  replace (if VectorizedOptimizer.jit_loop self then _ else _)
    with (VectorizedOptimizer._optimize self converter run_strategy score_fn
            count run_mask
            (PRNGKey (VectorizedOptimizer.seed_or_zero seed))
            (prior_features_of converter prior_trials)
            (score_fn <$> prior_features_of converter prior_trials))
    by (unfold jit; by destruct (VectorizedOptimizer.jit_loop self)).
  unfold VectorizedOptimizer._optimize.
  destruct (random_split (PRNGKey (VectorizedOptimizer.seed_or_zero seed)))
    as [init_seed loop_seed] eqn:Hsplit.
  unfold bind_M at 1. rewrite emit_run.
  rewrite decide_False by done.
  unfold fori_loop. rewrite Z.sub_0_r.
  rewrite fori_loop_from_run.
  fold run_trips.
  assert (Hargs :
    (init_state run_strategy init_seed
       (prior_features_of converter prior_trials)
       (score_fn <$> prior_features_of converter prior_trials),
     VectorizedOptimizer.init_best_results converter count, loop_seed)
    = run_init_args).
  { unfold run_init_args. by rewrite Hsplit. }
  rewrite Hargs. fold run_batches.
  destruct (steps_result run_strategy score_fn count run_mask run_trips
              run_init_args) as [[state best] key] eqn:Hfinal.
  assert (Hbest : best = run_best_results).
  { unfold run_best_results. by rewrite Hfinal. }
  subst best.
  unfold bind_M at 1. rewrite now_run.
  unfold bind_M at 1. rewrite emit_run.
  rewrite best_candidates_run.
  rewrite !advance_advance. simpl.
  do 2 f_equal. rewrite app_nil_r, Nat.add_0_r.
  unfold run_events. by rewrite <- ?app_assoc.
Qed.

Lemma optimize_zero_batch (w : world) :
  VectorizedOptimizer.suggestion_batch_size self = 0%Z →
  VectorizedOptimizer.optimize self converter score_fn count prior_trials
    seed w
  = (Raise ZeroDivisionError,
     advance
       (prior_events (prior_features_of converter prior_trials)
          ++ [InitState])
       1 w).
Proof.
  intros Hbatch.
  unfold VectorizedOptimizer.optimize.
  unfold bind_M at 1. rewrite prior_arrays_run.
  unfold bind_M at 1. rewrite now_run.
  unfold bind_M at 1.
  replace (if VectorizedOptimizer.jit_loop self then _ else _)
    with (VectorizedOptimizer._optimize self converter run_strategy score_fn
            count run_mask
            (PRNGKey (VectorizedOptimizer.seed_or_zero seed))
            (prior_features_of converter prior_trials)
            (score_fn <$> prior_features_of converter prior_trials))
    by (unfold jit; by destruct (VectorizedOptimizer.jit_loop self)).
  unfold VectorizedOptimizer._optimize.
  destruct (random_split (PRNGKey (VectorizedOptimizer.seed_or_zero seed)))
    as [init_seed loop_seed] eqn:Hsplit.
  unfold bind_M at 1. rewrite emit_run.
  rewrite decide_True by done. unfold raise_M.
  rewrite !advance_advance. simpl. reflexivity.
Qed.

End OptimizeRun.

(** ** What a run of [optimize] does and returns *)

(** The value of the metric [name] in the final measurement of a trial. *)
Definition metric_value `{Pyvizier} (name : string) (t : Trial)
  : option xnum :=
  m ← final_measurement t;
  (λ found, found.2.2) <$> list_find (λ kv, kv.1 = name) (metrics m).

(** The number of rows that the score function is called on in a list of
    events. *)
Definition scored_rows (events : list event) : nat :=
  sum_list_with (λ e, match e with Score rows => rows | _ => 0 end) events.

Lemma scored_rows_steps (n b : nat) :
  scored_rows (concat (replicate n [Suggest; Score b; Update])) = n * b.
Proof.
  induction n as [|n IH]; [done|].
  unfold scored_rows in *. cbn [replicate concat].
  rewrite sum_list_with_app, IH. simpl. lia.
Qed.

Section OptimizeResults.
Context `{Jax} `{Pyvizier}.
Variable self : VectorizedOptimizer.t.
Variable converter : ArrayConverter Trial.
Variable score_fn : matrix → list xnum.
Variable count : nat.
Variable prior_trials : option (list Trial).
Variable seed : option Z.

Abbreviation best_results :=
  (run_best_results self converter score_fn count prior_trials seed).

(** The rewards of the final pool in the order of the returned trials. *)
Definition returned_rewards : list xnum :=
  gather (rewards best_results) (argsort (xneg <$> rewards best_results)).

Lemma candidates_metric (created : nat → Z) :
  metric_value "acquisition"
    <$> ((λ j, candidate best_results converter (created j) j)
           <$> seq 0 (length (rewards best_results)))
  = Some <$> returned_rewards.
Proof.
  rewrite <- list_fmap_compose.
  unfold returned_rewards, gather. rewrite <- list_fmap_compose.
  rewrite <- (length_fmap xneg (rewards best_results)).
  rewrite <- (argsort_length (xneg <$> rewards best_results)).
  rewrite <- (fmap_index_seq (Some ∘ index (rewards best_results))).
  apply list_fmap_ext. intros _ j _. reflexivity.
Qed.

Lemma returned_rewards_sorted : StronglySorted xge returned_rewards.
Proof. apply gather_argsort_neg_sorted. Qed.

Lemma run_best_results_fold :
  best_results
  = fold_batches count
      (VectorizedOptimizer.init_best_results converter count)
      (run_batches self converter score_fn count prior_trials seed).
Proof.
  unfold run_best_results, run_batches. by rewrite steps_result_best.
Qed.

Lemma run_batches_length :
  length (run_batches self converter score_fn count prior_trials seed)
  = run_trips self.
Proof. unfold run_batches. apply steps_batches_length. Qed.

(** Every batch of a run has as many rows as the strategy suggests. *)
Lemma run_batches_rows (b : nat) :
  (∀ state key,
     length (suggest (run_strategy self converter) state key) = b) →
  Forall (λ batch, length batch.1 = b)
    (run_batches self converter score_fn count prior_trials seed).
Proof.
  intros Hsuggest. unfold run_batches.
  generalize (run_init_args self converter score_fn count prior_trials seed).
  induction (run_trips self) as [|n IH]; intros args; simpl; [done|].
  constructor; [|apply IH]. simpl.
  unfold step_features. destruct args as [[state best] key].
  destruct (random_split3 key) as [[suggest_seed update_seed] new_seed].
  destruct (run_mask converter); rewrite ?length_fmap; apply Hsuggest.
Qed.

End OptimizeResults.

Section TripCount.
Context `{Jax} `{Pyvizier}.
Hypothesis argpartition_ok : argpartition_spec.

Lemma run_best_results_length (self : VectorizedOptimizer.t)
    (converter : ArrayConverter Trial) (score_fn : matrix → list xnum)
    (count : nat) (prior_trials : option (list Trial)) (seed : option Z) :
  length
    (rewards
       (run_best_results self converter score_fn count prior_trials seed))
  = count.
Proof.
  rewrite run_best_results_fold.
  apply (fold_batches_lengths argpartition_ok).
Qed.

(** C2.  With a positive batch size, a non-negative evaluation budget and
    a strategy that suggests [suggestion_batch_size] rows at a time,
    [optimize] returns; after the events of the prior trials and of
    [init_state] its trace holds exactly
    [max_evaluations // suggestion_batch_size] times ask, evaluate a batch,
    tell, and then the log line.  The rows evaluated in the loop number
    [(max_evaluations // suggestion_batch_size) * suggestion_batch_size],
    which is the logged count and is at most [max_evaluations].  The run
    returns [count] trials whose [acquisition] measurements are in
    non-increasing order.  With [count = 3], [max_evaluations = 100] and
    [suggestion_batch_size = 25] these are 4 steps and 3 trials. *)
Theorem optimize_trip_count :
  ∀ (self : VectorizedOptimizer.t) (converter : ArrayConverter Trial)
    (score_fn : matrix → list xnum) (count : nat)
    (prior_trials : option (list Trial)) (seed : option Z) (w : world),
    let batch := VectorizedOptimizer.suggestion_batch_size self in
    let budget := VectorizedOptimizer.max_evaluations self in
    (0 < batch)%Z → (0 ≤ budget)%Z →
    (∀ state key,
       length (suggest (run_strategy self converter) state key)
       = Z.to_nat batch) →
    ∃ trials w' duration best values,
      VectorizedOptimizer.optimize self converter score_fn count
        prior_trials seed w = (Ok trials, w')
      ∧ trace w'
        = trace w
            ++ prior_events (prior_features_of converter prior_trials)
            ++ [InitState]
            ++ concat (replicate (Z.to_nat (budget `div` batch))
                         [Suggest; Score (Z.to_nat batch); Update])
            ++ [LogInfo duration (budget `div` batch * batch) best]
      ∧ Z.of_nat
          (scored_rows
             (concat (replicate (Z.to_nat (budget `div` batch))
                        [Suggest; Score (Z.to_nat batch); Update])))
        = (budget `div` batch * batch)%Z
      ∧ (budget `div` batch * batch ≤ budget)%Z
      ∧ length trials = count
      ∧ metric_value "acquisition" <$> trials = Some <$> values
      ∧ StronglySorted xge values
      ∧ (budget = 100%Z → batch = 25%Z → count = 3 →
         Z.to_nat (budget `div` batch) = 4 ∧ length trials = 3).
Proof.
  intros self converter score_fn count prior_trials seed w batch budget
    Hbatch Hbudget Hsuggest.
  assert (Hne : batch ≠ 0%Z) by lia.
  pose proof (optimize_run self converter score_fn count prior_trials seed w
                Hne) as Hrun.
  pose proof (run_best_results_length self converter score_fn count
                prior_trials seed) as Hlen.
  assert (Htrips : (0 ≤ budget `div` batch)%Z) by (apply Z.div_pos; lia).
  eexists _, _, _, _, _. split; [exact Hrun|].
  split_and!.
  - simpl. unfold run_events. do 2 f_equal.
    pose proof (run_batches_rows self converter score_fn count prior_trials
                  seed (Z.to_nat batch) Hsuggest) as Hrows.
    unfold run_batches in *.
    by rewrite (steps_events_uniform _ _ _ _ _ _ _ Hrows).
  - rewrite scored_rows_steps. lia.
  - rewrite Z.mul_comm. apply Z.mul_div_le. lia.
  - by rewrite !length_fmap, length_seq.
  - apply (candidates_metric self converter score_fn count prior_trials
             seed (λ j, clock w (ticks w + 2 + j))).
  - apply returned_rewards_sorted.
  - intros Hb Hs Hc. split.
    + by rewrite Hb, Hs.
    + by rewrite !length_fmap, length_seq, Hlen.
Qed.

End TripCount.

Section TripCountDemo.
#[local] Existing Instance Demo.jax.
#[local] Existing Instance Demo.pyvizier.

Lemma demo_strategy_rows (batch max_evals : Z) state key :
  length
    (suggest (run_strategy (Demo.optimizer batch max_evals) Demo.converter)
       state key)
  = Z.to_nat batch.
Proof. simpl. by rewrite length_fmap, length_seq. Qed.

Lemma optimize_trip_count_witness :
  ∃ trials w' duration best values,
    VectorizedOptimizer.optimize (Demo.optimizer 25 100) Demo.converter
      Demo.score_fn 3 None (Some 1%Z) Demo.world0 = (Ok trials, w')
    ∧ trace w'
      = [InitState]
          ++ concat (replicate 4 [Suggest; Score 25; Update])
          ++ [LogInfo duration 100 best]
    ∧ length trials = 3
    ∧ metric_value "acquisition" <$> trials = Some <$> values
    ∧ StronglySorted xge values.
Proof.
  destruct (optimize_trip_count demo_argpartition_ok
              (Demo.optimizer 25 100) Demo.converter Demo.score_fn 3 None
              (Some 1%Z) Demo.world0)
    as (trials & w' & duration & best & values & Hrun & Htrace & _ & _
        & Hlen & Hvalues & Hsorted & _).
  - reflexivity.
  - discriminate.
  - apply demo_strategy_rows.
  - exists trials, w', duration, best, values.
    split; [exact Hrun|]. split; [exact Htrace|].
    split; [exact Hlen|]. split; [exact Hvalues|exact Hsorted].
Defined.

End TripCountDemo.

(** ** The rows of the pool *)

(** The rows of a pool: each feature row with its reward. *)
Definition pool_rows (best : VectorizedStrategyResults)
  : list (row * xnum) :=
  zip (features best) (rewards best).

(** The row that the pool starts with: zero features and reward [-inf]. *)
Definition sentinel_row `{Pyvizier} {Trial} (converter : ArrayConverter Trial)
  : row * xnum :=
  (zeros (to_features_ncols converter), NInf).

(** The rows of a sequence of batches. *)
Definition rows_seen (batches : list (matrix * list xnum))
  : list (row * xnum) :=
  batches ≫= (λ batch, zip batch.1 batch.2).

Lemma filter_length_split {A} (P : A → Prop) `{∀ x, Decision (P x)}
    (l : list A) :
  length (filter P l) + length (filter (λ x, ¬ P x) l) = length l.
Proof.
  induction l as [|x l IH]; [done|].
  rewrite !filter_cons. destruct (decide (P x)) as [HP|HP].
  - rewrite decide_False by tauto. simpl. lia.
  - rewrite decide_True by done. simpl. lia.
Qed.

(** A list of [c] rows drawn from [seen] and [c] copies of [s] holds at
    least [c - length seen] copies of [s]. *)
Lemma copies_kept {A} `{EqDecision A} (s : A) (c : nat) (l seen : list A) :
  l ⊆+ seen ++ replicate c s → length l = c →
  c - length seen ≤ length (filter (λ x, x = s) l).
Proof.
  intros Hsub Hlen.
  apply submseteq_Permutation in Hsub as [k Hk].
  pose proof (filter_length_split (λ x, x = s) l) as Hsplit.
  assert (Hother :
    length (filter (λ x, ¬ x = s) l) ≤ length (filter (λ x, ¬ x = s) seen)).
  { assert (E : filter (λ x, ¬ x = s) (seen ++ replicate c s)
                ≡ₚ filter (λ x, ¬ x = s) (l ++ k)) by (by rewrite Hk).
    rewrite !filter_app in E. apply Permutation_length in E.
    rewrite !length_app in E.
    assert (Hrep : filter (λ x, ¬ x = s) (replicate c s) = []).
    { clear. induction c as [|c IH]; [done|]. simpl.
      rewrite filter_cons, decide_False by tauto. done. }
    rewrite Hrep in E. simpl in E. lia. }
  pose proof (length_filter (λ x, ¬ x = s) seen). lia.
Qed.

Section PoolRows.
Context `{Jax} `{Pyvizier}.
Hypothesis argpartition_ok : argpartition_spec.

Lemma update_rows (best : VectorizedStrategyResults) (count : nat)
    (batch_features : matrix) (batch_rewards : list xnum) :
  length batch_features = length batch_rewards →
  length (features best) = length (rewards best) →
  length (rewards best) = count →
  pool_rows
    (VectorizedOptimizer._update_best_results best count batch_features
       batch_rewards)
  ⊆+ zip batch_features batch_rewards ++ pool_rows best.
Proof.
  intros Hbatch Hbest Hcount. unfold pool_rows.
  unfold VectorizedOptimizer._update_best_results; simpl.
  set (all_r := batch_rewards ++ rewards best).
  set (all_f := batch_features ++ features best).
  destruct count as [|count].
  { simpl. apply submseteq_nil_l. }
  assert (Hlen : S count ≤ length all_r).
  { unfold all_r. rewrite length_app. lia. }
  destruct (top_indices argpartition_ok all_r (S count)) as [Hperm _];
    [lia|done|].
  set (p := argpartition (xneg <$> all_r) (Z.of_nat (S count) - 1)) in *.
  assert (Hall : length all_f = length all_r).
  { unfold all_f, all_r. rewrite !length_app. lia. }
  assert (Hrange : Forall (λ i, i < length all_f) (take (S count) p)).
  { apply Forall_forall. intros i Hi.
    apply (subseteq_take (S count) p) in Hi.
    rewrite Hperm in Hi. apply elem_of_seq in Hi. lia. }
  rewrite <- (gather_zip all_f all_r) by done.
  trans (gather (zip all_f all_r) p).
  - unfold gather. apply fmap_submseteq, submseteq_take.
  - apply Permutation_submseteq.
    rewrite gather_Permutation.
    + unfold all_f, all_r. by rewrite zip_with_app.
    + rewrite length_zip. rewrite Hperm. f_equiv. f_equal. lia.
Qed.

Lemma fold_rows (count : nat) (batches : list (matrix * list xnum))
    (pool : VectorizedStrategyResults) :
  Forall (λ batch, length batch.1 = length batch.2) batches →
  length (features pool) = count →
  length (rewards pool) = count →
  pool_rows (fold_batches count pool batches)
  ⊆+ rows_seen batches ++ pool_rows pool.
Proof.
  intros Hbatches. revert pool.
  induction Hbatches as [|[bf br] batches Hb _ IH]; intros pool Hf Hr.
  - done.
  - destruct (update_lengths argpartition_ok pool count bf br Hr)
      as [Hr' Hf'].
    change (fold_batches count pool ((bf, br) :: batches))
      with (fold_batches count
              (VectorizedOptimizer._update_best_results pool count bf br)
              batches).
    etrans; [apply (IH _ Hf' Hr')|].
    unfold rows_seen. rewrite bind_cons. simpl in Hb. cbn [fst snd].
    etrans.
    { apply submseteq_app; [reflexivity|].
      apply (update_rows pool count bf br); lia. }
    apply Permutation_submseteq.
    rewrite <- !app_assoc. apply Permutation_app_swap_app.
Qed.

End PoolRows.

Lemma zip_fmap_diag {A B C} (f : A → B) (g : A → C) (l : list A) :
  zip (f <$> l) (g <$> l) = (λ x, (f x, g x)) <$> l.
Proof. induction l as [|x l IH]; csimpl; [done|]. by rewrite IH. Qed.

Section ReturnedCount.
Context `{Jax} `{Pyvizier}.
Hypothesis argpartition_ok : argpartition_spec.
Variable self : VectorizedOptimizer.t.
Variable converter : ArrayConverter Trial.
Variable score_fn : matrix → list xnum.
Variable count : nat.
Variable prior_trials : option (list Trial).
Variable seed : option Z.
Hypothesis score_fn_shape : ∀ xs, length (score_fn xs) = length xs.

Abbreviation final_pool :=
  (run_best_results self converter score_fn count prior_trials seed).
Abbreviation batches_of_run :=
  (run_batches self converter score_fn count prior_trials seed).

(** The rows of the final pool in the order of the returned trials. *)
Definition returned_rows : list (row * xnum) :=
  gather (pool_rows final_pool) (argsort (xneg <$> rewards final_pool)).

Lemma run_batches_shape :
  Forall (λ batch, length batch.1 = length batch.2) batches_of_run.
Proof.
  unfold run_batches.
  generalize (run_init_args self converter score_fn count prior_trials seed).
  induction (run_trips self) as [|n IH]; intros args; simpl; [done|].
  constructor; [|apply IH]. simpl. by rewrite score_fn_shape.
Qed.

Lemma final_pool_lengths :
  length (rewards final_pool) = count ∧ length (features final_pool) = count.
Proof.
  rewrite run_best_results_fold.
  apply (fold_batches_lengths argpartition_ok).
Qed.

Lemma returned_rows_Permutation : returned_rows ≡ₚ pool_rows final_pool.
Proof.
  destruct final_pool_lengths as [Hr Hf].
  unfold returned_rows. apply gather_Permutation.
  rewrite argsort_Permutation, length_fmap.
  unfold pool_rows. rewrite length_zip. f_equiv. f_equal. lia.
Qed.

Lemma final_pool_rows :
  pool_rows final_pool
  ⊆+ rows_seen batches_of_run ++ replicate count (sentinel_row converter).
Proof.
  rewrite run_best_results_fold.
  etrans.
  { apply (fold_rows argpartition_ok count).
    - apply run_batches_shape.
    - unfold VectorizedOptimizer.init_best_results, zeros2; simpl.
      by rewrite length_replicate.
    - unfold VectorizedOptimizer.init_best_results; simpl.
      by rewrite length_replicate. }
  apply Permutation_submseteq. f_equiv.
  unfold pool_rows, VectorizedOptimizer.init_best_results, zeros2,
    sentinel_row; simpl.
  by rewrite zip_with_replicate.
Qed.

Lemma candidates_rows (created : nat → Z) :
  Forall2
    (λ (t : Trial) (r : row * xnum),
       parameters t = to_parameters converter r.1
       ∧ final_measurement t
         = Some {| metrics := [("acquisition", r.2)] |})
    ((λ j, candidate final_pool converter (created j) j)
       <$> seq 0 (length (rewards final_pool)))
    returned_rows.
Proof.
  destruct final_pool_lengths as [Hr Hf].
  unfold returned_rows, pool_rows.
  rewrite gather_zip.
  2: { lia. }
  2: { assert (Hfr : length (features final_pool)
                      = length (xneg <$> rewards final_pool))
         by (rewrite length_fmap; lia).
       rewrite Hfr. apply argsort_in_range. }
  unfold gather. rewrite zip_fmap_diag.
  rewrite <- (fmap_index_seq _ (argsort (xneg <$> rewards final_pool))).
  rewrite argsort_length, length_fmap.
  apply Forall2_fmap, Forall_Forall2_diag, Forall_forall.
  intros j _. simpl. done.
Qed.

(** C10.  For a non-zero batch size and a score function that returns one
    reward per row, [optimize] returns [count] trials, each completed with
    an [acquisition] measurement.  They are the rows of the final pool:
    at least [count] minus the number of rows evaluated in the loop of
    them are the initial rows, all-zero features with reward [-inf]; with
    no step at all, which is the case when
    [0 <= max_evaluations < suggestion_batch_size], every one is. *)
Theorem optimize_returns_count :
  ∀ (w : world),
    VectorizedOptimizer.suggestion_batch_size self ≠ 0%Z →
    ∃ trials w' rows,
      VectorizedOptimizer.optimize self converter score_fn count
        prior_trials seed w = (Ok trials, w')
      ∧ length trials = count
      ∧ Forall2
          (λ (t : Trial) (r : row * xnum),
             parameters t = to_parameters converter r.1
             ∧ final_measurement t
               = Some {| metrics := [("acquisition", r.2)] |})
          trials rows
      ∧ count - length (rows_seen batches_of_run)
        ≤ length (filter (λ r, r = sentinel_row converter) rows)
      ∧ (run_trips self = 0 →
         rows = replicate count (sentinel_row converter))
      ∧ ((0 ≤ VectorizedOptimizer.max_evaluations self
          < VectorizedOptimizer.suggestion_batch_size self)%Z →
         run_trips self = 0).
Proof.
  intros w Hbatch.
  destruct final_pool_lengths as [Hr Hf].
  eexists _, _, returned_rows.
  split; [by apply optimize_run|].
  split_and!.
  - by rewrite !length_fmap, length_seq.
  - apply (candidates_rows (λ j, clock w (ticks w + 2 + j))).
  - assert (Hlen : length returned_rows = count).
    { rewrite returned_rows_Permutation. unfold pool_rows.
      rewrite length_zip. lia. }
    apply (copies_kept _ count); [|done].
    rewrite returned_rows_Permutation. apply final_pool_rows.
  - intros Htrips.
    pose proof final_pool_rows as Hsub.
    assert (Hnone : batches_of_run = []).
    { apply nil_length_inv. by rewrite run_batches_length. }
    rewrite Hnone in Hsub. simpl in Hsub.
    rewrite <- returned_rows_Permutation in Hsub.
    symmetry. apply replicate_Permutation.
    symmetry. apply submseteq_length_Permutation; [done|].
    rewrite length_replicate, returned_rows_Permutation.
    unfold pool_rows. rewrite length_zip. lia.
  - intros Hsmall. unfold run_trips.
    rewrite Z.div_small by done. done.
Qed.

End ReturnedCount.

Section ReturnedCountDemo.
#[local] Existing Instance Demo.jax.
#[local] Existing Instance Demo.pyvizier.

Lemma demo_score_fn_shape (xs : matrix) :
  length (Demo.score_fn xs) = length xs.
Proof. unfold Demo.score_fn. by rewrite length_fmap. Qed.

(** A budget of 10 evaluations with batches of 25 makes no step: the three
    trials returned are the initial rows. *)
Lemma optimize_returns_count_witness :
  ∃ trials w',
    VectorizedOptimizer.optimize (Demo.optimizer 25 10) Demo.converter
      Demo.score_fn 3 None (Some 1%Z) Demo.world0 = (Ok trials, w')
    ∧ length trials = 3
    ∧ Forall2
        (λ (t : Trial) (r : row * xnum),
           parameters t = to_parameters Demo.converter r.1
           ∧ final_measurement t
             = Some {| metrics := [("acquisition", r.2)] |})
        trials
        (replicate 3 (sentinel_row Demo.converter)).
Proof.
  destruct (optimize_returns_count demo_argpartition_ok
              (Demo.optimizer 25 10) Demo.converter Demo.score_fn 3 None
              (Some 1%Z) demo_score_fn_shape Demo.world0)
    as (trials & w' & rows & Hrun & Hlen & Hrows & _ & Hzero & _).
  - discriminate.
  - exists trials, w'. split; [exact Hrun|]. split; [exact Hlen|].
    rewrite <- Hzero; [exact Hrows|reflexivity].
Defined.

End ReturnedCountDemo.

(** ** Determinism of a run *)

Section Determinism.
Context `{Jax} `{Pyvizier}.

(** What the caller is promised of a returned trial: its parameters and
    its measurement.  The time stamp of a trial is read off the clock. *)
Definition observable (t : Trial) : ParameterDict * option Measurement :=
  (parameters t, final_measurement t).

Definition observed (r : result (list Trial))
  : result (list (ParameterDict * option Measurement)) :=
  match r with
  | Ok trials => Ok (observable <$> trials)
  | Raise e => Raise e
  end.

(** C6.  Two calls of [optimize] with the same strategy factory, batch
    size, budget, converter, score function, count, prior trials and seed
    return the same trials, parameters and measurements alike, or raise
    the same exception, whatever the clock reads and whatever happened
    before each call; compiling the loop or not makes no difference. *)
Theorem optimize_deterministic :
  ∀ (strategy_factory : ArrayConverter Trial → Z → VectorizedStrategy)
    (suggestion_batch_size max_evaluations : Z) (jit_loop1 jit_loop2 : bool)
    (converter : ArrayConverter Trial) (score_fn : matrix → list xnum)
    (count : nat) (prior_trials : option (list Trial)) (seed : option Z)
    (w1 w2 : world),
    observed
      (VectorizedOptimizer.optimize
         (VectorizedOptimizer.mk strategy_factory suggestion_batch_size
            max_evaluations jit_loop1)
         converter score_fn count prior_trials seed w1).1
    = observed
        (VectorizedOptimizer.optimize
           (VectorizedOptimizer.mk strategy_factory suggestion_batch_size
              max_evaluations jit_loop2)
           converter score_fn count prior_trials seed w2).1.
Proof.
  intros factory batch budget jit1 jit2 converter score_fn count
    prior_trials seed w1 w2.
  destruct (decide (batch = 0%Z)) as [Hzero|Hne].
  - by rewrite !optimize_zero_batch.
  - rewrite !optimize_run by done. simpl.
    f_equal. rewrite <- !list_fmap_compose.
    apply list_fmap_ext. intros _ j _. reflexivity.
Qed.

End Determinism.

(** ** Distance to the trusted points *)

Lemma reduce_max_ge (a : list xnum) (x : xnum) :
  x ∈ a → xle x (reduce_max a).
Proof.
  unfold reduce_max. induction a as [|y a IH]; intros Hx; [by inv Hx|].
  simpl. apply elem_of_cons in Hx as [->|Hx].
  - apply xmax_ge_l.
  - trans (foldr xmax NInf a); [by apply IH|apply xmax_ge_r].
Qed.

Lemma reduce_max_le (a : list xnum) (z : xnum) :
  Forall (λ x, xle x z) a → xle (reduce_max a) z.
Proof.
  unfold reduce_max. induction 1 as [|y a Hy _ IH]; simpl; [done|].
  by apply xmax_lub.
Qed.

Lemma reduce_min_le (a : list xnum) (x : xnum) :
  x ∈ a → xle (reduce_min a) x.
Proof.
  unfold reduce_min. induction a as [|y a IH]; intros Hx; [by inv Hx|].
  simpl. apply elem_of_cons in Hx as [->|Hx].
  - apply xmin_le_l.
  - trans (foldr xmin PInf a); [apply xmin_le_r|by apply IH].
Qed.

Lemma reduce_min_ge (a : list xnum) (z : xnum) :
  Forall (λ x, xle z x) a → xle z (reduce_min a).
Proof.
  unfold reduce_min. induction 1 as [|y a Hy _ IH]; simpl.
  - by destruct z.
  - by apply xmin_glb.
Qed.

Lemma abs_diff_diag (a : Qc) : abs_diff a a = 0%Qc.
Proof.
  unfold abs_diff, Qcabs, Qcminus. rewrite Qcplus_opp_r.
  rewrite decide_True; [done|apply Qcle_refl].
Qed.

Lemma abs_diff_nonneg (a b : Qc) : (0 <= abs_diff a b)%Qc.
Proof.
  unfold abs_diff, Qcabs. destruct (decide (0 <= a - b)%Qc) as [|Hneg]; [done|].
  apply Qcnot_le_lt in Hneg. apply Qclt_le_weak in Hneg.
  apply Qcopp_le_compat in Hneg.
  by replace (- 0)%Qc with 0%Qc in Hneg by (by apply Qc_is_canon).
Qed.

(** The radius is never below [min_radius]. *)
Lemma radius_at_least_min (dof : nat) (trusted : matrix) :
  (qc 2 10 <= TrustRegion._compute_trust_radius dof trusted)%Qc.
Proof.
  trans (TrustRegion._compute_trust_radius dof []).
  - rewrite _compute_trust_radius_eq.
    change (Z.of_nat (length (@nil row))) with 0%Z.
    rewrite Z2Qc_inj_0. unfold Qcdiv.
    rewrite Qcmult_0_r, Qcmult_0_l, Qcplus_0_r. reflexivity.
  - apply radius_mono. simpl. lia.
Qed.

Lemma caps_nonneg (r : Qc) (specs : list NumpyArraySpec) :
  (0 <= r)%Qc →
  Forall (xle (Fin 0%Qc))
    (flat_map
       (λ spec,
          if decide (spec_type spec = ONEHOT_EMBEDDING)
          then replicate (num_dimensions spec) (Fin r)
          else [PInf])
       specs).
Proof.
  intros Hr. induction specs as [|spec specs IH]; simpl; [done|].
  apply Forall_app. split; [|done].
  destruct (decide (spec_type spec = ONEHOT_EMBEDDING)).
  - by apply Forall_replicate.
  - by repeat constructor.
Qed.

(** No cap that [TrustRegion.init] computes is negative. *)
Lemma init_max_distances_nonneg (trusted : matrix)
    (specs : list NumpyArraySpec) (fim oim : option (list bool)) :
  Forall (xle (Fin 0%Qc))
    (TrustRegion._max_distances (TrustRegion.init trusted specs fim oim)).
Proof.
  unfold TrustRegion.init; simpl.
  assert (Hr : (0 <= TrustRegion._compute_trust_radius (length specs)
                       trusted)%Qc).
  { trans (qc 2 10); [by vm_compute|apply radius_at_least_min]. }
  pose proof (caps_nonneg _ specs Hr) as Hspecs.
  destruct fim; [|done].
  apply Forall_app. split; [done|].
  apply Forall_replicate. simpl. apply Qcle_refl.
Qed.

Lemma reduce_max_nonneg (a : list xnum) :
  a ≠ [] → Forall (xle (Fin 0%Qc)) a → xle (Fin 0%Qc) (reduce_max a).
Proof.
  intros Hne Hall. destruct a as [|x a]; [done|].
  apply Forall_cons in Hall as [Hx _].
  trans x; [done|]. apply reduce_max_ge. left.
Qed.

Lemma reduce_max_zeros (a : list xnum) :
  a ≠ [] → Forall (λ x, x = Fin 0%Qc) a → reduce_max a = Fin 0%Qc.
Proof.
  intros Hne Hall. apply (anti_symm xle).
  - apply reduce_max_le. eapply Forall_impl; [done|].
    intros x ->. reflexivity.
  - apply reduce_max_nonneg; [done|].
    eapply Forall_impl; [done|]. intros x ->. reflexivity.
Qed.

Lemma capped_nonneg (d caps : list xnum) :
  Forall (xle (Fin 0%Qc)) d → Forall (xle (Fin 0%Qc)) caps →
  Forall (xle (Fin 0%Qc)) (zip_with xmin d caps).
Proof.
  intros Hd. revert caps. induction Hd as [|x d Hx _ IH]; intros caps Hcaps.
  - done.
  - destruct Hcaps as [|c caps Hc Hcaps]; simpl; [done|].
    constructor; [by apply xmin_glb|by apply IH].
Qed.

Lemma capped_zeros (d caps : list xnum) :
  Forall (λ x, x = Fin 0%Qc) d → Forall (xle (Fin 0%Qc)) caps →
  Forall (λ x, x = Fin 0%Qc) (zip_with xmin d caps).
Proof.
  intros Hd. revert caps. induction Hd as [|x d Hx _ IH]; intros caps Hcaps.
  - done.
  - destruct Hcaps as [|c caps Hc Hcaps]; simpl; [done|].
    constructor; [|by apply IH].
    subst x. unfold xmin. by rewrite decide_True.
Qed.

Lemma zip_with_Forall_r {A B} (P : B → Prop) (f : A → B → B)
    (l : list A) (k : list B) :
  (∀ a b, P b → P (f a b)) → Forall P k → Forall P (zip_with f l k).
Proof.
  intros Hf Hk. revert l. induction Hk as [|b k Hb _ IH]; intros [|a l];
    simpl; try done.
  constructor; [by apply Hf|apply IH].
Qed.

Section ZeroDistance.
Variable tr : TrustRegion.t.
Variable D : nat.
Hypothesis D_pos : 0 < D.
Hypothesis caps_shape : length (TrustRegion._max_distances tr) = D.
Hypothesis caps_nonneg' :
  Forall (xle (Fin 0%Qc)) (TrustRegion._max_distances tr).

(** The distances of a query row to the trusted rows, when all rows have
    [D] entries: each lane has [D] non-negative entries. *)
Lemma distances_of_row_shape (trusted : matrix) (x : row) :
  Forall (λ t : row, length t = D) trusted → length x = D →
  Forall (λ d, length d = D ∧ Forall (xle (Fin 0%Qc)) d)
    (TrustRegion.distances_of_row tr trusted x).
Proof.
  intros Htrusted Hx. unfold TrustRegion.distances_of_row.
  assert (Hraw :
    Forall (λ d, length d = D ∧ Forall (xle (Fin 0%Qc)) d)
      ((λ t : row, zip_with (λ a b, Fin (abs_diff a b)) t x) <$> trusted)).
  { apply Forall_fmap. eapply Forall_impl; [exact Htrusted|].
    intros t Ht. simpl in *. split.
    - rewrite length_zip_with. lia.
    - clear. revert x. induction t as [|a t IH]; intros [|b x]; simpl;
        try done.
      constructor; [apply abs_diff_nonneg|apply IH]. }
  destruct (TrustRegion._observations_is_missing tr) as [oim|]; [|done].
  apply zip_with_Forall_r; [|done].
  intros [] d [Hlen Hd]; [|done]. split.
  - by rewrite length_fmap.
  - apply Forall_fmap, Forall_forall. by intros.
Qed.

Lemma linf_of_row_nonneg (trusted : matrix) (x : row) :
  Forall (λ t : row, length t = D) trusted → length x = D →
  Forall (xle (Fin 0%Qc))
    (reduce_max
       <$> ((λ d, zip_with xmin d (TrustRegion._max_distances tr))
              <$> TrustRegion.distances_of_row tr trusted x)).
Proof.
  intros Htrusted Hx.
  rewrite <- list_fmap_compose. apply Forall_fmap.
  eapply Forall_impl; [by apply distances_of_row_shape|].
  intros d [Hlen Hd]. simpl. apply reduce_max_nonneg.
  - intros E. apply (f_equal length) in E.
    rewrite length_zip_with in E. simpl in E. lia.
  - by apply capped_nonneg.
Qed.

(** The lane of a trusted row equal to the query row, when its
    observation is not flagged missing, is all zeros. *)
Lemma distances_of_row_diag (trusted : matrix) (x : row) (n : nat) :
  trusted !! n = Some x →
  match TrustRegion._observations_is_missing tr with
  | Some oim => oim !! n = Some false
  | None => True
  end →
  ∃ d, TrustRegion.distances_of_row tr trusted x !! n = Some d
       ∧ length d = length x
       ∧ Forall (λ e, e = Fin 0%Qc) d.
Proof.
  intros Hn Hoim. unfold TrustRegion.distances_of_row.
  exists (zip_with (λ a b, Fin (abs_diff a b)) x x). split_and!.
  - destruct (TrustRegion._observations_is_missing tr) as [oim|].
    + apply lookup_zip_with_Some. eexists false, _.
      split_and!; [done|done|]. by rewrite list_lookup_fmap, Hn.
    + by rewrite list_lookup_fmap, Hn.
  - rewrite length_zip_with. lia.
  - clear. induction x as [|a x IH]; simpl; [done|].
    constructor; [by rewrite abs_diff_diag|done].
Qed.

Lemma linf_of_row_zero (trusted : matrix) (x : row) (n : nat) :
  Forall (λ t : row, length t = D) trusted → length x = D →
  trusted !! n = Some x →
  match TrustRegion._observations_is_missing tr with
  | Some oim => oim !! n = Some false
  | None => True
  end →
  TrustRegion.linf_of_row tr trusted x = Fin 0%Qc.
Proof.
  intros Htrusted Hx Hn Hoim. unfold TrustRegion.linf_of_row.
  apply (anti_symm xle).
  - apply reduce_min_le.
    destruct (distances_of_row_diag trusted x n Hn Hoim)
      as (d & Hd & Hlen & Hzero).
    apply list_elem_of_lookup. exists n.
    rewrite !list_lookup_fmap, Hd. simpl. f_equal.
    apply reduce_max_zeros.
    + intros E. apply (f_equal length) in E.
      rewrite length_zip_with in E. simpl in E. lia.
    + by apply capped_zeros.
  - apply reduce_min_ge. by apply linf_of_row_nonneg.
Qed.

End ZeroDistance.

Lemma mask_row_length (mask : list bool) (r : row) :
  length mask = length r → length (mask_row mask r) = length r.
Proof. intros E. unfold mask_row. rewrite length_zip_with. lia. Qed.

(** The distance of a query row that equals a trusted row whose
    observation is not flagged missing is exactly [0], for arrays whose
    rows all have the [D >= 1] entries that the caps have. *)
Lemma min_linf_distance_zero_at_trusted (tr : TrustRegion.t) (xs : matrix)
    (D m n : nat) (x : row) :
  0 < D →
  length (TrustRegion._max_distances tr) = D →
  Forall (xle (Fin 0%Qc)) (TrustRegion._max_distances tr) →
  Forall (λ t : row, length t = D) (TrustRegion._trusted tr) →
  Forall (λ t : row, length t = D) xs →
  match TrustRegion._feature_is_missing tr with
  | Some fim => length fim = D
  | None => True
  end →
  match TrustRegion._observations_is_missing tr with
  | Some oim => oim !! n = Some false
  | None => True
  end →
  xs !! m = Some x →
  TrustRegion._trusted tr !! n = Some x →
  ∃ distance,
    TrustRegion.min_linf_distance tr xs = Ok distance
    ∧ length distance = length xs
    ∧ distance !! m = Some (Fin 0%Qc).
Proof.
  intros HD Hcaps Hnonneg Htrusted Hxs Hfim Hoim Hm Hn.
  unfold TrustRegion.min_linf_distance.
  set (masked :=
    match TrustRegion._feature_is_missing tr with
    | Some fim =>
        (mask_row fim <$> TrustRegion._trusted tr, mask_row fim <$> xs)
    | None => (TrustRegion._trusted tr, xs)
    end).
  assert (Hmasked : ∃ x',
    Forall (λ t : row, length t = D) masked.1
    ∧ length x' = D
    ∧ masked.1 !! n = Some x'
    ∧ masked.2 !! m = Some x'
    ∧ length masked.2 = length xs).
  { unfold masked.
    destruct (TrustRegion._feature_is_missing tr) as [fim|]; simpl.
    - exists (mask_row fim x). split_and!.
      + apply Forall_fmap. eapply Forall_impl; [exact Htrusted|].
        intros t Ht. simpl in *. rewrite mask_row_length; lia.
      + rewrite Forall_forall in Hxs.
        rewrite mask_row_length; [|rewrite Hfim; symmetry];
          apply Hxs; by eapply list_elem_of_lookup_2.
      + by rewrite list_lookup_fmap, Hn.
      + by rewrite list_lookup_fmap, Hm.
      + by rewrite length_fmap.
    - exists x. split_and!; try done.
      rewrite Forall_forall in Hxs. apply Hxs.
      by eapply list_elem_of_lookup_2. }
  destruct masked as [trusted' xs'].
  destruct Hmasked as (x' & Hrows & Hx' & Hn' & Hm' & Hlen). simpl in *.
  rewrite decide_False.
  2: { intros E. rewrite E in Hcaps. simpl in Hcaps. lia. }
  rewrite decide_False.
  2: { intros E. by rewrite E in Hn'. }
  eexists. split; [reflexivity|]. split.
  - by rewrite length_fmap.
  - rewrite list_lookup_fmap, Hm'. simpl. f_equal.
    by apply (linf_of_row_zero tr D HD Hcaps Hnonneg trusted' x' n).
Qed.

(** A purely one-hot search space: one categorical parameter with two
    values, one trusted row, flagged as a missing observation. *)
Definition onehot_trust_region : TrustRegion.t :=
  TrustRegion.init [[1%Qc; 0%Qc]]
    [ {| spec_type := ONEHOT_EMBEDDING; num_dimensions := 2 |} ]
    None (Some [true]).

(** The same with one continuous parameter. *)
Definition continuous_trust_region : TrustRegion.t :=
  TrustRegion.init [[qc 1 2]]
    [ {| spec_type := CONTINUOUS; num_dimensions := 1 |} ]
    None (Some [true]).

(** C5, at the input where the code departs from it.  The only trusted
    row is flagged as a missing observation and every dimension is one-hot:
    the distances of the row are set to [+inf] and then capped at the
    trust radius, so the distance returned is the radius [0.23], not
    [+inf], and the query row counts as inside the trust region.  With a
    continuous dimension the distance is [+inf]. *)
Theorem min_linf_distance_missing_onehot :
  TrustRegion.min_linf_distance onehot_trust_region [[0%Qc; 1%Qc]]
  = Ok [Fin (qc 23 100)]
  ∧ TrustRegion.trust_radius onehot_trust_region = qc 23 100
  ∧ Fin (qc 23 100) ≠ PInf
  ∧ xle (Fin (qc 23 100))
      (Fin (TrustRegion.trust_radius onehot_trust_region))
  ∧ TrustRegion.min_linf_distance continuous_trust_region [[qc 1 2]]
    = Ok [PInf].
Proof.
  split_and!.
  - apply (bool_decide_unpack _). vm_compute. exact I.
  - apply (bool_decide_unpack _). vm_compute. exact I.
  - discriminate.
  - apply (bool_decide_unpack _). vm_compute. exact I.
  - apply (bool_decide_unpack _). vm_compute. exact I.
Qed.

(** * Further properties of the optimizer *)

Lemma StronglySorted_take {A} (R : relation A) (n : nat) (l : list A) :
  StronglySorted R l → StronglySorted R (take n l).
Proof.
  intros Hl. rewrite <- (take_drop n l) in Hl.
  by apply StronglySorted_app_1_l in Hl.
Qed.

Lemma top_count_sorted (count : nat) (l : list xnum) :
  StronglySorted xge (top_count count l).
Proof.
  apply StronglySorted_take, StronglySorted_merge_sort; apply _.
Qed.

(** The rewards of the batches of a run are the scores of their
    features. *)
Lemma steps_batches_scores `{Jax} (strategy : VectorizedStrategy)
    (score_fn : matrix → list xnum) (count : nat)
    (mask : option (list bool)) (n : nat)
    (args : strategy_state strategy * VectorizedStrategyResults * KeyArray) :
  Forall (λ batch : matrix * list xnum, batch.2 = score_fn batch.1)
    (steps_batches strategy score_fn count mask n args).
Proof.
  revert args. induction n as [|n IH]; intros args; simpl; [done|].
  constructor; [done|apply IH].
Qed.

Section BestReturned.
Context `{Jax} `{Pyvizier}.
Hypothesis argpartition_ok : argpartition_spec.
Variable self : VectorizedOptimizer.t.
Variable converter : ArrayConverter Trial.
Variable score_fn : matrix → list xnum.
Variable count : nat.
Variable prior_trials : option (list Trial).
Variable seed : option Z.

(** The batches of feature rows that the loop of a run evaluates. *)
Definition evaluated_batches : list matrix :=
  (run_batches self converter score_fn count prior_trials seed).*1.

Lemma rewards_seen_scores :
  rewards_seen (run_batches self converter score_fn count prior_trials seed)
  = concat (score_fn <$> evaluated_batches).
Proof.
  unfold rewards_seen, evaluated_batches, run_batches. f_equal.
  rewrite <- list_fmap_compose.
  apply Forall_fmap_ext_1. eapply Forall_impl; [apply steps_batches_scores|].
  by intros [bf br].
Qed.

Lemma fold_batches_top_count (batches : list (matrix * list xnum)) :
  rewards
    (fold_batches count
       (VectorizedOptimizer.init_best_results converter count) batches)
  ≡ₚ top_count count (rewards_seen batches ++ replicate count NInf).
Proof.
  destruct (fold_batches_lengths argpartition_ok converter count batches)
    as [Hl _].
  destruct count as [|c] eqn:Hc.
  - apply nil_length_inv in Hl. rewrite Hl. by unfold top_count.
  - destruct (fold_batches_invariant argpartition_ok (S c) batches
                (VectorizedOptimizer.init_best_results converter (S c))
                (replicate (S c) NInf) [])
      as (rest & Hperm & Hdom & Hlen); [lia|..].
    + unfold VectorizedOptimizer.init_best_results; simpl.
      by rewrite length_replicate.
    + by rewrite app_nil_r.
    + intros x y _ Hy. by inv Hy.
    + by apply (top_count_characterisation _ _ _ rest).
Qed.

(** X1.  For a non-zero batch size, the [acquisition] measurements of the
    trials that [optimize] returns are, in this order, the [count] largest
    of the rewards that the score function gave to the batches of the loop
    together with [count] times [-inf], largest first. *)
Theorem optimize_returns_largest_rewards :
  ∀ (w : world),
    VectorizedOptimizer.suggestion_batch_size self ≠ 0%Z →
    ∃ trials w',
      VectorizedOptimizer.optimize self converter score_fn count
        prior_trials seed w = (Ok trials, w')
      ∧ metric_value "acquisition" <$> trials
        = Some
            <$> top_count count
                  (concat (score_fn <$> evaluated_batches)
                     ++ replicate count NInf).
Proof.
  intros w Hbatch. eexists _, _.
  split; [by apply optimize_run|].
  rewrite (candidates_metric self converter score_fn count prior_trials seed
             (λ j, clock w (ticks w + 2 + j))).
  f_equal. rewrite <- rewards_seen_scores.
  apply (StronglySorted_unique xge).
  - apply returned_rewards_sorted.
  - apply top_count_sorted.
  - rewrite <- fold_batches_top_count, <- run_best_results_fold.
    unfold returned_rewards. apply gather_Permutation.
    by rewrite argsort_Permutation, length_fmap.
Qed.

End BestReturned.

Section ReturnedProvenance.
Context `{Jax} `{Pyvizier}.
Hypothesis argpartition_ok : argpartition_spec.
Variable self : VectorizedOptimizer.t.
Variable converter : ArrayConverter Trial.
Variable score_fn : matrix → list xnum.
Variable count : nat.
Variable prior_trials : option (list Trial).
Variable seed : option Z.
Hypothesis score_fn_shape : ∀ xs, length (score_fn xs) = length xs.

Lemma rows_seen_provenance (x : row) (r : xnum) :
  (x, r) ∈ rows_seen
             (run_batches self converter score_fn count prior_trials seed) →
  ∃ batch i,
    batch ∈ evaluated_batches self converter score_fn count prior_trials seed
    ∧ batch !! i = Some x ∧ score_fn batch !! i = Some r.
Proof.
  unfold rows_seen. intros Hin.
  apply list_elem_of_bind in Hin as ([bf br] & Hzip & Hbatch).
  pose proof (steps_batches_scores
                (run_strategy self converter) score_fn count
                (run_mask converter) (run_trips self)
                (run_init_args self converter score_fn count prior_trials
                   seed)) as Hscores.
  rewrite Forall_forall in Hscores.
  pose proof (Hscores _ Hbatch) as Hbr. simpl in Hbr, Hzip. subst br.
  apply list_elem_of_lookup in Hzip as [i Hi].
  apply lookup_zip_with_Some in Hi as (x' & r' & [= <- <-] & Hx & Hr).
  exists bf, i. split; [|done].
  unfold evaluated_batches. apply list_elem_of_fmap.
  by exists (bf, score_fn bf).
Qed.

(** Where the rows of the returned trials come from. *)
Definition provenance (t : Trial) : Prop :=
  ∃ (x : row) (r : xnum),
    parameters t = to_parameters converter x
    ∧ final_measurement t = Some {| metrics := [("acquisition", r)] |}
    ∧ ((x, r) = sentinel_row converter
       ∨ ∃ batch i,
           batch ∈ evaluated_batches self converter score_fn count
                     prior_trials seed
           ∧ batch !! i = Some x
           ∧ score_fn batch !! i = Some r).

Lemma candidates_provenance (created : nat → Z) :
  Forall provenance
    ((λ j, candidate
             (run_best_results self converter score_fn count prior_trials
                seed)
             converter (created j) j)
       <$> seq 0
             (length
                (rewards
                   (run_best_results self converter score_fn count
                      prior_trials seed)))).
Proof.
  pose proof (candidates_rows argpartition_ok self converter score_fn count
                prior_trials seed created) as Hrows.
  pose proof (returned_rows_Permutation argpartition_ok self converter
                score_fn count prior_trials seed) as Hperm.
  pose proof (final_pool_rows argpartition_ok self converter score_fn count
                prior_trials seed score_fn_shape) as Hsub.
  apply Forall_lookup. intros j t Ht.
  destruct (Forall2_lookup_l _ _ _ _ _ Hrows Ht)
    as ([x r] & Hrow & Hpar & Hmeas).
  exists x, r. split; [done|]. split; [done|].
  apply list_elem_of_lookup_2 in Hrow.
  rewrite Hperm in Hrow.
  apply (elem_of_submseteq _ _ _ Hrow) in Hsub.
  apply elem_of_app in Hsub as [Hseen|Hinit].
  - right. by apply rows_seen_provenance.
  - left. by apply elem_of_replicate_inv in Hinit.
Qed.

(** X2.  Every trial that [optimize] returns carries the parameters of one
    feature row and, as its [acquisition] measurement, the reward of that
    same row: the row is either the initial one (zero features, [-inf]) or
    a row of a batch that the loop evaluated, with the reward the score
    function gave to it in that batch. *)
Theorem optimize_returns_evaluated_rows :
  ∀ (w : world),
    VectorizedOptimizer.suggestion_batch_size self ≠ 0%Z →
    ∃ trials w',
      VectorizedOptimizer.optimize self converter score_fn count
        prior_trials seed w = (Ok trials, w')
      ∧ Forall
          (λ t : Trial,
             ∃ (x : row) (r : xnum),
               parameters t = to_parameters converter x
               ∧ final_measurement t
                 = Some {| metrics := [("acquisition", r)] |}
               ∧ ((x, r) = sentinel_row converter
                  ∨ ∃ batch i,
                      batch ∈ evaluated_batches self converter score_fn
                                count prior_trials seed
                      ∧ batch !! i = Some x
                      ∧ score_fn batch !! i = Some r))
          trials.
Proof.
  intros w Hbatch. eexists _, _.
  split; [by apply optimize_run|].
  apply (candidates_provenance (λ j, clock w (ticks w + 2 + j))).
Qed.

End ReturnedProvenance.

(** ** Runs without a loop *)

Lemma index_replicate {A} `{Inhabited A} (n i : nat) (x : A) :
  0 < n → index (replicate n x) i = x.
Proof.
  intros Hn. unfold index. rewrite length_replicate.
  apply list_lookup_total_correct, lookup_replicate_2. lia.
Qed.

Section NoStep.
Context `{Jax} `{Pyvizier}.
Variable self : VectorizedOptimizer.t.
Variable converter : ArrayConverter Trial.
Variable score_fn : matrix → list xnum.
Variable count : nat.
Variable prior_trials : option (list Trial).
Variable seed : option Z.

(** X3.  With [suggestion_batch_size = 0] the division of the loop bound
    raises [ZeroDivisionError].  By then [optimize] has scored the prior
    trials, if there are any, and has called [init_state]; it has asked
    for no suggestion and has written no log line. *)
Theorem optimize_zero_batch_size :
  ∀ (w : world),
    VectorizedOptimizer.suggestion_batch_size self = 0%Z →
    ∃ w',
      VectorizedOptimizer.optimize self converter score_fn count
        prior_trials seed w = (Raise ZeroDivisionError, w')
      ∧ trace w'
        = trace w
            ++ prior_events (prior_features_of converter prior_trials)
            ++ [InitState].
Proof.
  intros w Hbatch. eexists. split; [by apply optimize_zero_batch|].
  simpl. done.
Qed.

(** X4.  When [max_evaluations // suggestion_batch_size] is zero or
    negative (a budget below the batch size, a negative budget, a negative
    batch size) the loop makes no step: the strategy is never asked for a
    suggestion, nothing but the prior trials is scored, and the [count]
    trials returned all have the parameters of the all-zero feature row and
    the measurement [-inf].  The log line still reports
    [(max_evaluations // suggestion_batch_size) * suggestion_batch_size]
    evaluations, which is negative for a negative budget and a positive
    batch size. *)
Theorem optimize_without_steps :
  ∀ (w : world),
    let batch := VectorizedOptimizer.suggestion_batch_size self in
    let budget := VectorizedOptimizer.max_evaluations self in
    batch ≠ 0%Z → (budget `div` batch ≤ 0)%Z →
    ∃ trials w' duration,
      VectorizedOptimizer.optimize self converter score_fn count
        prior_trials seed w = (Ok trials, w')
      ∧ trace w'
        = trace w
            ++ prior_events (prior_features_of converter prior_trials)
            ++ [InitState;
                LogInfo duration (budget `div` batch * batch)
                  (VectorizedOptimizer.init_best_results converter count)]
      ∧ length trials = count
      ∧ Forall
          (λ t : Trial,
             parameters t
             = to_parameters converter (zeros (to_features_ncols converter))
             ∧ final_measurement t
               = Some {| metrics := [("acquisition", NInf)] |})
          trials
      ∧ ((0 < batch)%Z → (budget < 0)%Z →
         (budget `div` batch * batch < 0)%Z).
Proof.
  intros w batch budget Hbatch Hquot.
  assert (Htrips : run_trips self = 0).
  { unfold run_trips. fold batch budget. lia. }
  assert (Hbest :
    run_best_results self converter score_fn count prior_trials seed
    = VectorizedOptimizer.init_best_results converter count).
  { unfold run_best_results. by rewrite Htrips. }
  assert (Hnone :
    run_batches self converter score_fn count prior_trials seed = []).
  { unfold run_batches. by rewrite Htrips. }
  eexists _, _, _. split; [by apply optimize_run|].
  rewrite Hbest. split_and!.
  - simpl. unfold run_events. rewrite Hnone, Hbest. done.
  - by rewrite length_fmap, length_seq; simpl; rewrite length_replicate.
  - apply Forall_fmap, Forall_forall. intros j Hj.
    apply elem_of_seq in Hj. simpl in Hj. rewrite length_replicate in Hj.
    unfold candidate, VectorizedOptimizer.init_best_results, zeros2; simpl.
    rewrite !index_replicate by lia. done.
  - intros Hpos Hneg.
    assert (budget `div` batch < 0)%Z by (apply Z.div_lt_upper_bound; lia).
    nia.
Qed.

End NoStep.

(** ** The order of the prior trials *)

Section Sorted.
Context {A : Type} (key : A → Z).

Definition by_key (a b : A) : Prop := (key a ≤ key b)%Z.

#[local] Instance by_key_trans : Transitive by_key.
Proof. unfold by_key. intros a b c. lia. Qed.

Lemma insert_by_Permutation (a : A) (l : list A) :
  insert_by key a l ≡ₚ a :: l.
Proof.
  induction l as [|b l IH]; simpl; [done|].
  destruct (decide (key b ≤ key a)%Z); [|done].
  rewrite IH. apply Permutation_swap.
Qed.

Lemma insert_by_Sorted (a : A) (l : list A) :
  Sorted by_key l → Sorted by_key (insert_by key a l).
Proof.
  induction 1 as [|b l Hl IH Hb]; simpl.
  - repeat constructor.
  - destruct (decide (key b ≤ key a)%Z) as [Hba|Hba].
    + constructor; [done|].
      destruct l as [|c l]; simpl in *.
      * by repeat constructor.
      * destruct (decide (key c ≤ key a)%Z); constructor;
          [by inv Hb|done].
    + constructor; [by constructor|]. constructor. unfold by_key. lia.
Qed.

Lemma sorted_foldl (acc l : list A) :
  foldl (λ acc a, insert_by key a acc) acc l ≡ₚ acc ++ l
  ∧ (Sorted by_key acc →
     Sorted by_key (foldl (λ acc a, insert_by key a acc) acc l)).
Proof.
  revert acc. induction l as [|a l IH]; intros acc; simpl.
  - by rewrite app_nil_r.
  - destruct (IH (insert_by key a acc)) as [IHp IHs]. split.
    + rewrite IHp, insert_by_Permutation.
      by rewrite <- Permutation_middle.
    + intros Hacc. by apply IHs, insert_by_Sorted.
Qed.

Lemma sorted_Permutation (l : list A) : sorted l key ≡ₚ l.
Proof. apply (sorted_foldl [] l). Qed.

Lemma sorted_Sorted (l : list A) : StronglySorted by_key (sorted l key).
Proof.
  apply Sorted_StronglySorted; [apply _|].
  apply (sorted_foldl [] l). constructor.
Qed.

Lemma NoDup_fmap_eq (l : list A) (x y : A) :
  NoDup (key <$> l) → x ∈ l → y ∈ l → key x = key y → x = y.
Proof.
  induction l as [|a l IH]; csimpl; intros Hnd Hx Hy Hk.
  - by apply elem_of_nil in Hx.
  - apply NoDup_cons in Hnd as [Ha Hnd].
    apply elem_of_cons in Hx as [->|Hx];
      apply elem_of_cons in Hy as [->|Hy]; auto.
    + exfalso. apply Ha. rewrite Hk. by apply list_elem_of_fmap_2.
    + exfalso. apply Ha. rewrite <- Hk. by apply list_elem_of_fmap_2.
Qed.

(** Sorting by a key that no two elements share forgets the order of the
    input. *)
Lemma sorted_unique (l l' : list A) :
  l ≡ₚ l' → NoDup (key <$> l) → sorted l key = sorted l' key.
Proof.
  intros Hperm Hnd.
  apply (StronglySorted_unique_strong by_key).
  - intros x y Hx Hy Hxy Hyx.
    apply (NoDup_fmap_eq l); [done|..].
    + by rewrite <- (sorted_Permutation l).
    + by rewrite Hperm, <- (sorted_Permutation l').
    + unfold by_key in *. lia.
  - apply sorted_Sorted.
  - apply sorted_Sorted.
  - by rewrite !sorted_Permutation.
Qed.

End Sorted.

(** X5.  [optimize] sorts the prior trials by creation time, so when no two
    of them were created at the same time the order in which they are
    passed does not matter: the run returns the same trials and leaves the
    same trace. *)
Theorem optimize_prior_order_irrelevant `{Jax} `{Pyvizier} :
  ∀ (self : VectorizedOptimizer.t) (converter : ArrayConverter Trial)
    (score_fn : matrix → list xnum) (count : nat)
    (prior_trials prior_trials' : list Trial) (seed : option Z) (w : world),
    prior_trials ≡ₚ prior_trials' →
    NoDup (creation_time <$> prior_trials) →
    VectorizedOptimizer.optimize self converter score_fn count
      (Some prior_trials) seed w
    = VectorizedOptimizer.optimize self converter score_fn count
        (Some prior_trials') seed w.
Proof.
  intros self converter score_fn count l l' seed w Hperm Hnd.
  assert (Hprior :
    VectorizedOptimizer.prior_arrays converter score_fn (Some l)
    = VectorizedOptimizer.prior_arrays converter score_fn (Some l')).
  { unfold VectorizedOptimizer.prior_arrays.
    destruct l as [|t l], l' as [|t' l'].
    - done.
    - by apply Permutation_nil_cons in Hperm.
    - symmetry in Hperm. by apply Permutation_nil_cons in Hperm.
    - by rewrite (sorted_unique creation_time (t :: l) (t' :: l')). }
  unfold VectorizedOptimizer.optimize. by rewrite Hprior.
Qed.

(** ** Padded converters *)

Section Padded.
Context `{Jax} `{Pyvizier}.
Hypothesis argpartition_ok : argpartition_spec.
Variable self : VectorizedOptimizer.t.
Variable converter : ArrayConverter Trial.
Variable score_fn : matrix → list xnum.
Variable count : nat.
Variable prior_trials : option (list Trial).
Variable seed : option Z.

(** The number of feature dimensions that the output specs describe. *)
Definition n_features : nat :=
  sum_list (num_dimensions <$> output_specs converter).

(** A row of the padded width whose padded dimensions are all zero. *)
Definition padding_zero (x : row) : Prop :=
  length x = to_features_ncols converter
  ∧ ∀ i, n_features ≤ i < to_features_ncols converter →
         x !! i = Some 0%Qc.

Lemma mask_row_padding (x : row) :
  n_features ≤ to_features_ncols converter →
  length x = to_features_ncols converter →
  padding_zero
    (mask_row
       (replicate n_features false
          ++ replicate (to_features_ncols converter - n_features) true)
       x).
Proof.
  intros Hfit Hx. unfold padding_zero, mask_row. split.
  - rewrite length_zip_with, length_app, !length_replicate. lia.
  - intros i Hi.
    destruct (lookup_lt_is_Some_2 x i) as [v Hv]; [lia|].
    apply lookup_zip_with_Some. exists true, v. split; [done|].
    split; [|done].
    rewrite lookup_app_r by (rewrite length_replicate; lia).
    rewrite length_replicate. apply lookup_replicate_2. lia.
Qed.

Lemma zeros_padding : padding_zero (zeros (to_features_ncols converter)).
Proof.
  unfold padding_zero, zeros. split; [by rewrite length_replicate|].
  intros i Hi. apply lookup_replicate_2. lia.
Qed.

Hypothesis score_fn_shape : ∀ xs, length (score_fn xs) = length xs.
Hypothesis padded : is_padded converter = true.
Hypothesis specs_fit : n_features ≤ to_features_ncols converter.
Hypothesis suggest_shape :
  ∀ state key,
    Forall (λ r : row, length r = to_features_ncols converter)
      (suggest (run_strategy self converter) state key).

Lemma evaluated_batches_padding :
  Forall (Forall padding_zero)
    (evaluated_batches self converter score_fn count prior_trials seed).
Proof.
  unfold evaluated_batches, run_batches, run_mask,
    VectorizedOptimizer.dimension_is_missing.
  rewrite padded. fold n_features.
  generalize (run_init_args self converter score_fn count prior_trials seed).
  induction (run_trips self) as [|n IH]; intros args; csimpl; [done|].
  constructor; [|apply IH].
  unfold step_features. destruct args as [[state best] key].
  destruct (random_split3 key) as [[suggest_seed update_seed] new_seed].
  apply Forall_fmap. eapply Forall_impl; [apply suggest_shape|].
  intros r Hr. simpl. by apply mask_row_padding.
Qed.

(** X6.  With a padded converter whose specs fit in the padded width, and
    a strategy that suggests rows of the padded width, every row that the
    loop passes to the score function has the value zero in each padded
    dimension, whatever the strategy suggested there; and so has the row
    behind the parameters of every returned trial. *)
Theorem optimize_masks_padded_dimensions :
  ∀ (w : world),
    VectorizedOptimizer.suggestion_batch_size self ≠ 0%Z →
    ∃ trials w',
      VectorizedOptimizer.optimize self converter score_fn count
        prior_trials seed w = (Ok trials, w')
      ∧ Forall (Forall padding_zero)
          (evaluated_batches self converter score_fn count prior_trials
             seed)
      ∧ Forall
          (λ t : Trial,
             ∃ x : row,
               parameters t = to_parameters converter x ∧ padding_zero x)
          trials.
Proof.
  intros w Hbatch. eexists _, _.
  split; [by apply optimize_run|].
  split; [apply evaluated_batches_padding|].
  eapply Forall_impl.
  { apply (candidates_provenance argpartition_ok self converter score_fn
             count prior_trials seed score_fn_shape
             (λ j, clock w (ticks w + 2 + j))). }
  intros t (x & r & Hpar & _ & [Hinit|(batch & i & Hbatch' & Hx & _)]).
  - exists x. split; [done|].
    injection Hinit as -> _. apply zeros_padding.
  - exists x. split; [done|].
    pose proof evaluated_batches_padding as Hall.
    rewrite Forall_forall in Hall. specialize (Hall _ Hbatch').
    rewrite Forall_lookup in Hall. by apply (Hall i).
Qed.

End Padded.

(** ** The further properties on the concrete instance *)

Section OptimizerDemo.
#[local] Existing Instance Demo.jax.
#[local] Existing Instance Demo.pyvizier.

(** Two steps of two rows each, three trials asked for. *)
Lemma optimize_returns_largest_rewards_witness :
  ∃ trials w',
    VectorizedOptimizer.optimize (Demo.optimizer 2 4) Demo.converter
      Demo.score_fn 3 None (Some 1%Z) Demo.world0 = (Ok trials, w')
    ∧ metric_value "acquisition" <$> trials
      = Some
          <$> top_count 3
                (concat
                   (Demo.score_fn
                      <$> evaluated_batches (Demo.optimizer 2 4)
                            Demo.converter Demo.score_fn 3 None
                            (Some 1%Z))
                   ++ replicate 3 NInf).
Proof.
  apply (optimize_returns_largest_rewards demo_argpartition_ok
           (Demo.optimizer 2 4) Demo.converter Demo.score_fn 3 None
           (Some 1%Z) Demo.world0).
  discriminate.
Defined.

Lemma optimize_returns_evaluated_rows_witness :
  ∃ trials w',
    VectorizedOptimizer.optimize (Demo.optimizer 2 4) Demo.converter
      Demo.score_fn 3 None (Some 1%Z) Demo.world0 = (Ok trials, w')
    ∧ Forall
        (λ t : Trial,
           ∃ (x : row) (r : xnum),
             parameters t = to_parameters Demo.converter x
             ∧ final_measurement t
               = Some {| metrics := [("acquisition", r)] |}
             ∧ ((x, r) = sentinel_row Demo.converter
                ∨ ∃ batch i,
                    batch ∈ evaluated_batches (Demo.optimizer 2 4)
                              Demo.converter Demo.score_fn 3 None
                              (Some 1%Z)
                    ∧ batch !! i = Some x
                    ∧ Demo.score_fn batch !! i = Some r))
        trials.
Proof.
  apply (optimize_returns_evaluated_rows demo_argpartition_ok
           (Demo.optimizer 2 4) Demo.converter Demo.score_fn 3 None
           (Some 1%Z) demo_score_fn_shape Demo.world0).
  discriminate.
Defined.

Lemma optimize_zero_batch_size_witness :
  ∃ w',
    VectorizedOptimizer.optimize (Demo.optimizer 0 10) Demo.converter
      Demo.score_fn 3 None (Some 1%Z) Demo.world0
    = (Raise ZeroDivisionError, w')
    ∧ trace w' = [InitState].
Proof.
  apply (optimize_zero_batch_size (Demo.optimizer 0 10) Demo.converter
           Demo.score_fn 3 None (Some 1%Z) Demo.world0).
  reflexivity.
Defined.

(** A budget of [-1] with batches of 25: no step, and a log line that
    reports [-25] evaluations. *)
Lemma optimize_without_steps_witness :
  ∃ trials w' duration,
    VectorizedOptimizer.optimize (Demo.optimizer 25 (-1)) Demo.converter
      Demo.score_fn 3 None (Some 1%Z) Demo.world0 = (Ok trials, w')
    ∧ trace w'
      = [InitState;
         LogInfo duration (-25)
           (VectorizedOptimizer.init_best_results Demo.converter 3)]
    ∧ length trials = 3.
Proof.
  destruct (optimize_without_steps (Demo.optimizer 25 (-1)) Demo.converter
              Demo.score_fn 3 None (Some 1%Z) Demo.world0)
    as (trials & w' & duration & Hrun & Htrace & Hlen & _).
  - discriminate.
  - discriminate.
  - exists trials, w', duration.
    split; [exact Hrun|]. split; [exact Htrace|exact Hlen].
Defined.

(** Two prior trials, created at times 1 and 2, passed in either order. *)
Definition demo_prior (created : Z) (x : Qc) : Trial :=
  {| parameters := Demo.row_parameters [x];
     creation_time := created;
     final_measurement := None |}.

Lemma optimize_prior_order_irrelevant_witness :
  VectorizedOptimizer.optimize (Demo.optimizer 2 4) Demo.converter
    Demo.score_fn 3
    (Some [demo_prior 2 (qc 1 2); demo_prior 1 (qc 1 3)]) (Some 1%Z)
    Demo.world0
  = VectorizedOptimizer.optimize (Demo.optimizer 2 4) Demo.converter
      Demo.score_fn 3
      (Some [demo_prior 1 (qc 1 3); demo_prior 2 (qc 1 2)]) (Some 1%Z)
      Demo.world0.
Proof.
  apply optimize_prior_order_irrelevant.
  - apply Permutation_swap.
  - apply (bool_decide_unpack _). vm_compute. exact I.
Defined.

(** A padded converter: one described dimension in rows of width two, and
    a strategy that writes 7 into the padded dimension. *)
Definition demo_padded_converter : ArrayConverter Trial :=
  {| is_padded := true;
     output_specs := [Demo.continuous_spec];
     to_features := λ trials, (λ r, r ++ [0%Qc]) <$> Demo.parameter_rows trials;
     to_features_ncols := 2;
     to_parameters := λ r, Demo.row_parameters (take 1 r) |}.

Definition demo_wide_strategy (batch : Z) : VectorizedStrategy :=
  {| strategy_state := nat;
     init_state := λ _ _ _, 0;
     suggest := λ (k : nat) _,
       (λ j, [(Qc_of_Z (Z.of_nat k) + qc 1 (Pos.of_nat (j + 2)))%Qc;
              qc 7 1])
         <$> seq 0 (Z.to_nat batch);
     update := λ k _ _ _, S k |}.

Definition demo_wide_optimizer (batch max_evals : Z)
  : VectorizedOptimizer.t :=
  {| VectorizedOptimizer.strategy_factory := λ _ batch,
       demo_wide_strategy batch;
     VectorizedOptimizer.suggestion_batch_size := batch;
     VectorizedOptimizer.max_evaluations := max_evals;
     VectorizedOptimizer.jit_loop := true |}.

Lemma optimize_masks_padded_dimensions_witness :
  ∃ trials w',
    VectorizedOptimizer.optimize (demo_wide_optimizer 2 4)
      demo_padded_converter Demo.score_fn 3 None (Some 1%Z) Demo.world0
    = (Ok trials, w')
    ∧ Forall (Forall (padding_zero demo_padded_converter))
        (evaluated_batches (demo_wide_optimizer 2 4) demo_padded_converter
           Demo.score_fn 3 None (Some 1%Z))
    ∧ Forall
        (λ t : Trial,
           ∃ x : row,
             parameters t = to_parameters demo_padded_converter x
             ∧ padding_zero demo_padded_converter x)
        trials.
Proof.
  apply (optimize_masks_padded_dimensions demo_argpartition_ok
           (demo_wide_optimizer 2 4) demo_padded_converter Demo.score_fn 3
           None (Some 1%Z) demo_score_fn_shape).
  - reflexivity.
  - vm_compute. lia.
  - intros state key. simpl. repeat constructor.
  - discriminate.
Defined.

End OptimizerDemo.

(** * Further properties of the trust regions *)

(** A 2-D array with the dimensions flagged in [feature_is_missing] set to
    zero. *)
Definition masked (feature_is_missing : option (list bool)) (a : matrix)
  : matrix :=
  match feature_is_missing with
  | Some fim => mask_row fim <$> a
  | None => a
  end.

Lemma masked_length (fim : option (list bool)) (a : matrix) :
  length (masked fim a) = length a.
Proof. destruct fim; simpl; [by rewrite length_fmap|done]. Qed.

Lemma masked_lookup (fim : option (list bool)) (a : matrix) (i : nat) :
  masked fim a !! i = (λ r, default r (flip mask_row r <$> fim)) <$> a !! i.
Proof.
  destruct fim; simpl.
  - by rewrite list_lookup_fmap.
  - by destruct (a !! i).
Qed.

Lemma masked_shape (fim : option (list bool)) (a : matrix) (D : nat) :
  match fim with Some fim => length fim = D | None => True end →
  Forall (λ r : row, length r = D) a →
  Forall (λ r : row, length r = D) (masked fim a).
Proof.
  intros Hfim Ha. destruct fim as [fim|]; simpl; [|done].
  apply Forall_fmap. eapply Forall_impl; [exact Ha|].
  intros r Hr. simpl in *. rewrite mask_row_length; lia.
Qed.

(** [min_linf_distance] when neither reduction is over an empty axis. *)
Lemma min_linf_distance_run (tr : TrustRegion.t) (xs : matrix) :
  TrustRegion._max_distances tr ≠ [] →
  TrustRegion._trusted tr ≠ [] →
  TrustRegion.min_linf_distance tr xs
  = Ok (TrustRegion.linf_of_row tr
          (masked (TrustRegion._feature_is_missing tr)
             (TrustRegion._trusted tr))
          <$> masked (TrustRegion._feature_is_missing tr) xs).
Proof.
  intros Hcaps Htrusted. unfold TrustRegion.min_linf_distance, masked.
  destruct (TrustRegion._feature_is_missing tr) as [fim|].
  - rewrite decide_False by done. rewrite decide_False; [done|].
    intros E. by apply fmap_nil_inv in E.
  - rewrite decide_False by done. by rewrite decide_False.
Qed.

Lemma distances_of_row_length (tr : TrustRegion.t) (trusted : matrix)
    (x : row) :
  match TrustRegion._observations_is_missing tr with
  | Some oim => length oim = length trusted
  | None => True
  end →
  length (TrustRegion.distances_of_row tr trusted x) = length trusted.
Proof.
  intros Hoim. unfold TrustRegion.distances_of_row.
  destruct (TrustRegion._observations_is_missing tr) as [oim|].
  - rewrite length_zip_with, length_fmap. lia.
  - by rewrite length_fmap.
Qed.

Section Distances.
Variable trusted : matrix.
Variable specs : list NumpyArraySpec.
Variable feature_is_missing observations_is_missing : option (list bool).
Variable D : nat.

Abbreviation region :=
  (TrustRegion.init trusted specs feature_is_missing
     observations_is_missing).

Hypothesis D_pos : 0 < D.
Hypothesis caps_shape : length (TrustRegion._max_distances region) = D.
Hypothesis trusted_shape : Forall (λ t : row, length t = D) trusted.
Hypothesis mask_shape :
  match feature_is_missing with
  | Some fim => length fim = D
  | None => True
  end.

Lemma region_caps_nonempty : TrustRegion._max_distances region ≠ [].
Proof.
  intros E. rewrite E in caps_shape. simpl in caps_shape. lia.
Qed.

(** X7.  A query row that agrees with a trusted row on every feature
    dimension that is not flagged missing, where the observation of that
    trusted row is not flagged missing either, has distance exactly [0]:
    the values in padded dimensions play no part. *)
Theorem min_linf_distance_zero_at_trusted_point :
  ∀ (xs : matrix) (m n : nat) (x t : row),
    Forall (λ r : row, length r = D) xs →
    xs !! m = Some x →
    trusted !! n = Some t →
    masked feature_is_missing [x] = masked feature_is_missing [t] →
    match observations_is_missing with
    | Some oim => oim !! n = Some false
    | None => True
    end →
    ∃ distance,
      TrustRegion.min_linf_distance region xs = Ok distance
      ∧ length distance = length xs
      ∧ distance !! m = Some (Fin 0%Qc).
Proof.
  intros xs m n x t Hxs Hm Hn Hagree Hoim.
  rewrite min_linf_distance_run; cycle 1.
  { apply region_caps_nonempty. }
  { simpl. intros E. by rewrite E in Hn. }
  eexists. split; [reflexivity|]. split.
  { by rewrite length_fmap, masked_length. }
  cbn [TrustRegion.init TrustRegion._trusted TrustRegion._feature_is_missing].
  set (x' := default x (flip mask_row x <$> feature_is_missing)).
  assert (Hx' : masked feature_is_missing xs !! m = Some x').
  { by rewrite masked_lookup, Hm. }
  assert (Ht' : masked feature_is_missing trusted !! n = Some x').
  { rewrite masked_lookup, Hn. simpl. f_equal. unfold x'.
    unfold masked in Hagree.
    destruct feature_is_missing; simpl in *; [|by inv Hagree].
    by injection Hagree. }
  rewrite list_lookup_fmap, Hx'. simpl. f_equal.
  apply (linf_of_row_zero region D D_pos caps_shape
           (init_max_distances_nonneg _ _ _ _) _ x' n).
  - by apply masked_shape.
  - pose proof (masked_shape feature_is_missing xs D mask_shape Hxs) as Hall.
    rewrite Forall_forall in Hall. apply Hall.
    by eapply list_elem_of_lookup_2.
  - done.
  - done.
Qed.

Hypothesis trusted_nonempty : trusted ≠ [].
Hypothesis observations_shape :
  match observations_is_missing with
  | Some oim => length oim = length trusted
  | None => True
  end.

Lemma region_caps_le_radius :
  Forall (λ s, spec_type s = ONEHOT_EMBEDDING) specs →
  Forall (λ c, xle c (Fin (TrustRegion.trust_radius region)))
    (TrustRegion._max_distances region).
Proof.
  intros Honehot. unfold TrustRegion.init, TrustRegion.trust_radius; simpl.
  set (r := TrustRegion._compute_trust_radius (length specs) trusted).
  assert (Hr : (0 <= r)%Qc).
  { trans (qc 2 10); [by vm_compute|apply radius_at_least_min]. }
  assert (Hspecs :
    Forall (λ c, xle c (Fin r))
      (flat_map
         (λ spec,
            if decide (spec_type spec = ONEHOT_EMBEDDING)
            then replicate (num_dimensions spec) (Fin r)
            else [PInf])
         specs)).
  { clearbody r. clear -Honehot.
    induction Honehot as [|s specs' Hs _ IH]; simpl.
    - done.
    - apply Forall_app. split; [|done].
      rewrite decide_True by done.
      apply Forall_replicate. reflexivity. }
  destruct feature_is_missing; [|done].
  apply Forall_app. split; [done|]. by apply Forall_replicate.
Qed.

(** X8.  On arrays of matching shapes with at least one trusted row,
    [min_linf_distance] returns one distance per query row and no distance
    is negative.  When every spec is a one-hot embedding, no distance
    exceeds the trust radius: in a purely categorical search space every
    point counts as inside the trust region. *)
Theorem min_linf_distance_range :
  ∀ (xs : matrix),
    Forall (λ r : row, length r = D) xs →
    ∃ distance,
      TrustRegion.min_linf_distance region xs = Ok distance
      ∧ length distance = length xs
      ∧ Forall (xle (Fin 0%Qc)) distance
      ∧ (Forall (λ s, spec_type s = ONEHOT_EMBEDDING) specs →
         Forall (λ d, xle d (Fin (TrustRegion.trust_radius region)))
           distance).
Proof.
  intros xs Hxs.
  rewrite min_linf_distance_run; [|apply region_caps_nonempty|done].
  eexists. split; [reflexivity|].
  cbn [TrustRegion.init TrustRegion._trusted TrustRegion._feature_is_missing].
  pose proof (masked_shape feature_is_missing xs D mask_shape Hxs) as Hqs.
  pose proof (masked_shape feature_is_missing trusted D mask_shape
                trusted_shape) as Hts.
  split_and!.
  - by rewrite length_fmap, masked_length.
  - apply Forall_fmap. eapply Forall_impl; [exact Hqs|].
    intros x Hx. cbn beta in *. unfold TrustRegion.linf_of_row.
    apply reduce_min_ge.
    by apply (linf_of_row_nonneg region D D_pos caps_shape
                (init_max_distances_nonneg _ _ _ _)).
  - intros Honehot. apply Forall_fmap, Forall_forall. intros x _.
    cbn beta. unfold compose, TrustRegion.linf_of_row.
    set (lanes :=
      TrustRegion.distances_of_row region
        (masked feature_is_missing trusted) x).
    assert (Hlanes : length lanes = length trusted).
    { unfold lanes. rewrite distances_of_row_length.
      - apply masked_length.
      - simpl. by rewrite masked_length. }
    destruct lanes as [|d lanes'] eqn:E.
    { destruct trusted; [done|discriminate]. }
    rewrite !fmap_cons.
    trans (reduce_max (zip_with xmin d (TrustRegion._max_distances region))).
    { apply reduce_min_le. left. }
    apply reduce_max_le.
    apply zip_with_Forall_r; [|by apply region_caps_le_radius].
    intros a c Hc. cbn beta in *. trans c; [apply xmin_le_r|done].
Qed.

End Distances.

(** ** When the gate is active *)

Section Threshold.
Local Open Scope Qc_scope.

Lemma radius_strict_mono (dof : nat) (t1 t2 : matrix) :
  (length t1 < length t2)%nat →
  TrustRegion._compute_trust_radius dof t1
  < TrustRegion._compute_trust_radius dof t2.
Proof.
  intros Hlen. rewrite !_compute_trust_radius_eq.
  apply Qcplus_lt_mono_l. unfold Qcdiv.
  apply Qcmult_lt_mono_pos_r.
  { apply Qcinv_pos, radius_denominator_pos. }
  apply Qcmult_lt_mono_pos_l.
  { rewrite qc_half_minus_min. by vm_compute. }
  apply Qc_of_Z_lt. lia.
Qed.

Lemma radius_at_threshold (dof : nat) (trusted : matrix) :
  length trusted = (5 * (dof + 1))%nat →
  TrustRegion._compute_trust_radius dof trusted = qc 5 10.
Proof.
  intros Hlen. rewrite _compute_trust_radius_eq, Hlen.
  replace (Z.of_nat (5 * (dof + 1))) with (5 * (Z.of_nat dof + 1))%Z by lia.
  rewrite Qc_of_Z_mult, <- qc_5_1.
  set (d := qc 5 1 * Qc_of_Z (Z.of_nat dof + 1)).
  assert (Hd : d ≠ 0).
  { intros E. pose proof (radius_denominator_pos dof) as Hpos.
    fold d in Hpos. rewrite E in Hpos. by apply (Qclt_not_eq 0 0). }
  unfold Qcdiv. rewrite <- Qcmult_assoc, Qcmult_inv_r, Qcmult_1_r by done.
  apply Qc_is_canon. reflexivity.
Qed.

(** The radius is below [0.5] exactly when there are fewer than
    [5 * (dof + 1)] trusted rows. *)
Lemma radius_below_half_iff (dof : nat) (trusted : matrix) :
  TrustRegion._compute_trust_radius dof trusted < qc 5 10
  ↔ (length trusted < 5 * (dof + 1))%nat.
Proof.
  set (edge := replicate (5 * (dof + 1)) ([] : row)).
  assert (Hedge : TrustRegion._compute_trust_radius dof edge = qc 5 10).
  { apply radius_at_threshold. unfold edge. by rewrite length_replicate. }
  split.
  - intros Hlt.
    destruct (decide (length trusted < 5 * (dof + 1))%nat) as [|Hge];
      [done|].
    exfalso. apply (Qclt_not_le _ _ Hlt). rewrite <- Hedge.
    apply radius_mono. unfold edge. rewrite length_replicate. lia.
  - intros Hlen. rewrite <- Hedge. apply radius_strict_mono.
    unfold edge. by rewrite length_replicate.
Qed.

(** With the defaults of [build] the two classes compute the same
    radius. *)
Lemma categorical_radius_eq (trusted : ContinuousAndCategoricalArray)
    (dof : nat) :
  TrustRegionWithCategorical._compute_trust_radius trusted (qc 2 10)
    (qc 5 1) dof
  = TrustRegion._compute_trust_radius dof (continuous trusted).
Proof.
  unfold TrustRegionWithCategorical._compute_trust_radius,
    TrustRegion._compute_trust_radius.
  by rewrite <- Qcmult_plus_distr_l, qc_split_weights, Qcmult_1_l.
Qed.

End Threshold.

(** The number of trusted rows and the degrees of freedom that the trust
    region of [build] works with. *)
Definition trusted_rows (features : Features) : nat :=
  match features with
  | Array trusted => length trusted
  | ContinuousAndCategorical trusted => length (continuous trusted)
  end.

Definition degrees_of_freedom `{Pyvizier} {Trial} (features : Features)
    (converter : ArrayConverter Trial) : nat :=
  match features with
  | Array _ => length (output_specs converter)
  | ContinuousAndCategorical trusted =>
      continuous_ncols trusted + categorical_ncols trusted
  end.

Section GateThreshold.
Context `{StochasticProcess} `{Pyvizier}.

(** X9.  The trust region that [build] makes has a radius below [0.5]
    exactly when the number of trusted rows is below [5 * (dof + 1)], where
    [dof] is the number of output specs for an array of features and the
    number of continuous and categorical columns otherwise.  So a builder
    built on at least [5 * (dof + 1)] trusted rows returns the values of
    its acquisition function unchanged, gating enabled or not, and never
    computes a distance. *)
Theorem gate_active_below_threshold :
  ∀ {Trial} (features : Features) (converter : ArrayConverter Trial)
    (oim fim : option (list bool)),
    let threshold := 5 * (degrees_of_freedom features converter + 1) in
    ((any_trust_radius (built_trust_region features converter oim fim)
      < qc 5 10)%Qc
     ↔ trusted_rows features < threshold)
    ∧ ∀ (w w' : GPBanditAcquisitionBuilder.world) (problem : ref)
        (model : Model) (state : ModelState) (labels : matrix)
        (use_vmap : bool) (xs : Features),
        GPBanditAcquisitionBuilder.build problem model state features
          labels converter oim fim use_vmap w = (Ok (), w') →
        threshold ≤ trusted_rows features →
        ∃ f,
          GPBanditAcquisitionBuilder.acquisition_on_array
            (GPBanditAcquisitionBuilder.self w') = Ok f
          ∧ f xs
            = call
                (GPBanditAcquisitionBuilder.acquisition_fn
                   (GPBanditAcquisitionBuilder.self w'))
                (_build_predictive_distribution model state features labels
                   oim use_vmap xs)
                (Some features) (Some labels).
Proof.
  intros Trial features converter oim fim threshold.
  assert (Hiff :
    (any_trust_radius (built_trust_region features converter oim fim)
     < qc 5 10)%Qc
    ↔ trusted_rows features < threshold).
  { unfold threshold. destruct features as [trusted|trusted]; simpl.
    - apply radius_below_half_iff.
    - unfold TrustRegionWithCategorical.trust_radius,
        TrustRegionWithCategorical.init; simpl.
      rewrite categorical_radius_eq. apply radius_below_half_iff. }
  split; [exact Hiff|].
  intros w w' problem model state labels use_vmap xs Hrun Hmany.
  destruct (GPBanditAcquisitionBuilder.heap w !! problem) as [v|] eqn:Hp.
  2: { destruct (single_build_dangling w problem model state features labels
                   converter oim fim use_vmap Hp) as (e & w'' & Hfail & _).
       rewrite Hfail in Hrun. discriminate. }
  rewrite (single_build_run w problem v model state features labels
             converter oim fim use_vmap Hp) in Hrun.
  injection Hrun as <-. simpl.
  eexists. split; [reflexivity|].
  unfold GPBanditAcquisitionBuilder.acquisition_on_array_fn; simpl.
  destruct (call _ _ _ _) as [acquisition|e]; simpl; [|done].
  destruct (GPBanditAcquisitionBuilder.use_trust_region
              (GPBanditAcquisitionBuilder.self w)); simpl; [|done].
  rewrite decide_False; [done|].
  rewrite Hiff. lia.
Qed.

End GateThreshold.

(** ** No trusted row *)

Lemma min_linf_distance_no_trusted (specs : list NumpyArraySpec)
    (fim oim : option (list bool)) (xs : matrix) :
  ∃ msg,
    TrustRegion.min_linf_distance (TrustRegion.init [] specs fim oim) xs
    = Raise (ValueError msg).
Proof.
  unfold TrustRegion.min_linf_distance.
  cbn [TrustRegion.init TrustRegion._trusted TrustRegion._feature_is_missing
       TrustRegion._max_distances].
  destruct fim as [fim|]; cbn [fmap list_fmap];
    match goal with
    | |- context [decide (?caps = [])] => destruct (decide (caps = []))
    end; eauto.
Qed.

Section NoTrustedRow.
Context `{StochasticProcess} `{Pyvizier}.

(** X10.  A builder with gating enabled that was built on an array of
    features with no row cannot evaluate its acquisition: the radius is
    [0.2], so the distance to the nearest trusted row is asked for, and the
    reduction over the empty set of trusted rows raises [ValueError], at
    every array of query rows on which the acquisition function itself
    returns. *)
Theorem gated_acquisition_needs_trusted_row :
  ∀ {Trial} (w w' : GPBanditAcquisitionBuilder.world) (problem : ref)
    (model : Model) (state : ModelState) (labels : matrix)
    (converter : ArrayConverter Trial) (oim fim : option (list bool))
    (use_vmap : bool) (xs : matrix) (acquisition : list xnum),
    GPBanditAcquisitionBuilder.use_trust_region
      (GPBanditAcquisitionBuilder.self w) = true →
    GPBanditAcquisitionBuilder.build problem model state (Array []) labels
      converter oim fim use_vmap w = (Ok (), w') →
    call
      (GPBanditAcquisitionBuilder.acquisition_fn
         (GPBanditAcquisitionBuilder.self w'))
      (_build_predictive_distribution model state (Array []) labels oim
         use_vmap (Array xs))
      (Some (Array [])) (Some labels)
    = Ok acquisition →
    ∃ f msg,
      GPBanditAcquisitionBuilder.acquisition_on_array
        (GPBanditAcquisitionBuilder.self w') = Ok f
      ∧ f (Array xs) = Raise (ValueError msg).
Proof.
  intros Trial w w' problem model state labels converter oim fim use_vmap
    xs acquisition Hgate Hrun Hcall.
  destruct (min_linf_distance_no_trusted (output_specs converter) fim oim xs)
    as [msg Hmsg].
  assert (Hradius :
    (any_trust_radius (built_trust_region (Array []) converter oim fim)
     < qc 5 10)%Qc).
  { apply radius_below_half_iff. simpl. lia. }
  assert (Hdistance :
    any_min_linf_distance (built_trust_region (Array []) converter oim fim)
      (Array xs)
    = Raise (ValueError msg)) by exact Hmsg.
  remember (Array []) as features eqn:Hfeatures.
  clear Hmsg Hfeatures.
  destruct (GPBanditAcquisitionBuilder.heap w !! problem) as [v|] eqn:Hp.
  2: { destruct (single_build_dangling w problem model state features
                   labels converter oim fim use_vmap Hp)
         as (e & w'' & Hfail & _).
       rewrite Hfail in Hrun. discriminate. }
  rewrite (single_build_run w problem v model state features labels
             converter oim fim use_vmap Hp) in Hrun.
  injection Hrun as <-. simpl in *.
  eexists _, msg. split; [reflexivity|].
  unfold GPBanditAcquisitionBuilder.acquisition_on_array_fn; simpl.
  rewrite Hcall, Hgate; simpl.
  rewrite decide_True by done.
  by rewrite Hdistance.
Qed.

End NoTrustedRow.

(** ** The trust region over continuous and categorical features *)

Lemma zip_with_xmin_PInf (d : list xnum) (n : nat) :
  length d ≤ n → zip_with xmin d (replicate n PInf) = d.
Proof.
  revert n. induction d as [|x d IH]; intros [|n] Hn; simpl in *;
    try done; try lia.
  rewrite IH by lia. f_equal. unfold xmin.
  destruct x; simpl; done.
Qed.

(** X11.  [TrustRegionWithCategorical.min_linf_distance] is the distance
    of [TrustRegion] over the continuous columns alone, each taken as one
    CONTINUOUS parameter: it returns the same distances and raises the same
    errors, whatever the categorical columns hold. *)
Theorem categorical_distance_is_continuous_distance :
  ∀ (trusted xs : ContinuousAndCategoricalArray)
    (min_radius dimension_factor : Qc),
    Forall (λ t : row, length t = continuous_ncols trusted)
      (continuous trusted) →
    Forall (λ x : row, length x = continuous_ncols trusted)
      (continuous xs) →
    TrustRegionWithCategorical.min_linf_distance
      (TrustRegionWithCategorical.init trusted min_radius dimension_factor)
      xs
    = TrustRegion.min_linf_distance
        (TrustRegion.init (continuous trusted)
           (replicate (continuous_ncols trusted)
              {| spec_type := CONTINUOUS; num_dimensions := 1 |})
           None None)
        (continuous xs).
Proof.
  intros trusted xs min_radius dimension_factor Htrusted Hxs.
  set (D := continuous_ncols trusted) in *.
  unfold TrustRegionWithCategorical.min_linf_distance,
    TrustRegion.min_linf_distance.
  cbn [TrustRegionWithCategorical.init TrustRegionWithCategorical._trusted
       TrustRegion.init TrustRegion._trusted TrustRegion._feature_is_missing
       TrustRegion._max_distances].
  fold D.
  assert (Hcaps : ∀ r,
    flat_map
      (λ spec,
         if decide (spec_type spec = ONEHOT_EMBEDDING)
         then replicate (num_dimensions spec) (Fin r)
         else [PInf])
      (replicate D {| spec_type := CONTINUOUS; num_dimensions := 1 |})
    = replicate D PInf).
  { intros r. clear. induction D as [|n IH]; simpl; [done|]. by rewrite IH. }
  rewrite Hcaps. clearbody D.
  destruct (decide (D = 0)) as [HD|HD].
  { rewrite (decide_True (P := replicate D PInf = [])); [done|].
    by rewrite HD. }
  rewrite (decide_False (P := replicate D PInf = [])).
  2: { intros E. apply HD. destruct D; simpl in E; [done|discriminate E]. }
  destruct (decide (continuous trusted = [])) as [|Hne]; [done|].
  f_equal. apply list_fmap_ext. intros _ x _.
  unfold TrustRegion.linf_of_row, TrustRegion.distances_of_row.
  cbn [TrustRegion.init TrustRegion._observations_is_missing
       TrustRegion._max_distances].
  rewrite Hcaps. f_equal. rewrite <- !list_fmap_compose.
  apply Forall_fmap_ext_1. eapply Forall_impl; [exact Htrusted|].
  intros t Ht. cbn beta in *. unfold compose. f_equal.
  rewrite zip_with_xmin_PInf; [done|].
  rewrite length_zip_with. lia.
Qed.

(** ** The trust-region properties on concrete regions *)

Section TrustRegionDemo.
#[local] Existing Instance Demo.jax.
#[local] Existing Instance Demo.tfp.
#[local] Existing Instance Demo.process.
#[local] Existing Instance Demo.pyvizier.

(** One described dimension padded to width two: the query row differs
    from the trusted row in the padded dimension only. *)
Lemma min_linf_distance_zero_at_trusted_point_witness :
  ∃ distance,
    TrustRegion.min_linf_distance
      (TrustRegion.init [[qc 1 10; qc 5 1]; [qc 9 10; qc 5 1]]
         [Demo.continuous_spec] (Some [false; true]) None)
      [[qc 9 10; qc 7 1]]
    = Ok distance
    ∧ length distance = 1
    ∧ distance !! 0 = Some (Fin 0%Qc).
Proof.
  apply (min_linf_distance_zero_at_trusted_point
           [[qc 1 10; qc 5 1]; [qc 9 10; qc 5 1]] [Demo.continuous_spec]
           (Some [false; true]) None 2
           ltac:(lia) eq_refl
           ltac:(repeat constructor) eq_refl
           [[qc 9 10; qc 7 1]] 0 1 [qc 9 10; qc 7 1] [qc 9 10; qc 5 1]).
  - repeat constructor.
  - reflexivity.
  - reflexivity.
  - reflexivity.
  - exact I.
Defined.

(** One categorical parameter with two values and one trusted row: the
    other value is at the radius [0.23], not beyond. *)
Lemma min_linf_distance_range_witness :
  ∃ distance,
    TrustRegion.min_linf_distance
      (TrustRegion.init [[1%Qc; 0%Qc]]
         [ {| spec_type := ONEHOT_EMBEDDING; num_dimensions := 2 |} ]
         None None)
      [[0%Qc; 1%Qc]]
    = Ok distance
    ∧ Forall (xle (Fin 0%Qc)) distance
    ∧ Forall
        (λ d,
           xle d
             (Fin
                (TrustRegion.trust_radius
                   (TrustRegion.init [[1%Qc; 0%Qc]]
                      [ {| spec_type := ONEHOT_EMBEDDING;
                           num_dimensions := 2 |} ]
                      None None))))
        distance.
Proof.
  destruct (min_linf_distance_range [[1%Qc; 0%Qc]]
              [ {| spec_type := ONEHOT_EMBEDDING; num_dimensions := 2 |} ]
              None None 2
              ltac:(lia) eq_refl
              ltac:(repeat constructor) I
              ltac:(discriminate) I
              [[0%Qc; 1%Qc]]
              ltac:(repeat constructor))
    as (distance & Hrun & _ & Hnonneg & Hcap).
  exists distance. split; [exact Hrun|]. split; [exact Hnonneg|].
  apply Hcap. repeat constructor.
Defined.

(** A gated UCB builder built on no trusted row. *)
Definition demo_empty_built : GPBanditAcquisitionBuilder.world :=
  snd (GPBanditAcquisitionBuilder.build 0 Demo.model Demo.state
         (Array []) [] Demo.converter None None false demo_single_world).

Lemma gated_acquisition_needs_trusted_row_witness :
  ∃ f msg,
    GPBanditAcquisitionBuilder.acquisition_on_array
      (GPBanditAcquisitionBuilder.self demo_empty_built) = Ok f
    ∧ f demo_queries = Raise (ValueError msg).
Proof.
  apply (gated_acquisition_needs_trusted_row demo_single_world
           demo_empty_built 0 Demo.model Demo.state [] Demo.converter
           None None false [[qc 2 10]; [qc 5 10]]
           [Fin (qc 2 10); Fin (qc 5 10)]).
  - reflexivity.
  - unfold demo_empty_built.
    rewrite (single_build_run demo_single_world 0 Demo.problem);
      reflexivity.
  - apply (bool_decide_unpack _). vm_compute. exact I.
Defined.

(** Two trusted rows with one continuous and one categorical column. *)
Definition demo_mixed_trusted : ContinuousAndCategoricalArray :=
  {| continuous := [[qc 1 10]; [qc 9 10]];
     continuous_ncols := 1;
     categorical := [[1%Z]; [2%Z]];
     categorical_ncols := 1 |}.

Definition demo_mixed_queries : ContinuousAndCategoricalArray :=
  {| continuous := [[qc 2 10]; [qc 9 10]];
     continuous_ncols := 1;
     categorical := [[3%Z]; [3%Z]];
     categorical_ncols := 1 |}.

Lemma categorical_distance_is_continuous_distance_witness :
  TrustRegionWithCategorical.min_linf_distance
    (TrustRegionWithCategorical.init demo_mixed_trusted (qc 2 10) (qc 5 1))
    demo_mixed_queries
  = TrustRegion.min_linf_distance
      (TrustRegion.init [[qc 1 10]; [qc 9 10]]
         [ {| spec_type := CONTINUOUS; num_dimensions := 1 |} ] None None)
      [[qc 2 10]; [qc 9 10]].
Proof.
  apply (categorical_distance_is_continuous_distance demo_mixed_trusted
           demo_mixed_queries (qc 2 10) (qc 5 1)).
  - repeat constructor.
  - repeat constructor.
Defined.

End TrustRegionDemo.

(** * Further properties of the builders *)

Section MultiGating.
Context `{StochasticProcess} `{Pyvizier}.

Lemma call_all_run (fns : list (string * AcquisitionFunction))
    (dist : Distribution) (features : option Features)
    (labels : option matrix) (acquisitions : list (list xnum)) :
  Forall2 (λ fn a, call fn.2 dist features labels = Ok a) fns acquisitions →
  GPBanditMultiAcquisitionBuilder.call_all fns dist features labels
  = Ok acquisitions.
Proof.
  induction 1 as [|[name fn] a fns acquisitions Ha _ IH]; simpl in *.
  - done.
  - by rewrite Ha, IH.
Qed.

(** A completed [build] started from a store that holds the problem and
    was not refused. *)
Lemma multi_build_completed {Trial}
    (w w' : GPBanditMultiAcquisitionBuilder.world) (problem : ref)
    (model : Model) (state : ModelState) (features : Features)
    (labels : matrix) (converter : ArrayConverter Trial)
    (oim fim : option (list bool)) (use_vmap : bool) :
  GPBanditMultiAcquisitionBuilder.build problem model state features labels
    converter oim fim use_vmap w = (Ok (), w') →
  ∃ v,
    GPBanditMultiAcquisitionBuilder.heap w !! problem = Some v
    ∧ multi_refuses (GPBanditMultiAcquisitionBuilder.self w) features
      = false.
Proof.
  intros Hrun.
  destruct (GPBanditMultiAcquisitionBuilder.heap w !! problem) as [v|] eqn:Hp;
    [destruct (multi_refuses (GPBanditMultiAcquisitionBuilder.self w)
                 features) eqn:Href|].
  2: { by exists v. }
  all: edestruct (multi_build_fail w problem model state features labels
                    converter oim fim use_vmap) as (e & w'' & Hfail & _);
    [eauto| rewrite Hfail in Hrun; discriminate].
Qed.

(** X12.  After [build], [acquisition_on_array] of the multi-acquisition
    builder returns a function [f].  When every acquisition function
    returns at [xs], [f xs] has one row per acquisition function, in the
    order of [acquisition_fns]; with no acquisition function at all the
    stacking raises [ValueError].  With gating enabled the features are an
    array, the trust region is built without masks, whatever masks [build]
    was given, and for a radius below [0.5] every row is gated by the same
    distances; with gating disabled or a radius of at least [0.5] the rows
    are returned as they are. *)
Theorem multi_acquisition_on_array_gating :
  ∀ {Trial} (w w' : GPBanditMultiAcquisitionBuilder.world) (problem : ref)
    (model : Model) (state : ModelState) (features : Features)
    (labels : matrix) (converter : ArrayConverter Trial)
    (oim fim : option (list bool)) (use_vmap : bool)
    (xs : Features) (acquisitions : list (list xnum)),
    GPBanditMultiAcquisitionBuilder.build problem model state features
      labels converter oim fim use_vmap w = (Ok (), w') →
    let b := GPBanditMultiAcquisitionBuilder.self w' in
    let dist :=
      _build_predictive_distribution model state features labels None
        use_vmap xs in
    Forall2
      (λ fn a, call fn.2 dist (Some features) (Some labels) = Ok a)
      (GPBanditMultiAcquisitionBuilder.acquisition_fns b) acquisitions →
    ∃ f,
      GPBanditMultiAcquisitionBuilder.acquisition_on_array b = Ok f
      ∧ (acquisitions = [] → ∃ msg, f xs = Raise (ValueError msg))
      ∧ (acquisitions ≠ [] →
         GPBanditMultiAcquisitionBuilder.use_trust_region b = false →
         f xs = Ok acquisitions)
      ∧ (acquisitions ≠ [] →
         GPBanditMultiAcquisitionBuilder.use_trust_region b = true →
         ∃ trusted,
           features = Array trusted
           ∧ let tr :=
               TrustRegion.init trusted (output_specs converter) None None
             in
             let radius := TrustRegion.trust_radius tr in
             ((qc 5 10 <= radius)%Qc → f xs = Ok acquisitions)
             ∧ ((radius < qc 5 10)%Qc →
                ∀ distance,
                  any_min_linf_distance (Plain tr) xs = Ok distance →
                  f xs
                  = Ok (trust_region_gate radius distance
                          <$> acquisitions))).
Proof.
  intros Trial w w' problem model state features labels converter oim fim
    use_vmap xs acquisitions Hrun b dist Hcalls.
  destruct (multi_build_completed w w' problem model state features labels
              converter oim fim use_vmap Hrun) as (v & Hp & Href).
  rewrite (multi_build_run w problem v model state features labels
             converter oim fim use_vmap Hp Href) in Hrun.
  injection Hrun as <-. subst b. simpl in *.
  apply call_all_run in Hcalls.
  eexists. split; [reflexivity|].
  unfold GPBanditMultiAcquisitionBuilder.acquisition_on_array_fn; simpl.
  fold dist. rewrite Hcalls; simpl.
  split_and!.
  - intros ->. simpl. eauto.
  - intros Hne Hoff. destruct acquisitions; [done|]. simpl.
    by rewrite Hoff.
  - intros Hne Hon. destruct acquisitions as [|a acquisitions]; [done|].
    simpl. unfold multi_refuses, multi_trust_region in *.
    rewrite Hon in *. simpl in *.
    destruct features as [trusted|mixed]; [|discriminate].
    exists trusted. split; [done|]. simpl. split.
    + intros Hradius. rewrite decide_False; [done|].
      by apply Qcle_not_lt.
    + intros Hradius distance Hdistance.
      rewrite decide_True by done.
      by rewrite Hdistance.
Qed.

(** X13.  When [build] of the multi-acquisition builder refuses the
    continuous-and-categorical form, it has already replaced the
    predictive distribution: the builder keeps its built flag, its trust
    region, its acquisition problem and the store, but from then on
    [predict_on_array] of a builder that was built before answers from the
    model, features and labels of the refused call. *)
Theorem multi_refused_build_replaces_prediction :
  ∀ {Trial} (w : GPBanditMultiAcquisitionBuilder.world) (problem : ref)
    (model : Model) (state : ModelState)
    (features : ContinuousAndCategoricalArray) (labels : matrix)
    (converter : ArrayConverter Trial) (oim fim : option (list bool))
    (use_vmap : bool),
    GPBanditMultiAcquisitionBuilder.use_trust_region
      (GPBanditMultiAcquisitionBuilder.self w) = true →
    ∃ w',
      GPBanditMultiAcquisitionBuilder.build problem model state
        (ContinuousAndCategorical features) labels converter oim fim
        use_vmap w
      = (Raise GPBanditMultiAcquisitionBuilder.unsupported, w')
      ∧ GPBanditMultiAcquisitionBuilder.heap w'
        = GPBanditMultiAcquisitionBuilder.heap w
      ∧ GPBanditMultiAcquisitionBuilder.self w'
        = GPBanditMultiAcquisitionBuilder.set_get_predictive_dist
            (_build_predictive_distribution model state
               (ContinuousAndCategorical features) labels None use_vmap)
            (GPBanditMultiAcquisitionBuilder.self w)
      ∧ (GPBanditMultiAcquisitionBuilder._built
           (GPBanditMultiAcquisitionBuilder.self w) = true →
         ∃ f,
           GPBanditMultiAcquisitionBuilder.predict_on_array
             (GPBanditMultiAcquisitionBuilder.self w') = Ok f
           ∧ ∀ xs,
               f xs
               = Ok (dist_mean
                       (_build_predictive_distribution model state
                          (ContinuousAndCategorical features) labels None
                          use_vmap xs),
                     dist_stddev
                       (_build_predictive_distribution model state
                          (ContinuousAndCategorical features) labels None
                          use_vmap xs))).
Proof.
  intros Trial w problem model state features labels converter oim fim
    use_vmap Hgate.
  destruct w as [s h]. simpl in Hgate.
  eexists. split_and!.
  - unfold GPBanditMultiAcquisitionBuilder.build, bind_M,
      GPBanditMultiAcquisitionBuilder.on_self, modify_M, get_M, raise_M;
      simpl.
    rewrite Hgate. reflexivity.
  - reflexivity.
  - reflexivity.
  - simpl. intros Hbuilt.
    unfold GPBanditMultiAcquisitionBuilder.predict_on_array; simpl.
    rewrite Hbuilt; simpl. eexists. split; [reflexivity|].
    intros xs. reflexivity.
Qed.

End MultiGating.

Section BuilderReports.
Context `{StochasticProcess} `{Pyvizier}.

(** The radius [0.2 + (0.5 - 0.2) * N / (5.0 * (dof + 1))]. *)
Definition radius_of (rows dof : nat) : Qc :=
  (qc 2 10
   + (qc 5 10 - qc 2 10) * Qc_of_Z (Z.of_nat rows)
     / (qc 5 1 * Qc_of_Z (Z.of_nat dof + 1)))%Qc.

Lemma built_trust_region_radius {Trial} (features : Features)
    (converter : ArrayConverter Trial) (oim fim : option (list bool)) :
  any_trust_radius (built_trust_region features converter oim fim)
  = radius_of (trusted_rows features)
      (degrees_of_freedom features converter).
Proof.
  unfold radius_of. destruct features as [trusted|trusted]; simpl.
  - apply _compute_trust_radius_eq.
  - unfold TrustRegionWithCategorical.trust_radius,
      TrustRegionWithCategorical.init; simpl.
    rewrite categorical_radius_eq. apply _compute_trust_radius_eq.
Qed.

(** X14.  After [build], [metadata_dict] of a builder with gating enabled
    holds the one entry [trust_radius], whose value is
    [0.2 + 0.3 * N / (5 * (dof + 1))] for the [N] trusted rows of the
    features given to [build]; [dof] is the number of output specs of the
    converter for an array of features and the number of continuous and
    categorical columns otherwise.  Without gating the dict is empty. *)
Theorem metadata_dict_reports_radius :
  ∀ {Trial} (w w' : GPBanditAcquisitionBuilder.world) (problem : ref)
    (model : Model) (state : ModelState) (features : Features)
    (labels : matrix) (converter : ArrayConverter Trial)
    (oim fim : option (list bool)) (use_vmap : bool),
    GPBanditAcquisitionBuilder.build problem model state features labels
      converter oim fim use_vmap w = (Ok (), w') →
    GPBanditAcquisitionBuilder.metadata_dict
      (GPBanditAcquisitionBuilder.self w')
    = Ok (if GPBanditAcquisitionBuilder.use_trust_region
               (GPBanditAcquisitionBuilder.self w')
          then [("trust_radius",
                 radius_of (trusted_rows features)
                   (degrees_of_freedom features converter))]
          else []).
Proof.
  intros Trial w w' problem model state features labels converter oim fim
    use_vmap Hrun.
  destruct (GPBanditAcquisitionBuilder.heap w !! problem) as [v|] eqn:Hp.
  2: { destruct (single_build_dangling w problem model state features labels
                   converter oim fim use_vmap Hp) as (e & w'' & Hfail & _).
       rewrite Hfail in Hrun. discriminate. }
  rewrite (single_build_run w problem v model state features labels
             converter oim fim use_vmap Hp) in Hrun.
  injection Hrun as <-.
  unfold GPBanditAcquisitionBuilder.metadata_dict; simpl.
  destruct (GPBanditAcquisitionBuilder.use_trust_region
              (GPBanditAcquisitionBuilder.self w)); simpl; [|done].
  by rewrite built_trust_region_radius.
Qed.

(** X15.  Building twice gives two problems: the second [build] makes a
    new object, distinct from the caller's problems and from the problem
    of the first [build], which stays in the store as the first [build]
    left it; the builder then answers with the second one. *)
Theorem rebuild_makes_new_problem :
  ∀ {Trial} (w w1 w2 : GPBanditAcquisitionBuilder.world)
    (problem1 problem2 : ref) (v1 v2 : ProblemStatement)
    (model1 model2 : Model) (state1 state2 : ModelState)
    (features1 features2 : Features) (labels1 labels2 : matrix)
    (converter : ArrayConverter Trial)
    (oim1 fim1 oim2 fim2 : option (list bool)) (use_vmap1 use_vmap2 : bool),
    GPBanditAcquisitionBuilder.heap w !! problem1 = Some v1 →
    GPBanditAcquisitionBuilder.heap w !! problem2 = Some v2 →
    GPBanditAcquisitionBuilder.build problem1 model1 state1 features1
      labels1 converter oim1 fim1 use_vmap1 w = (Ok (), w1) →
    GPBanditAcquisitionBuilder.build problem2 model2 state2 features2
      labels2 converter oim2 fim2 use_vmap2 w1 = (Ok (), w2) →
    ∃ q1 q2,
      GPBanditAcquisitionBuilder.acquisition_problem
        (GPBanditAcquisitionBuilder.self w1) = Ok q1
      ∧ GPBanditAcquisitionBuilder.acquisition_problem
          (GPBanditAcquisitionBuilder.self w2) = Ok q2
      ∧ q1 ≠ q2 ∧ q2 ≠ problem1 ∧ q2 ≠ problem2
      ∧ GPBanditAcquisitionBuilder.heap w2 !! q1
        = Some (with_metrics v1 [acquisition_metric])
      ∧ GPBanditAcquisitionBuilder.heap w2 !! q2
        = Some (with_metrics v2 [acquisition_metric])
      ∧ GPBanditAcquisitionBuilder.heap w2 !! problem1 = Some v1
      ∧ GPBanditAcquisitionBuilder.heap w2 !! problem2 = Some v2.
Proof.
  intros Trial w w1 w2 problem1 problem2 v1 v2 model1 model2 state1 state2
    features1 features2 labels1 labels2 converter oim1 fim1 oim2 fim2
    use_vmap1 use_vmap2 Hp1 Hp2 Hrun1 Hrun2.
  rewrite (single_build_run w problem1 v1 model1 state1 features1 labels1
             converter oim1 fim1 use_vmap1 Hp1) in Hrun1.
  injection Hrun1 as <-.
  set (q1 := fresh (dom (GPBanditAcquisitionBuilder.heap w))) in *.
  assert (Hq1 : GPBanditAcquisitionBuilder.heap w !! q1 = None).
  { apply not_elem_of_dom, is_fresh. }
  assert (Hne1 : q1 ≠ problem1) by (intros E; congruence).
  assert (Hne2 : q1 ≠ problem2) by (intros E; congruence).
  set (h1 := <[q1 := with_metrics v1 [acquisition_metric]]>
               (GPBanditAcquisitionBuilder.heap w)) in *.
  assert (Hp2' : h1 !! problem2 = Some v2).
  { unfold h1. by rewrite lookup_insert_ne. }
  match type of Hrun2 with
  | GPBanditAcquisitionBuilder.build _ _ _ _ _ _ _ _ _ ?w1' = _ =>
      rewrite (single_build_run w1' problem2 v2 model2 state2 features2
                 labels2 converter oim2 fim2 use_vmap2 Hp2') in Hrun2
  end.
  injection Hrun2 as <-. cbn [GPBanditAcquisitionBuilder.heap] in *.
  set (q2 := fresh (dom h1)) in *.
  assert (Hq2 : h1 !! q2 = None) by apply not_elem_of_dom, is_fresh.
  assert (Hq12 : q1 ≠ q2).
  { intros E. rewrite <- E in Hq2. unfold h1 in Hq2.
    by rewrite lookup_insert_eq in Hq2. }
  assert (Hq2p1 : q2 ≠ problem1).
  { intros E. rewrite E in Hq2. unfold h1 in Hq2.
    rewrite lookup_insert_ne in Hq2 by done. congruence. }
  assert (Hq2p2 : q2 ≠ problem2) by (intros E; congruence).
  exists q1, q2. split_and!; try done.
  - rewrite lookup_insert_ne by done. unfold h1.
    by rewrite lookup_insert_eq.
  - by rewrite lookup_insert_eq.
  - rewrite lookup_insert_ne by done. unfold h1.
    by rewrite lookup_insert_ne.
  - by rewrite lookup_insert_ne.
Qed.

End BuilderReports.

(** ** The builder properties on the concrete instance *)

Section BuilderDemo.
#[local] Existing Instance Demo.jax.
#[local] Existing Instance Demo.tfp.
#[local] Existing Instance Demo.process.
#[local] Existing Instance Demo.pyvizier.

(** A fresh builder with the two acquisition functions [ucb] and [ei] and
    gating enabled, built on the two trusted points. *)
Definition demo_multi_world : GPBanditMultiAcquisitionBuilder.world :=
  {| GPBanditMultiAcquisitionBuilder.self :=
       GPBanditMultiAcquisitionBuilder.init
         [("ucb", UCB (qc 18 10)); ("ei", EI)] true;
     GPBanditMultiAcquisitionBuilder.heap := Demo.heap0 |}.

Definition demo_multi_built : GPBanditMultiAcquisitionBuilder.world :=
  snd (GPBanditMultiAcquisitionBuilder.build 0 Demo.model Demo.state
         (Array Demo.trusted) Demo.labels Demo.converter None None false
         demo_multi_world).

Lemma demo_multi_build_completes :
  GPBanditMultiAcquisitionBuilder.build 0 Demo.model Demo.state
    (Array Demo.trusted) Demo.labels Demo.converter None None false
    demo_multi_world
  = (Ok (), demo_multi_built).
Proof.
  unfold demo_multi_built.
  rewrite (multi_build_run demo_multi_world 0 Demo.problem);
    reflexivity.
Qed.

Lemma multi_acquisition_on_array_gating_witness :
  ∃ f,
    GPBanditMultiAcquisitionBuilder.acquisition_on_array
      (GPBanditMultiAcquisitionBuilder.self demo_multi_built) = Ok f
    ∧ f demo_queries
      = Ok (trust_region_gate (qc 26 100) demo_distance
              <$> [demo_acquisition; demo_acquisition]).
Proof.
  destruct demo_values as (Hacq & Hdist & Hradius).
  destruct (multi_acquisition_on_array_gating demo_multi_world
              demo_multi_built 0 Demo.model Demo.state (Array Demo.trusted)
              Demo.labels Demo.converter None None false demo_queries
              [demo_acquisition; demo_acquisition]
              demo_multi_build_completes)
    as (f & Hf & _ & _ & Hgate).
  - constructor; [|constructor; [|constructor]];
      apply (bool_decide_unpack _); vm_compute; exact I.
  - destruct Hgate as (trusted & Hfeatures & _ & Hbelow);
      [discriminate|reflexivity|].
    injection Hfeatures as <-.
    exists f. split; [exact Hf|].
    unfold demo_trust_region in Hradius. simpl in Hradius.
    rewrite <- Hradius at 1.
    apply Hbelow.
    + unfold TrustRegion.trust_radius. simpl. rewrite Hradius.
      reflexivity.
    + unfold demo_distance, demo_trust_region. simpl.
      apply (bool_decide_unpack _). vm_compute. exact I.
Defined.

(** A built builder asked to rebuild on the mixed form. *)
Lemma multi_refused_build_replaces_prediction_witness :
  ∃ w' f,
    GPBanditMultiAcquisitionBuilder.build 0 Demo.model Demo.state
      (ContinuousAndCategorical demo_mixed_trusted) Demo.labels
      Demo.converter None None false demo_multi_built
    = (Raise GPBanditMultiAcquisitionBuilder.unsupported, w')
    ∧ GPBanditMultiAcquisitionBuilder.heap w'
      = GPBanditMultiAcquisitionBuilder.heap demo_multi_built
    ∧ GPBanditMultiAcquisitionBuilder.predict_on_array
        (GPBanditMultiAcquisitionBuilder.self w') = Ok f
    ∧ f demo_queries
      = Ok (dist_mean
              (_build_predictive_distribution Demo.model Demo.state
                 (ContinuousAndCategorical demo_mixed_trusted) Demo.labels
                 None false demo_queries),
            dist_stddev
              (_build_predictive_distribution Demo.model Demo.state
                 (ContinuousAndCategorical demo_mixed_trusted) Demo.labels
                 None false demo_queries)).
Proof.
  destruct (multi_refused_build_replaces_prediction demo_multi_built 0
              Demo.model Demo.state demo_mixed_trusted Demo.labels
              Demo.converter None None false eq_refl)
    as (w' & Hrun & Hheap & _ & Hpredict).
  destruct (Hpredict eq_refl) as (f & Hf & Hvalues).
  exists w', f. split; [exact Hrun|]. split; [exact Hheap|].
  split; [exact Hf|apply Hvalues].
Defined.

Lemma metadata_dict_reports_radius_witness :
  GPBanditAcquisitionBuilder.metadata_dict
    (GPBanditAcquisitionBuilder.self demo_single_built)
  = Ok [("trust_radius", radius_of 2 1)].
Proof.
  apply (metadata_dict_reports_radius demo_single_world demo_single_built 0
           Demo.model Demo.state (Array Demo.trusted) Demo.labels
           Demo.converter None None false demo_single_build_completes).
Defined.

(** Building again from the same problem. *)
Definition demo_single_rebuilt : GPBanditAcquisitionBuilder.world :=
  snd (GPBanditAcquisitionBuilder.build 0 Demo.model Demo.state
         (Array Demo.trusted) Demo.labels Demo.converter None None false
         demo_single_built).

Lemma rebuild_makes_new_problem_witness :
  ∃ q1 q2,
    GPBanditAcquisitionBuilder.acquisition_problem
      (GPBanditAcquisitionBuilder.self demo_single_built) = Ok q1
    ∧ GPBanditAcquisitionBuilder.acquisition_problem
        (GPBanditAcquisitionBuilder.self demo_single_rebuilt) = Ok q2
    ∧ q1 ≠ q2
    ∧ GPBanditAcquisitionBuilder.heap demo_single_rebuilt !! q1
      = Some (with_metrics Demo.problem [acquisition_metric])
    ∧ GPBanditAcquisitionBuilder.heap demo_single_rebuilt !! 0
      = Some Demo.problem.
Proof.
  destruct (rebuild_makes_new_problem demo_single_world demo_single_built
              demo_single_rebuilt 0 0 Demo.problem Demo.problem
              Demo.model Demo.model Demo.state Demo.state
              (Array Demo.trusted) (Array Demo.trusted)
              Demo.labels Demo.labels Demo.converter None None None None
              false false eq_refl eq_refl demo_single_build_completes)
    as (q1 & q2 & H1 & H2 & Hne & _ & _ & Hq1 & _ & Hp & _).
  - unfold demo_single_rebuilt.
    destruct (GPBanditAcquisitionBuilder.build 0 Demo.model Demo.state
                (Array Demo.trusted) Demo.labels Demo.converter None None
                false demo_single_built) as [r w2] eqn:Hrun.
    assert (Hr : r = Ok ()).
    { pose proof (f_equal fst Hrun) as E. simpl in E. rewrite <- E.
      unfold demo_single_built.
      rewrite (single_build_run demo_single_world 0 Demo.problem)
        by reflexivity.
      simpl.
      match goal with
      | |- (GPBanditAcquisitionBuilder.build _ _ _ _ _ _ _ _ _ ?w1).1 = _ =>
          rewrite (single_build_run w1 0 Demo.problem) by reflexivity
      end.
      reflexivity. }
    by rewrite Hr.
  - exists q1, q2. split_and!; assumption.
Defined.

End BuilderDemo.

(** * The trust region grows with the trusted rows *)

Lemma reduce_min_attained (a : list xnum) : a ≠ [] → reduce_min a ∈ a.
Proof.
  unfold reduce_min. induction a as [|x a IH]; intros Hne; [done|].
  cbn [foldr]. destruct a as [|y a].
  - cbn [foldr]. unfold xmin.
    destruct (decide (xle x PInf)) as [|Hx]; [left|].
    exfalso. apply Hx. by destruct x.
  - unfold xmin at 1.
    destruct (decide (xle x (foldr xmin PInf (y :: a)))); [left|].
    right. by apply IH.
Qed.

(** The caps of one list of specs for two radii: infinite in the same
    places, the radius elsewhere. *)
Definition caps_of (r : Qc) (specs : list NumpyArraySpec) : list xnum :=
  flat_map
    (λ spec,
       if decide (spec_type spec = ONEHOT_EMBEDDING)
       then replicate (num_dimensions spec) (Fin r)
       else [PInf])
    specs.

Definition same_cap (r r' : Qc) (c c' : xnum) : Prop :=
  (c = PInf ∧ c' = PInf) ∨ (c = Fin r ∧ c' = Fin r').

Lemma caps_of_same (r r' : Qc) (specs : list NumpyArraySpec) :
  Forall2 (same_cap r r') (caps_of r specs) (caps_of r' specs).
Proof.
  unfold caps_of. induction specs as [|spec specs IH]; simpl; [done|].
  apply Forall2_app; [|done].
  destruct (decide (spec_type spec = ONEHOT_EMBEDDING)).
  - induction (num_dimensions spec) as [|n IHn]; simpl; [done|].
    constructor; [by right|done].
  - constructor; [by left|constructor].
Qed.

Lemma caps_transfer (r r' : Qc) (caps caps' : list xnum) (d : list xnum) :
  (r <= r')%Qc →
  Forall2 (same_cap r r') caps caps' →
  Forall (λ v, xle v (Fin r)) (zip_with xmin d caps) →
  Forall (λ v, xle v (Fin r')) (zip_with xmin d caps').
Proof.
  intros Hr Hcaps. revert d.
  induction Hcaps as [|c c' caps caps' Hc _ IH]; intros [|x d] Hall;
    simpl in *; try done.
  apply Forall_cons in Hall as [Hx Hall].
  constructor; [|by apply IH].
  destruct Hc as [[-> ->]|[-> ->]].
  - unfold xmin in *.
    destruct (decide (xle x PInf)) as [|Hno].
    + trans (Fin r); [done|exact Hr].
    + exfalso. apply Hno. by destruct x.
  - apply xmin_le_r.
Qed.

Lemma caps_of_continuous (r r' : Qc) (specs : list NumpyArraySpec) :
  Forall (λ s, spec_type s ≠ ONEHOT_EMBEDDING) specs →
  caps_of r specs = caps_of r' specs.
Proof.
  unfold caps_of. induction 1 as [|spec specs Hs _ IH]; simpl; [done|].
  rewrite IH. by rewrite !decide_False by done.
Qed.

Lemma reduce_min_app_le (a b : list xnum) :
  xle (reduce_min (a ++ b)) (reduce_min a).
Proof.
  apply reduce_min_ge, Forall_forall. intros x Hx.
  apply reduce_min_le, elem_of_app. by left.
Qed.

Section Growth.
Variable trusted extra : matrix.
Variable specs : list NumpyArraySpec.
Variable D : nat.

Abbreviation before := (TrustRegion.init trusted specs None None).
Abbreviation after := (TrustRegion.init (trusted ++ extra) specs None None).

(** The distance of one query row to one trusted row under given caps. *)
Definition lane (caps : list xnum) (x t : row) : xnum :=
  reduce_max (zip_with xmin (zip_with (λ a b, Fin (abs_diff a b)) t x) caps).

Lemma linf_of_row_plain (rows all : matrix) (x : row) :
  TrustRegion.linf_of_row (TrustRegion.init all specs None None) rows x
  = reduce_min
      (lane (caps_of (TrustRegion._compute_trust_radius (length specs) all)
               specs) x
         <$> rows).
Proof.
  unfold TrustRegion.linf_of_row, TrustRegion.distances_of_row, lane,
    caps_of.
  cbn [TrustRegion.init TrustRegion._observations_is_missing
       TrustRegion._max_distances].
  by rewrite <- !list_fmap_compose.
Qed.

Hypothesis D_pos : 0 < D.
Hypothesis caps_shape : length (TrustRegion._max_distances before) = D.
Hypothesis trusted_nonempty : trusted ≠ [].

Lemma caps_shape_after : TrustRegion._max_distances after ≠ [].
Proof.
  pose proof (caps_of_same
                (TrustRegion._compute_trust_radius (length specs) trusted)
                (TrustRegion._compute_trust_radius (length specs)
                   (trusted ++ extra))
                specs) as Hsame.
  apply Forall2_length in Hsame.
  intros E. apply (f_equal length) in E.
  cbn [TrustRegion.init TrustRegion._max_distances] in E, caps_shape.
  fold (caps_of (TrustRegion._compute_trust_radius (length specs)
                   (trusted ++ extra)) specs) in E.
  fold (caps_of (TrustRegion._compute_trust_radius (length specs) trusted)
          specs) in caps_shape.
  rewrite <- Hsame, caps_shape in E. simpl in E. lia.
Qed.

(** X16.  Adding trusted rows never shrinks the trust region, on arrays
    of rows of one width and without masks: the radius does not decrease,
    and a query row that was within the radius of the nearest trusted row
    is still within the new radius.  When no spec is a one-hot embedding
    the distance itself does not increase. *)
Theorem trust_region_grows :
  ∀ (xs : matrix),
    Forall (λ t : row, length t = D) (trusted ++ extra) →
    Forall (λ x : row, length x = D) xs →
    ∃ distance distance',
      TrustRegion.min_linf_distance before xs = Ok distance
      ∧ TrustRegion.min_linf_distance after xs = Ok distance'
      ∧ length distance = length xs
      ∧ length distance' = length xs
      ∧ (TrustRegion.trust_radius before
         <= TrustRegion.trust_radius after)%Qc
      ∧ (∀ i a a',
           distance !! i = Some a → distance' !! i = Some a' →
           xle a (Fin (TrustRegion.trust_radius before)) →
           xle a' (Fin (TrustRegion.trust_radius after)))
      ∧ (Forall (λ s, spec_type s ≠ ONEHOT_EMBEDDING) specs →
         ∀ i a a',
           distance !! i = Some a → distance' !! i = Some a' →
           xle a' a).
Proof.
  intros xs _ _.
  assert (Hcaps : TrustRegion._max_distances before ≠ []).
  { intros E. rewrite E in caps_shape. simpl in caps_shape. lia. }
  rewrite (min_linf_distance_run before xs Hcaps trusted_nonempty).
  rewrite (min_linf_distance_run after xs caps_shape_after).
  2: { simpl. intros E. apply app_eq_nil in E as [E _]. done. }
  cbn [TrustRegion.init TrustRegion._trusted TrustRegion._feature_is_missing
       masked].
  set (r := TrustRegion._compute_trust_radius (length specs) trusted).
  set (r' := TrustRegion._compute_trust_radius (length specs)
               (trusted ++ extra)).
  assert (Hr : (r <= r')%Qc).
  { apply radius_mono. rewrite length_app. lia. }
  eexists _, _. split; [reflexivity|]. split; [reflexivity|].
  split; [by rewrite length_fmap|]. split; [by rewrite length_fmap|].
  split; [exact Hr|]. split.
  - intros i a a' Ha Ha' Hin.
    rewrite list_lookup_fmap in Ha, Ha'.
    destruct (xs !! i) as [x|]; [|done].
    simpl in Ha, Ha'. injection Ha as <-. injection Ha' as <-.
    rewrite linf_of_row_plain in Hin. rewrite linf_of_row_plain.
    fold r in Hin. fold r'.
    unfold TrustRegion.trust_radius in *. simpl in Hin |- *.
    fold r in Hin. fold r'.
    pose proof (reduce_min_attained (lane (caps_of r specs) x <$> trusted))
      as Hat.
    destruct (list_elem_of_fmap_1 _ _ _ (Hat ltac:(by destruct trusted)))
      as (t & Ht & Hmem).
    rewrite Ht in Hin.
    trans (lane (caps_of r' specs) x t).
    + apply reduce_min_le. apply list_elem_of_fmap_2, elem_of_app. by left.
    + unfold lane in *. apply reduce_max_le.
      apply (caps_transfer r r' (caps_of r specs)); [done|..].
      * apply caps_of_same.
      * apply Forall_forall. intros v Hv.
        trans (reduce_max
                 (zip_with xmin
                    (zip_with (λ a b, Fin (abs_diff a b)) t x)
                    (caps_of r specs))); [|done].
        by apply reduce_max_ge.
  - intros Hcont i a a' Ha Ha'.
    rewrite list_lookup_fmap in Ha, Ha'.
    destruct (xs !! i) as [x|]; [|done].
    simpl in Ha, Ha'. injection Ha as <-. injection Ha' as <-.
    rewrite !linf_of_row_plain. fold r r'.
    rewrite (caps_of_continuous r' r specs Hcont).
    rewrite fmap_app. apply reduce_min_app_le.
Qed.

End Growth.

(** * Ranking under the gate *)



Section Ranking.
Context `{StochasticProcess} `{Pyvizier}.


(** X18.  Without gating, the acquisition of a built builder is computed
    from the very mean and standard deviation that [predict_on_array]
    reports at the same points: [mean + coefficient * stddev] for UCB and
    [min(mean, coefficient * stddev)] for the hypervolume scalarization,
    which therefore never exceeds the predicted mean. *)
Theorem acquisition_from_prediction :
  ∀ {Trial} (w w' : GPBanditAcquisitionBuilder.world) (problem : ref)
    (model : Model) (state : ModelState) (features : Features)
    (labels : matrix) (converter : ArrayConverter Trial)
    (oim fim : option (list bool)) (use_vmap : bool),
    GPBanditAcquisitionBuilder.build problem model state features labels
      converter oim fim use_vmap w = (Ok (), w') →
    let b := GPBanditAcquisitionBuilder.self w' in
    GPBanditAcquisitionBuilder.use_trust_region b = false →
    ∃ f g,
      GPBanditAcquisitionBuilder.acquisition_on_array b = Ok f
      ∧ GPBanditAcquisitionBuilder.predict_on_array b = Ok g
      ∧ ∀ xs, ∃ mean stddev,
          g xs = Ok (mean, stddev)
          ∧ (∀ c, GPBanditAcquisitionBuilder.acquisition_fn b = UCB c →
               f xs
               = Ok (zip_with (λ m s, Fin (m + c * s)%Qc) mean stddev))
          ∧ (∀ c,
               GPBanditAcquisitionBuilder.acquisition_fn b
               = HyperVolumeScalarization c →
               ∃ out,
                 f xs = Ok out
                 ∧ out
                   = zip_with (λ m s, xmin (Fin m) (Fin (c * s)%Qc)) mean
                       stddev
                 ∧ ∀ i o m,
                     out !! i = Some o → mean !! i = Some m →
                     xle o (Fin m)).
Proof.
  intros Trial w w' problem model state features labels converter oim fim
    use_vmap Hrun b Hoff.
  destruct (GPBanditAcquisitionBuilder.heap w !! problem) as [v|] eqn:Hp.
  2: { destruct (single_build_dangling w problem model state features labels
                   converter oim fim use_vmap Hp) as (e & w'' & Hfail & _).
       rewrite Hfail in Hrun. discriminate. }
  rewrite (single_build_run w problem v model state features labels
             converter oim fim use_vmap Hp) in Hrun.
  injection Hrun as <-. subst b. simpl in *.
  eexists _, _. split; [reflexivity|]. split; [reflexivity|].
  intros xs. eexists _, _.
  unfold GPBanditAcquisitionBuilder.predict_on_array_fn,
    GPBanditAcquisitionBuilder.acquisition_on_array_fn; simpl.
  split; [reflexivity|]. rewrite Hoff. split.
  - intros c ->. reflexivity.
  - intros c ->. simpl. eexists. split; [reflexivity|].
    split; [reflexivity|].
    intros i o m Ho Hm.
    apply lookup_zip_with_Some in Ho as (m' & s & -> & Hm' & _).
    rewrite Hm in Hm'. injection Hm' as <-. apply xmin_le_l.
Qed.

End Ranking.

Section RankingDemo.
#[local] Existing Instance Demo.jax.
#[local] Existing Instance Demo.tfp.
#[local] Existing Instance Demo.process.
#[local] Existing Instance Demo.pyvizier.

(** One trusted row at [0.1], then a second one at [0.9]. *)
Lemma trust_region_grows_witness :
  ∃ distance distance',
    TrustRegion.min_linf_distance
      (TrustRegion.init [[qc 1 10]] [Demo.continuous_spec] None None)
      [[qc 2 10]]
    = Ok distance
    ∧ TrustRegion.min_linf_distance
        (TrustRegion.init ([[qc 1 10]] ++ [[qc 9 10]])
           [Demo.continuous_spec] None None)
        [[qc 2 10]]
      = Ok distance'
    ∧ (TrustRegion.trust_radius
         (TrustRegion.init [[qc 1 10]] [Demo.continuous_spec] None None)
       <= TrustRegion.trust_radius
            (TrustRegion.init ([[qc 1 10]] ++ [[qc 9 10]])
               [Demo.continuous_spec] None None))%Qc.
Proof.
  destruct (trust_region_grows [[qc 1 10]] [[qc 9 10]]
              [Demo.continuous_spec] 1
              ltac:(lia) eq_refl ltac:(discriminate)
              [[qc 2 10]]
              ltac:(repeat constructor) ltac:(repeat constructor))
    as (distance & distance' & Hrun & Hrun' & _ & _ & Hradius & _).
  exists distance, distance'.
  split; [exact Hrun|]. split; [exact Hrun'|exact Hradius].
Defined.


(** A UCB builder without gating. *)
Definition demo_ungated_world : GPBanditAcquisitionBuilder.world :=
  {| GPBanditAcquisitionBuilder.self :=
       GPBanditAcquisitionBuilder.init (UCB (qc 18 10)) false;
     GPBanditAcquisitionBuilder.heap := Demo.heap0 |}.

Definition demo_ungated_built : GPBanditAcquisitionBuilder.world :=
  snd (GPBanditAcquisitionBuilder.build 0 Demo.model Demo.state
         (Array Demo.trusted) Demo.labels Demo.converter None None false
         demo_ungated_world).

Lemma acquisition_from_prediction_witness :
  ∃ f g mean stddev,
    GPBanditAcquisitionBuilder.acquisition_on_array
      (GPBanditAcquisitionBuilder.self demo_ungated_built) = Ok f
    ∧ GPBanditAcquisitionBuilder.predict_on_array
        (GPBanditAcquisitionBuilder.self demo_ungated_built) = Ok g
    ∧ g demo_queries = Ok (mean, stddev)
    ∧ f demo_queries
      = Ok (zip_with (λ m s, Fin (m + qc 18 10 * s)%Qc) mean stddev).
Proof.
  destruct (acquisition_from_prediction demo_ungated_world
              demo_ungated_built 0 Demo.model Demo.state
              (Array Demo.trusted) Demo.labels Demo.converter None None
              false)
    as (f & g & Hf & Hg & Hvalues).
  - unfold demo_ungated_built.
    rewrite (single_build_run demo_ungated_world 0 Demo.problem);
      reflexivity.
  - reflexivity.
  - destruct (Hvalues demo_queries) as (mean & stddev & Hpred & Hucb & _).
    exists f, g, mean, stddev.
    split; [exact Hf|]. split; [exact Hg|]. split; [exact Hpred|].
    apply Hucb. reflexivity.
Defined.

End RankingDemo.
